(** * Artist-Dashboard: the data transformation core

    A shallow embedding of [src/data/data_processor.py] and
    [src/utils/analytics.py], with the part of pandas, numpy and Python
    these two files call, and the properties of the transformation layer
    stated over it. The date helpers of [src/utils/date_utils.py], the
    date list of [src/data/sample_data.py] and the dataclasses of
    [src/models/streaming_data.py] follow, with what they share with the
    two files.

    Modelling decisions, all of them about the libraries the code calls:
    - a float64 is an exact rational or one of the IEEE specials NaN,
      +inf, -inf: rounding, overflow to infinity, underflow to zero and
      the sign of zero are not modelled, so every arithmetic law below is
      the one of exact arithmetic extended with the specials; where the
      code divides by a zero that may be negative, or multiplies a number
      that may be as small as to give zero, the properties keep to what
      holds of the floats as well;
    - an int64 is a [Z] and a column sum wraps around at 64 bits;
    - a datetime64 is a [Z], the nanoseconds since 1970-01-01, and the
      missing date NaT is not modelled: dates are calendar dates;
    - a DataFrame is an object in a store, passed by reference, so that
      [data[c] = ...] on an argument is seen by the caller. *)

From stdpp Require Import base decidable option numbers list strings pretty sorting.
From Stdlib Require Import Ascii QArith Qround Qcanon Lqa.

Open Scope Z_scope.

(** ** Floating-point values *)

Inductive float :=
| Fin (q : Qc)
| PInf
| NInf
| NaN.

#[export] Instance float_eq_dec : EqDecision float.
Proof. solve_decision. Defined.

Definition of_Z (z : Z) : float := Fin (Qc_of_Z z).
Definition of_nat (n : nat) : float := of_Z (Z.of_nat n).

Definition isnan (x : float) : bool :=
  match x with NaN => true | _ => false end.

Definition isinf (x : float) : bool :=
  match x with PInf | NInf => true | _ => false end.

Definition fneg (x : float) : float :=
  match x with
  | Fin q => Fin (- q)%Qc
  | PInf => NInf
  | NInf => PInf
  | NaN => NaN
  end.

Definition fadd (x y : float) : float :=
  match x, y with
  | NaN, _ | _, NaN => NaN
  | Fin a, Fin b => Fin (a + b)%Qc
  | PInf, NInf | NInf, PInf => NaN
  | PInf, _ | _, PInf => PInf
  | NInf, _ | _, NInf => NInf
  end.

Definition fsub (x y : float) : float := fadd x (fneg y).

(** The sign of a rational, as [-1], [0] or [1]. *)
Definition sgn (q : Qc) : Z := Z.sgn (Qnum (this q)).

Definition signed_inf (s : Z) : float :=
  if decide (s = 0) then NaN else if decide (0 < s) then PInf else NInf.

(** The product is exact: it is zero only when a factor is, where the
    float product is zero for the smallest floats as well (underflow). *)
Definition fmul (x y : float) : float :=
  match x, y with
  | NaN, _ | _, NaN => NaN
  | Fin a, Fin b => Fin (a * b)%Qc
  | Fin a, PInf | PInf, Fin a => signed_inf (sgn a)
  | Fin a, NInf | NInf, Fin a => signed_inf (- sgn a)
  | PInf, PInf | NInf, NInf => PInf
  | PInf, NInf | NInf, PInf => NInf
  end.

(** IEEE division: a division by zero does not trap, it gives an
    infinity of the sign of the numerator, and NaN for [0 / 0]. (There
    is one zero here. Against the negative zero of IEEE arithmetic the
    infinity has the other sign: the properties below state the sign of
    a quotient by zero only where the zero is the zero of an integer,
    and say infinite elsewhere.) *)
Definition fdiv (x y : float) : float :=
  match x, y with
  | NaN, _ | _, NaN => NaN
  | Fin a, Fin b =>
      if decide (b = 0%Qc) then signed_inf (sgn a) else Fin (a / b)%Qc
  | Fin _, (PInf | NInf) => of_Z 0
  | PInf, Fin b => if decide (sgn b = -1) then NInf else PInf
  | NInf, Fin b => if decide (sgn b = -1) then PInf else NInf
  | (PInf | NInf), (PInf | NInf) => NaN
  end.

(** [x == y] and [x <= y]: every comparison with NaN is false. *)
Definition feqb (x y : float) : bool :=
  match x, y with
  | NaN, _ | _, NaN => false
  | _, _ => bool_decide (x = y)
  end.

Definition fleb (x y : float) : bool :=
  match x, y with
  | NaN, _ | _, NaN => false
  | NInf, _ | _, PInf => true
  | Fin a, Fin b => bool_decide (a <= b)%Qc
  | _, _ => false
  end.

(** The sum and the mean of IEEE arithmetic, and the sum that skips
    NaN cells ([skipna=True], the default of pandas' [sum]). *)
Definition fsum (l : list float) : float := foldr fadd (of_Z 0) l.

Definition fmean (l : list float) : float := fdiv (fsum l) (of_nat (length l)).

Definition nansum (l : list float) : float :=
  fsum (filter (λ x, isnan x = false) l).

(** The sum of rationals, and the number a cell adds to a sum that skips
    NaN. *)
Definition qsum (l : list Qc) : Qc := foldr Qcplus 0%Qc l.

Definition summand (x : float) : Qc :=
  match x with
  | Fin q => q
  | _ => 0%Qc
  end.

(** An int64 sum wraps around. *)
Definition wrap64 (z : Z) : Z := (z + 2 ^ 63) `mod` 2 ^ 64 - 2 ^ 63.

Definition zsum (l : list Z) : Z := foldr Z.add 0 l.

(** ** Python exceptions *)

Inductive exn :=
| KeyError (key : string)
| ValueError (msg : string)
| ParserError
| TypeError
| AttributeError
| IndexError
| ZeroDivisionError
| LinAlgError
| NameError.

#[export] Instance exn_eq_dec : EqDecision exn.
Proof. solve_decision. Defined.

Inductive result (A : Type) :=
| Return (a : A)
| Raise (e : exn).
Arguments Return {A} a.
Arguments Raise {A} e.

#[export] Instance result_eq_dec `{EqDecision A} : EqDecision (result A).
Proof. solve_decision. Defined.

#[export] Instance result_ret : MRet result := λ A a, Return a.

#[export] Instance result_bind : MBind result := λ A B f m,
  match m with
  | Return a => f a
  | Raise e => Raise e
  end.

#[export] Instance result_fmap : FMap result := λ A B f m,
  match m with
  | Return a => Return (f a)
  | Raise e => Raise e
  end.

Definition from_some {A} (e : exn) (o : option A) : result A :=
  match o with
  | Some a => Return a
  | None => Raise e
  end.

(** ** The calendar of pandas' [.dt] accessor

    A timestamp counts nanoseconds since 1970-01-01T00:00; its day number
    counts days since then (negative before), and the proleptic Gregorian
    calendar turns a day number into year, month and day, and into the
    ISO-8601 year and week (weeks start on Monday, week 1 holds the first
    Thursday of the year). *)

Module Calendar.

Definition ns_per_day : Z := 86400 * 10 ^ 9.

Definition day_number (ts : Z) : Z := ts `div` ns_per_day.

(** Year, month and day of a day number. *)
Definition civil_from_days (d : Z) : Z * Z * Z :=
  let z := d + 719468 in
  let era := z `div` 146097 in
  let doe := z - era * 146097 in
  let yoe := (doe - doe `div` 1460 + doe `div` 36524 - doe `div` 146096) `div` 365 in
  let doy := doe - (365 * yoe + yoe `div` 4 - yoe `div` 100) in
  let mp := (5 * doy + 2) `div` 153 in
  let day := doy - (153 * mp + 2) `div` 5 + 1 in
  let month := if decide (mp < 10) then mp + 3 else mp - 9 in
  let year := yoe + era * 400 + (if decide (month ≤ 2) then 1 else 0) in
  (year, month, day).

(** The day number of a year, month and day. *)
Definition days_from_civil (year month day : Z) : Z :=
  let y := if decide (month ≤ 2) then year - 1 else year in
  let era := y `div` 400 in
  let yoe := y - era * 400 in
  let mp := if decide (month ≤ 2) then month + 9 else month - 3 in
  let doy := (153 * mp + 2) `div` 5 + day - 1 in
  let doe := yoe * 365 + yoe `div` 4 - yoe `div` 100 + doy in
  era * 146097 + doe - 719468.

Definition year (ts : Z) : Z := (civil_from_days (day_number ts)).1.1.
Definition month (ts : Z) : Z := (civil_from_days (day_number ts)).1.2.

(** Monday is 0; day 0 was a Thursday. *)
Definition weekday (d : Z) : Z := (d + 3) `mod` 7.

(** The ISO year and week of a timestamp are those of the Thursday of
    its week. *)
Definition isocalendar (ts : Z) : Z * Z :=
  let d := day_number ts in
  let thursday := d - weekday d + 3 in
  let y := (civil_from_days thursday).1.1 in
  (y, (thursday - days_from_civil y 1 1) `div` 7 + 1).

(** Midnight of a calendar date, as a timestamp. *)
Definition midnight (year month day : Z) : Z :=
  days_from_civil year month day * ns_per_day.

Definition day (ts : Z) : Z := (civil_from_days (day_number ts)).2.

End Calendar.

(** ** Series and DataFrames *)

(** A column, by dtype. An [object] column holds Python strings. *)
Inductive Series :=
| datetime64 (l : list Z)
| object (l : list string)
| float64 (l : list float)
| int64 (l : list Z).

#[export] Instance Series_eq_dec : EqDecision Series.
Proof. solve_decision. Defined.

Definition series_len (s : Series) : nat :=
  match s with
  | datetime64 l => length l
  | object l => length l
  | float64 l => length l
  | int64 l => length l
  end.

(** A Python dict keeps its keys in insertion order; assigning to a key
    that is present keeps its place. *)
Fixpoint dict_get {V} (k : string) (d : list (string * V)) : option V :=
  match d with
  | [] => None
  | (k', v) :: d => if decide (k' = k) then Some v else dict_get k d
  end.

Fixpoint dict_set {V} (k : string) (v : V) (d : list (string * V)) : list (string * V) :=
  match d with
  | [] => [(k, v)]
  | (k', v') :: d => if decide (k' = k) then (k, v) :: d else (k', v') :: dict_set k v d
  end.

(** A dict display [{k1: v1, k2: v2}]. *)
Definition dict_of {V} (items : list (string * V)) : list (string * V) :=
  foldl (λ d kv, dict_set kv.1 kv.2 d) [] items.

(** A DataFrame: the row labels and the columns, in order. *)
Record DataFrame := {
  index : list Z;
  columns : list (string * Series)
}.

#[export] Instance DataFrame_eq_dec : EqDecision DataFrame.
Proof. solve_decision. Defined.

Definition nrows (df : DataFrame) : nat := length (index df).

(** Every column is as long as the index. *)
Definition wf_frame (df : DataFrame) : Prop :=
  Forall (λ c, series_len c.2 = nrows df) (columns df).

#[export] Instance wf_frame_dec df : Decision (wf_frame df).
Proof. unfold wf_frame. apply _. Defined.

(** [RangeIndex(n)]. *)
Definition range_index (n : nat) : list Z := Z.of_nat <$> seq 0 n.

(** ** The store

    A variable of the program holds a reference to a DataFrame; the
    store maps references to the objects. A computation threads the
    store and either returns or raises; a raise keeps the store as the
    statements before it left it. *)

Abbreviation ref := nat (only parsing).
Abbreviation heap := (list DataFrame) (only parsing).

Definition py (A : Type) : Type := heap → result A * heap.

#[export] Instance py_ret : MRet py := λ A a h, (Return a, h).

#[export] Instance py_bind : MBind py := λ A B f m h,
  match m h with
  | (Return a, h') => f a h'
  | (Raise e, h') => (Raise e, h')
  end.

Definition raise {A} (e : exn) : py A := λ h, (Raise e, h).

Definition lift {A} (r : result A) : py A := λ h, (r, h).

(** The object a reference points to (a reference the store does not
    hold is a name that is not bound). *)
Definition deref (data : ref) : py DataFrame := λ h,
  (from_some NameError (h !! data), h).

(** A new object. *)
Definition new (df : DataFrame) : py ref := λ h, (Return (length h), h ++ [df]).

(** Replacing the object a reference points to. *)
Definition store (data : ref) (df : DataFrame) : py unit := λ h,
  (Return (), <[data := df]> h).

(** [data[key]] *)
Definition getitem (data : ref) (key : string) : py Series :=
  df ← deref data;
  lift (from_some (KeyError key) (dict_get key (columns df))).

(** [data[key] = s], in place. *)
Definition with_column (key : string) (s : Series) (df : DataFrame) : DataFrame :=
  {| index := index df; columns := dict_set key s (columns df) |}.

Definition setitem (data : ref) (key : string) (s : Series) : py unit :=
  df ← deref data;
  store data (with_column key s df).

(** [data.copy()] *)
Definition copy (data : ref) : py ref :=
  df ← deref data;
  new df.

(** [len(data)] *)
Definition len (data : ref) : py nat :=
  df ← deref data;
  mret (nrows df).

(** ** The pandas operations the code calls *)

(** [pd.to_datetime] on a string and on a number is pandas' own parser:
    it is a parameter of the development. [None] stands for a raise. *)
Class DatetimeParser := {
  parse_datetime : string → option Z;
  datetime_of_float : float → option Z
}.

(** [pd.api.types.is_datetime64_dtype] *)
Definition is_datetime64_dtype (s : Series) : bool :=
  match s with
  | datetime64 _ => true
  | _ => false
  end.

(** [pd.to_datetime] on a string. *)
Definition to_datetime_str `{DatetimeParser} (s : string) : result Z :=
  from_some ParserError (parse_datetime s).

(** [pd.to_datetime] on a column: an integer counts nanoseconds. *)
Definition to_datetime `{DatetimeParser} (s : Series) : result Series :=
  match s with
  | datetime64 l => Return (datetime64 l)
  | int64 l => Return (datetime64 l)
  | object l => datetime64 <$> mapM to_datetime_str l
  | float64 l => datetime64 <$> mapM (λ x, from_some ParserError (datetime_of_float x)) l
  end.

(** The [.dt] accessor exists on datetime columns only. *)
Definition dt (s : Series) : result (list Z) :=
  match s with
  | datetime64 l => Return l
  | _ => Raise AttributeError
  end.

(** [s.dt.isocalendar().week] and [s.dt.isocalendar().year] (the
    integer dtypes of pandas, UInt32 and int32 here, are one dtype). *)
Definition dt_isocalendar_week (s : Series) : result Series :=
  l ← dt s; Return (int64 ((λ t, (Calendar.isocalendar t).2) <$> l)).

Definition dt_isocalendar_year (s : Series) : result Series :=
  l ← dt s; Return (int64 ((λ t, (Calendar.isocalendar t).1) <$> l)).

(** [s.dt.month] and [s.dt.year] *)
Definition dt_month (s : Series) : result Series :=
  l ← dt s; Return (int64 (Calendar.month <$> l)).

Definition dt_year (s : Series) : result Series :=
  l ← dt s; Return (int64 (Calendar.year <$> l)).

(** The cells of a numeric column, as floats. Arithmetic on the other
    dtypes raises. *)
Definition as_float (s : Series) : result (list float) :=
  match s with
  | float64 l => Return l
  | int64 l => Return (of_Z <$> l)
  | _ => Raise TypeError
  end.

(** [s.shift(periods)] on a numeric column: the cells move down and the
    first ones become NaN, which makes the column float64. (On another
    dtype pandas shifts as well and the arithmetic that follows in the
    code raises the TypeError.) *)
Definition shift (periods : nat) (s : Series) : result Series :=
  l ← as_float s;
  Return (float64 (take (length l) (replicate periods NaN ++ l))).

(** [a - b], [a / b] and [a * x], cell by cell (the two columns of a
    frame share its index). [/] is the true division and gives float64;
    [-] stays in int64 between two int64 columns. *)
Definition series_sub (a b : Series) : result Series :=
  match a, b with
  | int64 x, int64 y => Return (int64 (zip_with (λ u v, wrap64 (u - v)) x y))
  | _, _ => x ← as_float a; y ← as_float b; Return (float64 (zip_with fsub x y))
  end.

Definition series_div (a b : Series) : result Series :=
  x ← as_float a; y ← as_float b; Return (float64 (zip_with fdiv x y)).

Definition series_div_scalar (a : Series) (y : float) : result Series :=
  x ← as_float a; Return (float64 ((λ u, fdiv u y) <$> x)).

Definition series_mul_scalar (a : Series) (y : float) : result Series :=
  x ← as_float a; Return (float64 ((λ u, fmul u y) <$> x)).

(** [s.sum()] of a numeric column. *)
Definition series_sum (s : Series) : result float :=
  match s with
  | int64 l => Return (of_Z (wrap64 (zsum l)))
  | float64 l => Return (nansum l)
  | _ => Raise TypeError
  end.

(** [s.rolling(window=w).mean()]: the window that ends at row [i] holds
    the [w] cells up to [i]; [min_periods] defaults to [w], so that a row
    with fewer cells before it, or with a NaN in its window, gets NaN.
    (pandas keeps a running sum, which is the sum of the window as long
    as no cell is infinite; a column with an infinite cell is outside the
    model, and no property below is about one.) *)
Definition window_at (w i : nat) (l : list float) : list float :=
  take w (drop (S i - w) l).

Definition rolling_mean_at (w : nat) (l : list float) (i : nat) : float :=
  if decide (S i < w)%nat then NaN
  else if existsb isnan (window_at w i l) then NaN
  else fmean (window_at w i l).

Definition rolling_mean (w : nat) (s : Series) : result Series :=
  l ← as_float s;
  Return (float64 (rolling_mean_at w l <$> seq 0 (length l))).

(** [s >= t] and [s <= t] between a datetime column and a timestamp, and
    [a & b]. *)
Definition series_ge (s : Series) (t : Z) : result (list bool) :=
  match s with
  | datetime64 l => Return ((λ d, bool_decide (t ≤ d)) <$> l)
  | _ => Raise TypeError
  end.

Definition series_le (s : Series) (t : Z) : result (list bool) :=
  match s with
  | datetime64 l => Return ((λ d, bool_decide (d ≤ t)) <$> l)
  | _ => Raise TypeError
  end.

Definition mask_and (a b : list bool) : list bool := zip_with andb a b.

(** [data[mask]]: the rows where the mask holds, with their labels. *)
Definition select {A} (mask : list bool) (l : list A) : list A :=
  (filter (λ p, p.1 = true) (zip mask l)).*2.

Definition series_select (mask : list bool) (s : Series) : Series :=
  match s with
  | datetime64 l => datetime64 (select mask l)
  | object l => object (select mask l)
  | float64 l => float64 (select mask l)
  | int64 l => int64 (select mask l)
  end.

Definition frame_select (mask : list bool) (df : DataFrame) : DataFrame :=
  {| index := select mask (index df);
     columns := prod_map id (series_select mask) <$> columns df |}.

(** [s.min()] and [s.max()] of a datetime column that is not empty. *)
Definition dates_min (l : list Z) : option Z :=
  match l with
  | [] => None
  | t :: l => Some (foldr Z.min t l)
  end.

Definition dates_max (l : list Z) : option Z :=
  match l with
  | [] => None
  | t :: l => Some (foldr Z.max t l)
  end.

(** [s.dt.day] and [s.dt.weekday] *)
Definition dt_day (s : Series) : result Series :=
  l ← dt s; Return (int64 (Calendar.day <$> l)).

Definition dt_weekday (s : Series) : result Series :=
  l ← dt s; Return (int64 ((λ t, Calendar.weekday (Calendar.day_number t)) <$> l)).

(** [s.apply(f)] for a function on integers that returns a string: the
    cells are passed one by one, in row order, and the first raise is the
    raise of the call. (The code applies such functions to integer
    columns only; a cell of another dtype is no list index.) *)
Definition series_apply (f : Z → result string) (s : Series) : result Series :=
  match s with
  | int64 l => object <$> mapM f l
  | _ => Raise TypeError
  end.

(** [np.cumsum]: the running sums, from the first cell on. *)
Fixpoint accumulate {A} (add : A → A → A) (acc : A) (l : list A) : list A :=
  match l with
  | [] => []
  | x :: l => add acc x :: accumulate add (add acc x) l
  end.

(** [s.cumsum()]: int64 sums wrap around; in a float64 column a NaN
    cell counts as zero in the running sum and stays NaN in the result
    ([skipna=True]); strings are concatenated; datetimes have no sum. *)
Definition series_cumsum (s : Series) : result Series :=
  match s with
  | int64 l => Return (int64 (accumulate (λ a x, wrap64 (a + x)) 0 l))
  | float64 l =>
      Return (float64 (zip_with (λ (x c : float), if isnan x then NaN else c) l
                         (accumulate fadd (of_Z 0) ((λ x, if isnan x then of_Z 0 else x) <$> l))))
  | object l => Return (object (accumulate String.append "" l))
  | datetime64 _ => Raise TypeError
  end.

(** *** groupby *)

(** The group keys are pairs of integers, in lexicographic order. *)
Definition key_le (a b : Z * Z) : Prop :=
  a.1 < b.1 ∨ (a.1 = b.1 ∧ a.2 ≤ b.2).

#[export] Instance key_le_dec a b : Decision (key_le a b).
Proof. unfold key_le. apply _. Defined.

(** The distinct keys, sorted ([groupby] sorts its groups). *)
Definition group_keys (keys : list (Z * Z)) : list (Z * Z) :=
  merge_sort key_le (remove_dups keys).

(** The cells of the rows of one group, in row order. *)
Definition group {A} (keys : list (Z * Z)) (l : list A) (k : Z * Z) : list A :=
  (filter (λ p, p.1 = k) (zip keys l)).*2.

Inductive aggfunc :=
| agg_sum
| agg_first.

(** One column aggregated over the groups [gk]. ['sum'] adds numbers,
    skipping NaN, and concatenates strings; ['first'] takes the first
    cell of the group that is not missing (a group is never empty). *)
Definition agg (f : aggfunc) (keys gk : list (Z * Z)) (s : Series) : result Series :=
  match f, s with
  | agg_sum, int64 l => Return (int64 ((λ k, wrap64 (zsum (group keys l k))) <$> gk))
  | agg_sum, float64 l => Return (float64 ((λ k, nansum (group keys l k)) <$> gk))
  | agg_sum, object l => Return (object ((λ k, foldr String.append "" (group keys l k)) <$> gk))
  | agg_sum, datetime64 _ => Raise TypeError
  | agg_first, datetime64 l => Return (datetime64 ((λ k, default 0 (head (group keys l k))) <$> gk))
  | agg_first, int64 l => Return (int64 ((λ k, default 0 (head (group keys l k))) <$> gk))
  | agg_first, object l => Return (object ((λ k, default "" (head (group keys l k))) <$> gk))
  | agg_first, float64 l =>
      Return (float64 ((λ k, default NaN (head (filter (λ x, isnan x = false) (group keys l k)))) <$> gk))
  end.

(** The integer cells of a key column. *)
Definition as_int (s : Series) : result (list Z) :=
  match s with
  | int64 l => Return l
  | _ => Raise TypeError
  end.

Definition column (df : DataFrame) (key : string) : result Series :=
  from_some (KeyError key) (dict_get key (columns df)).

(** [df.groupby([by1, by2]).agg(spec).reset_index()]: a new frame with
    one row per group, the two key columns first, then the aggregated
    columns in the order of [spec]. A key column cannot be aggregated. *)
Definition groupby_agg_reset_index (df : DataFrame) (by1 by2 : string)
    (spec : list (string * aggfunc)) : result DataFrame :=
  k1 ← column df by1 ≫= as_int;
  k2 ← column df by2 ≫= as_int;
  let keys := zip k1 k2 in
  let gk := group_keys keys in
  cols ← mapM (λ cf : string * aggfunc,
            if decide (cf.1 = by1 ∨ cf.1 = by2) then Raise (KeyError cf.1)
            else s ← column df cf.1; a ← agg cf.2 keys gk s; Return (cf.1, a)) spec;
  Return {| index := range_index (length gk);
            columns := (by1, int64 gk.*1) :: (by2, int64 gk.*2) :: cols |}.

(** ** src/data/data_processor.py *)

(** A date bound of [filter_by_date_range]: a string or a timestamp. *)
Inductive date_arg :=
| date_str (s : string)
| timestamp (t : Z).

Module data_processor.

(** The statement both aggregations and the filter start with:
<<
    if not pd.api.types.is_datetime64_dtype(data[date_column]):
        data[date_column] = pd.to_datetime(data[date_column])
>> *)
Definition ensure_datetime `{DatetimeParser} (data : ref) (date_column : string) : py unit :=
  d ← getitem data date_column;
  if is_datetime64_dtype d then mret ()
  else
    d ← getitem data date_column;
    d ← lift (to_datetime d);
    setitem data date_column d.

Definition convert_to_weekly `{DatetimeParser} (data : ref) (date_column value_column : string) : py ref :=
  ensure_datetime data date_column;;
  d ← getitem data date_column;
  week ← lift (dt_isocalendar_week d);
  setitem data "week" week;;
  d ← getitem data date_column;
  year ← lift (dt_isocalendar_year d);
  setitem data "year" year;;
  df ← deref data;
  weekly_data ← lift (groupby_agg_reset_index df "year" "week"
                   (dict_of [(value_column, agg_sum); (date_column, agg_first)]));
  new weekly_data.

Definition convert_to_monthly `{DatetimeParser} (data : ref) (date_column value_column : string) : py ref :=
  ensure_datetime data date_column;;
  d ← getitem data date_column;
  month ← lift (dt_month d);
  setitem data "month" month;;
  d ← getitem data date_column;
  year ← lift (dt_year d);
  setitem data "year" year;;
  df ← deref data;
  monthly_data ← lift (groupby_agg_reset_index df "year" "month"
                    (dict_of [(value_column, agg_sum); (date_column, agg_first)]));
  new monthly_data.

Definition calculate_growth_rate (data : ref) (value_column : string) : py ref :=
  data ← copy data;
  v ← getitem data value_column;
  previous ← lift (shift 1 v);
  setitem data "previous_value" previous;;
  v ← getitem data value_column;
  previous ← getitem data "previous_value";
  change ← lift (series_sub v previous);
  previous ← getitem data "previous_value";
  rate ← lift (series_div change previous);
  setitem data "growth_rate" rate;;
  mret data.

(** The name [f'{value_column}_ma{window}']. *)
Definition ma_column (value_column : string) (window : nat) : string :=
  value_column +:+ "_ma" +:+ pretty window.

Definition calculate_moving_average (data : ref) (value_column : string) (window : nat) : py ref :=
  data ← copy data;
  v ← getitem data value_column;
  ma ← lift (rolling_mean window v);
  setitem data (ma_column value_column window) ma;;
  mret data.

(** [isinstance(d, str)] and [pd.to_datetime(d)] on a bound. *)
Definition normalize_bound `{DatetimeParser} (d : date_arg) : result Z :=
  match d with
  | date_str s => to_datetime_str s
  | timestamp t => Return t
  end.

Definition filter_by_date_range `{DatetimeParser} (data : ref) (date_column : string)
    (start_date end_date : date_arg) : py ref :=
  ensure_datetime data date_column;;
  start_date ← lift (normalize_bound start_date);
  end_date ← lift (normalize_bound end_date);
  d ← getitem data date_column;
  ge ← lift (series_ge d start_date);
  d ← getitem data date_column;
  le ← lift (series_le d end_date);
  df ← deref data;
  new (frame_select (mask_and ge le) df).

Definition calculate_percentages (data : ref) (value_column : string) (total : option float) : py ref :=
  data ← copy data;
  total ← match total with
          | None => v ← getitem data value_column; lift (series_sum v)
          | Some total => mret total
          end;
  v ← getitem data value_column;
  share ← lift (series_div_scalar v total);
  pct ← lift (series_mul_scalar share (of_Z 100));
  setitem data (value_column +:+ "_pct") pct;;
  mret data.

End data_processor.

(** ** Python built-ins *)

(** [x < y] on floats. *)
Definition fltb (x y : float) : bool :=
  match x, y with
  | NaN, _ | _, NaN => false
  | _, NInf | PInf, _ => false
  | NInf, _ | _, PInf => true
  | Fin a, Fin b => bool_decide (a < b)%Qc
  end.

(** [min(a, b)] keeps its first argument unless the second is smaller. *)
Definition py_min (a b : float) : float := if fltb b a then b else a.

(** [sum(xs)] adds from the left, starting from 0. *)
Definition py_sum (l : list float) : float := foldl fadd (of_Z 0) l.

(** [range(n)] *)
Definition range (n : Z) : list Z := Z.of_nat <$> seq 0 (Z.to_nat n).

(** [l[i]]: a negative index counts from the end. *)
Definition list_getitem {A} (l : list A) (i : Z) : result A :=
  from_some IndexError
    (if decide (0 ≤ i) then l !! Z.to_nat i
     else if decide (- Z.of_nat (length l) ≤ i) then l !! Z.to_nat (Z.of_nat (length l) + i)
     else None).

(** A decimal literal, as the rational it denotes. *)
Definition decimal (n : Z) (d : positive) : float := Fin (Q2Qc (n # d)).

(** The numbers of the code are floats and Python integers, and an
    integer that meets a float in an operation is converted first, which
    raises an OverflowError when it is beyond the largest float,
    [(2 - 2^-52) * 2^1023]. The model has one type for both, and no
    such error: a property that says which error a call raises, or that
    it raises none, is stated for numbers that a float holds. *)
Definition float_max : Qc := Qc_of_Z ((2 ^ 53 - 1) * 2 ^ 971).

Definition is_float (x : float) : Prop :=
  match x with
  | Fin q => (- float_max <= q)%Qc ∧ (q <= float_max)%Qc
  | _ => True
  end.

(** ** src/utils/analytics.py *)

(** Python's [a / b] on two numbers raises on a zero divisor. (With an
    integer operand beyond the float range it raises an OverflowError,
    which is outside the model: see [is_float].) *)
Definition truediv (a b : float) : result float :=
  if feqb b (of_Z 0) then Raise ZeroDivisionError else Return (fdiv a b).

(** [np.arange(a, b)] *)
Definition arange (a b : Z) : list Z :=
  (λ i, a + Z.of_nat i) <$> seq 0 (Z.to_nat (b - a)).

(** The cells of a vector, when all of them are finite. *)
Definition finite_values (y : list float) : option (list Qc) :=
  mapM (λ x, match x with Fin q => Some q | _ => None end) y.

(** [np.polyfit(x, y, 1)]: the slope and the intercept of the
    least-squares line through the points [(x_i, y_i)]. Empty vectors
    and vectors of two lengths are refused. A [y] with a cell that is not
    finite makes the solver give up, and so does an [x] that is constant
    (the code calls it with [x = arange(n)], where this is the single
    point [x = [0]], whose scaled system holds a NaN). *)
Definition polyfit1 (x : list Z) (y : list float) : result (float * float) :=
  if decide (x = [] ∨ length x ≠ length y) then Raise TypeError
  else
    match finite_values y with
    | None => Raise LinAlgError
    | Some q =>
      let n := Qc_of_Z (Z.of_nat (length x)) in
      let x := Qc_of_Z <$> x in
      let sx := qsum x in
      let sxx := qsum (zip_with Qcmult x x) in
      let sy := qsum q in
      let sxy := qsum (zip_with Qcmult x q) in
      let det := (n * sxx - sx * sx)%Qc in
      if decide (det = 0%Qc) then Raise LinAlgError
      else
        let slope := ((n * sxy - sx * sy) / det)%Qc in
        Return (Fin slope, Fin ((sy - slope * sx) / n)%Qc)
    end.

(** The first argument of [calculate_percentile]: a DataFrame or a
    Series. *)
Inductive dataset :=
| frame (data : ref)
| series (s : Series).

Module analytics.

Definition calculate_growth (current previous : float) : result float :=
  if feqb previous (of_Z 0) then Return PInf
  else truediv (fsub current previous) previous.

Definition calculate_running_average (data : ref) (column : string) (window : nat) : py Series :=
  v ← getitem data column;
  lift (rolling_mean window v).

(** [sum(data <= value) / len(data) * 100]: the mask of a Series is
    summed by Python's [sum], from the integer 0; iterating over the mask
    of a DataFrame gives its column names, which do not add to 0. *)
Definition calculate_percentile (data : dataset) (value : float) (column : option string) : py float :=
  data ← match column, data with
         | Some c, frame r => s ← getitem r c; mret (series s)
         | Some c, series _ => raise (KeyError c)
         | None, _ => mret data
         end;
  match data with
  | frame _ => raise TypeError
  | series s =>
    l ← lift (as_float s);
    let mask := (λ x, fleb x value) <$> l in
    ratio ← lift (truediv (of_nat (length (filter (λ b, b = true) mask))) (of_nat (length l)));
    mret (fmul ratio (of_Z 100))
  end.

(** The message [f"Prediction method '{method}' not supported"]. *)
Definition not_supported (method : string) : string :=
  "Prediction method '" +:+ method +:+ "' not supported".

Definition predict_future_value (data : ref) (column : string) (periods : Z) (method : string)
    : py (list float) :=
  if decide (method = "linear") then
    n ← len data;
    let x := arange 0 (Z.of_nat n) in
    y ← getitem data column ≫= λ s, lift (as_float s);
    '(slope, intercept) ← lift (polyfit1 x y);
    n ← len data;
    n' ← len data;
    let future_x := arange (Z.of_nat n) (Z.of_nat n' + periods) in
    let future_y := (λ x, fadd (fmul slope (of_Z x)) intercept) <$> future_x in
    mret future_y
  else if decide (method = "moving_average") then
    n ← len data;
    let window := min 7 n in
    v ← getitem data column;
    ma ← lift (rolling_mean window v) ≫= λ s, lift (as_float s);
    ma ← lift (from_some IndexError (last ma));
    mret (replicate (Z.to_nat periods) ma)
  else
    raise (ValueError (not_supported method)).

Definition calculate_cumulative_sum (data : ref) (column : string) : py Series :=
  v ← getitem data column;
  lift (series_cumsum v).

Definition calculate_conversion_rate (numerator denominator : float) : result float :=
  if feqb denominator (of_Z 0) then Return (of_Z 0)
  else truediv numerator denominator.

Definition calculate_retention (initial_value current_value : float) : result float :=
  if feqb initial_value (of_Z 0) then Return (of_Z 0)
  else truediv current_value initial_value.

Definition calculate_churn (initial_value current_value : float) : result float :=
  if feqb initial_value (of_Z 0) then Return (of_Z 0)
  else r ← truediv current_value initial_value; Return (fsub (of_Z 1) r).

(** The weights [[0.4, 0.2, 0.2, 0.2]] and the weighted score of the
    four normalized metrics, times 100. *)
Definition weights : list float := [decimal 4 10; decimal 2 10; decimal 2 10; decimal 2 10].

Definition weighted_score (streams saves shares completion_rate : float) : result float :=
  w0 ← list_getitem weights 0;
  w1 ← list_getitem weights 1;
  w2 ← list_getitem weights 2;
  w3 ← list_getitem weights 3;
  let score := fadd (fadd (fadd (fmul streams w0) (fmul saves w1)) (fmul shares w2))
                    (fmul completion_rate w3) in
  Return (fmul score (of_Z 100)).

Definition calculate_engagement_score (streams saves shares completion_rate : float)
    : result float :=
  r ← truediv streams (of_Z 10000);
  let normalized_streams := py_min r (of_Z 1) in
  r ← truediv saves (fmul streams (decimal 3 10));
  let normalized_saves := py_min r (of_Z 1) in
  r ← truediv shares (fmul streams (decimal 5 100));
  let normalized_shares := py_min r (of_Z 1) in
  weighted_score normalized_streams normalized_saves normalized_shares completion_rate.

End analytics.

(** ** src/utils/date_utils.py

    [datetime.now()] is the parameter [now] of the functions that read
    the clock. *)

Module date_utils.

Definition get_date_range `{DatetimeParser} (now : Z) (start_date : date_arg)
    (end_date : option date_arg) : result (list Z) :=
  let end_date := default (timestamp now) end_date in
  start_date ← data_processor.normalize_bound start_date;
  end_date ← data_processor.normalize_bound end_date;
  let days := (end_date - start_date) `div` Calendar.ns_per_day + 1 in
  Return ((λ i, start_date + i * Calendar.ns_per_day) <$> range days).

Definition get_days_from_period (time_period : string) : Z :=
  if decide (time_period = "Last 7 Days") then 7
  else if decide (time_period = "Last 30 Days") then 30
  else if decide (time_period = "Last 90 Days") then 90
  else if decide (time_period = "Last 6 Months") then 180
  else if decide (time_period = "Last Year") then 365
  else 30.

Definition get_date_range_for_period (now : Z) (time_period : string) : Z * Z :=
  let days := get_days_from_period time_period in
  let end_date := now in
  let start_date := end_date - (days - 1) * Calendar.ns_per_day in
  (start_date, end_date).

Definition get_month_name (month_num : Z) : result string :=
  let month_names :=
    ["January"; "February"; "March"; "April"; "May"; "June";
     "July"; "August"; "September"; "October"; "November"; "December"] in
  list_getitem month_names (month_num - 1).

Definition get_short_month_name (month_num : Z) : result string :=
  let month_names :=
    ["Jan"; "Feb"; "Mar"; "Apr"; "May"; "Jun";
     "Jul"; "Aug"; "Sep"; "Oct"; "Nov"; "Dec"] in
  list_getitem month_names (month_num - 1).

Definition get_weekday_name (weekday_num : Z) : result string :=
  let weekday_names :=
    ["Monday"; "Tuesday"; "Wednesday"; "Thursday"; "Friday"; "Saturday"; "Sunday"] in
  list_getitem weekday_names weekday_num.

Definition add_date_parts `{DatetimeParser} (df : ref) (date_column : string) : py ref :=
  df ← copy df;
  data_processor.ensure_datetime df date_column;;
  d ← getitem df date_column;
  year ← lift (dt_year d);
  setitem df "year" year;;
  d ← getitem df date_column;
  month ← lift (dt_month d);
  setitem df "month" month;;
  d ← getitem df date_column;
  day ← lift (dt_day d);
  setitem df "day" day;;
  d ← getitem df date_column;
  weekday ← lift (dt_weekday d);
  setitem df "weekday" weekday;;
  weekday ← getitem df "weekday";
  names ← lift (series_apply get_weekday_name weekday);
  setitem df "weekday_name" names;;
  month ← getitem df "month";
  names ← lift (series_apply get_short_month_name month);
  setitem df "month_name" names;;
  mret df.

End date_utils.

(** ** src/data/sample_data.py *)

Module sample_data.

Definition get_date_range (now : Z) (days : Z) (end_date : option Z) : list Z :=
  let end_date := default now end_date in
  let start_date := end_date - (days - 1) * Calendar.ns_per_day in
  (λ i, start_date + i * Calendar.ns_per_day) <$> range days.

End sample_data.

(** ** src/models/streaming_data.py

    The dataclasses, one module each, with their methods. The integer
    fields hold Python integers, which do not wrap. *)

Module StreamingMetrics.

Record t := {
  date : Z;
  streams : Z;
  followers : Z;
  saves : option Z;
  shares : option Z;
  likes : option Z;
  comments : option Z
}.

End StreamingMetrics.

Module Song.

Record t := {
  title : string;
  artist : string;
  album : option string;
  release_date : option Z;
  genre : option string;
  isrc : option string;
  duration_seconds : option Z
}.

End Song.

Module SongPerformance.

Record t := {
  song : Song.t;
  total_streams : Z;
  avg_completion_rate : float;
  saves : Z;
  shares : Z;
  daily_data : list StreamingMetrics.t;
  platform_distribution : list (string * Z)
}.

Definition save_rate (self : t) : result float :=
  if decide (total_streams self = 0) then Return (of_Z 0)
  else truediv (of_Z (saves self)) (of_Z (total_streams self)).

Definition share_rate (self : t) : result float :=
  if decide (total_streams self = 0) then Return (of_Z 0)
  else truediv (of_Z (shares self)) (of_Z (total_streams self)).

Definition get_engagement_score (self : t) : result float :=
  r ← truediv (of_Z (total_streams self)) (of_Z 10000);
  let norm_streams := py_min r (of_Z 1) in
  r ← save_rate self ≫= λ r, truediv r (decimal 3 10);
  let norm_saves := py_min r (of_Z 1) in
  r ← share_rate self ≫= λ r, truediv r (decimal 5 100);
  let norm_shares := py_min r (of_Z 1) in
  analytics.weighted_score norm_streams norm_saves norm_shares (avg_completion_rate self).

End SongPerformance.

Module ArtistProfile.

Record t := {
  name : string;
  total_followers : Z;
  total_streams : Z;
  song_count : Z;
  top_songs : list SongPerformance.t;
  daily_metrics : list StreamingMetrics.t;
  platform_distribution : list (string * Z);
  geographic_distribution : list (string * Z)
}.

(** The dict [get_performance_summary] returns, by key. *)
Record summary := {
  summary_name : string;
  summary_total_followers : Z;
  summary_total_streams : Z;
  summary_song_count : Z;
  avg_daily_streams : float;
  top_song : option string;
  platforms : nat;
  countries : nat
}.

Definition get_performance_summary (self : t) : result summary :=
  avg_daily_streams ←
    truediv (of_Z (zsum (StreamingMetrics.streams <$> daily_metrics self)))
            (of_nat (length (daily_metrics self)));
  Return {| summary_name := name self;
            summary_total_followers := total_followers self;
            summary_total_streams := total_streams self;
            summary_song_count := song_count self;
            avg_daily_streams := avg_daily_streams;
            top_song := (λ p, Song.title (SongPerformance.song p)) <$> head (top_songs self);
            platforms := length (platform_distribution self);
            countries := length (geographic_distribution self) |}.

(** The dict [get_growth_metrics] returns: stream growth and follower
    growth. *)
Definition growth (first last : Z) : result float :=
  if decide (0 < first) then truediv (of_Z (last - first)) (of_Z first)
  else Return (of_Z 0).

Definition get_growth_metrics (self : t) : result (float * float) :=
  if decide (length (daily_metrics self) < 2)%nat then Return (of_Z 0, of_Z 0)
  else
    first_metrics ← list_getitem (daily_metrics self) 0;
    last_metrics ← list_getitem (daily_metrics self) (-1);
    stream_growth ← growth (StreamingMetrics.streams first_metrics)
                           (StreamingMetrics.streams last_metrics);
    follower_growth ← growth (StreamingMetrics.followers first_metrics)
                             (StreamingMetrics.followers last_metrics);
    Return (stream_growth, follower_growth).

End ArtistProfile.

Module PlatformData.

Record t := {
  platform_name : string;
  streams : Z;
  revenue : float;
  avg_stream_value : float
}.

Definition revenue_per_thousand (self : t) : result float :=
  if decide (streams self = 0) then Return (of_Z 0)
  else r ← truediv (revenue self) (of_Z (streams self)); Return (fmul r (of_Z 1000)).

End PlatformData.

Module RevenueData.

Record t := {
  total_revenue : float;
  platform_breakdown : list PlatformData.t;
  daily_revenue : list (list (string * float))
}.

Definition get_platform_revenue_share (self : t) : result (list (string * float)) :=
  let total := py_sum (PlatformData.revenue <$> platform_breakdown self) in
  if feqb total (of_Z 0) then
    Return (dict_of ((λ platform, (PlatformData.platform_name platform, of_Z 0))
                       <$> platform_breakdown self))
  else
    dict_of <$> mapM (λ platform,
                  share ← truediv (PlatformData.revenue platform) total;
                  Return (PlatformData.platform_name platform, share))
                (platform_breakdown self).

Definition get_average_daily_revenue (self : t) : result float :=
  if decide (daily_revenue self = []) then Return (of_Z 0)
  else
    revenues ← mapM (λ day, from_some (KeyError "revenue") (dict_get "revenue" day))
                    (daily_revenue self);
    truediv (py_sum revenues) (of_nat (length (daily_revenue self))).

End RevenueData.

(** ** A parser for the examples

    The instance used to run the code on concrete tables: it reads the
    ISO form [YYYY-MM-DD] as midnight of that day, and a finite number as
    a count of nanoseconds, rounded down. *)

Definition digit (c : Ascii.ascii) : option Z :=
  let n := Z.of_nat (Ascii.nat_of_ascii c) in
  if decide (48 ≤ n ≤ 57) then Some (n - 48) else None.

Definition number (s : list Ascii.ascii) : option Z :=
  foldl (λ acc c, a ← acc; d ← digit c; Some (10 * a + d)) (Some 0) s.

Definition days_in_month (year month : Z) : Z :=
  Calendar.days_from_civil (if decide (month = 12) then year + 1 else year)
                           (if decide (month = 12) then 1 else month + 1) 1
  - Calendar.days_from_civil year month 1.

Definition parse_iso_date (s : string) : option Z :=
  match String.list_ascii_of_string s with
  | [y1; y2; y3; y4; "-"%char; m1; m2; "-"%char; d1; d2] =>
      y ← number [y1; y2; y3; y4];
      m ← number [m1; m2];
      d ← number [d1; d2];
      if decide (1 ≤ m ≤ 12 ∧ 1 ≤ d ≤ days_in_month y m)
      then Some (Calendar.midnight y m d) else None
  | _ => None
  end.

Definition floor_float (x : float) : option Z :=
  match x with
  | Fin q => Some (Qfloor q)
  | _ => None
  end.

#[export] Instance iso_parser : DatetimeParser := {|
  parse_datetime := parse_iso_date;
  datetime_of_float := floor_float
|}.

(** ** The records of a table

    The row view of a DataFrame: one record per row, with its label and
    its cell in every column. *)

Inductive cell :=
| date_cell (t : Z)
| str_cell (s : string)
| float_cell (x : float)
| int_cell (z : Z).

#[export] Instance cell_eq_dec : EqDecision cell.
Proof. solve_decision. Defined.

Definition cells (s : Series) : list cell :=
  match s with
  | datetime64 l => date_cell <$> l
  | object l => str_cell <$> l
  | float64 l => float_cell <$> l
  | int64 l => int_cell <$> l
  end.

Definition record : Type := Z * list (string * option cell).

Fixpoint rows (idx : list Z) (cols : list (string * list cell)) : list record :=
  match idx with
  | [] => []
  | i :: idx => (i, prod_map id head <$> cols) :: rows idx (prod_map id tail <$> cols)
  end.

Definition records (df : DataFrame) : list record :=
  rows (index df) (prod_map id cells <$> columns df).

(** The date of a record, and whether it lies between two bounds. *)
Definition record_date (date_column : string) (r : record) : option Z :=
  match dict_get date_column r.2 with
  | Some (Some (date_cell t)) => Some t
  | _ => None
  end.

Definition between (s e : Z) (date : option Z) : Prop :=
  match date with
  | Some t => s ≤ t ≤ e
  | None => False
  end.

#[export] Instance between_dec s e date : Decision (between s e date).
Proof. destruct date; apply _. Defined.

Definition in_range (date_column : string) (s e : Z) (r : record) : Prop :=
  between s e (record_date date_column r).

#[export] Instance in_range_dec date_column s e r : Decision (in_range date_column s e r) :=
  between_dec s e (record_date date_column r).

(** ** The table of the tests

    [setUp] of [src/tests/test_data_processor.py]: thirty days that end
    at [now], oldest first, with the values [100, 110, ...]. *)

Definition test_dates (now : Z) : list Z :=
  (λ i, now - (29 - Z.of_nat i) * Calendar.ns_per_day) <$> seq 0 30.

Definition test_values : list Z :=
  (λ i, 100 + Z.of_nat i * 10) <$> seq 0 30.

Definition test_df (now : Z) : DataFrame :=
  {| index := range_index 30;
     columns := [("date", datetime64 (test_dates now)); ("value", int64 test_values)] |}.

(** Noon of 2024-03-15, a moment for [datetime.now()]. *)
Definition a_moment : Z := Calendar.midnight 2024 3 15 + 12 * 3600 * 10 ^ 9.

(** A table whose value is zero on its first day. *)
Definition zero_df : DataFrame :=
  {| index := range_index 2;
     columns := [("date", datetime64 [Calendar.midnight 2024 1 1; Calendar.midnight 2024 1 2]);
                 ("value", int64 [0; 5])] |}.

(** A table whose dates are strings, as read from a file. *)
Definition str_df : DataFrame :=
  {| index := range_index 4;
     columns := [("date", object ["2024-01-01"; "2024-01-07"; "2024-01-08"; "2024-02-01"]);
                 ("value", int64 [1; 2; 3; 4])] |}.

(** The table without records, [pd.DataFrame({'date': [], 'value': []})]. *)
Definition empty_df : DataFrame :=
  {| index := [];
     columns := [("date", object []); ("value", object [])] |}.

(** ** Computations on a fresh table

    [on_new h m]: run in the store [h] extended with one new table, [m]
    leaves [h] as it is and touches the new table only. *)
Definition on_new {A} (h : list DataFrame) (m : py A) : Prop :=
  ∀ df, ∃ r df', m (h ++ [df]) = (r, h ++ [df']).

(** ** An artist with two days of metrics

    On the first day nobody has streamed yet. *)
Definition first_day : StreamingMetrics.t :=
  {| StreamingMetrics.date := Calendar.midnight 2024 1 1; StreamingMetrics.streams := 0;
     StreamingMetrics.followers := 5; StreamingMetrics.saves := None;
     StreamingMetrics.shares := None; StreamingMetrics.likes := None;
     StreamingMetrics.comments := None |}.

Definition last_day : StreamingMetrics.t :=
  {| StreamingMetrics.date := Calendar.midnight 2024 1 2; StreamingMetrics.streams := 300;
     StreamingMetrics.followers := 10; StreamingMetrics.saves := None;
     StreamingMetrics.shares := None; StreamingMetrics.likes := None;
     StreamingMetrics.comments := None |}.

Definition an_artist : ArtistProfile.t :=
  {| ArtistProfile.name := "A"; ArtistProfile.total_followers := 10;
     ArtistProfile.total_streams := 300; ArtistProfile.song_count := 1;
     ArtistProfile.top_songs := [];
     ArtistProfile.daily_metrics := [first_day; last_day];
     ArtistProfile.platform_distribution := [];
     ArtistProfile.geographic_distribution := [] |}.

(** An artist without history, and revenue from two platforms and from
    none. *)
Definition new_artist : ArtistProfile.t :=
  {| ArtistProfile.name := "B"; ArtistProfile.total_followers := 0;
     ArtistProfile.total_streams := 0; ArtistProfile.song_count := 0;
     ArtistProfile.top_songs := [];
     ArtistProfile.daily_metrics := [];
     ArtistProfile.platform_distribution := [];
     ArtistProfile.geographic_distribution := [] |}.

Definition two_platforms : RevenueData.t :=
  {| RevenueData.total_revenue := of_Z 40;
     RevenueData.platform_breakdown :=
       [ {| PlatformData.platform_name := "Spotify"; PlatformData.streams := 1000;
            PlatformData.revenue := of_Z 30; PlatformData.avg_stream_value := decimal 3 100 |};
         {| PlatformData.platform_name := "Deezer"; PlatformData.streams := 500;
            PlatformData.revenue := of_Z 10; PlatformData.avg_stream_value := decimal 2 100 |} ];
     RevenueData.daily_revenue := [] |}.

Definition no_revenue : RevenueData.t :=
  {| RevenueData.total_revenue := of_Z 0;
     RevenueData.platform_breakdown :=
       [ {| PlatformData.platform_name := "Spotify"; PlatformData.streams := 0;
            PlatformData.revenue := of_Z 0; PlatformData.avg_stream_value := of_Z 0 |} ];
     RevenueData.daily_revenue := [] |}.

(** A table with a missing value on its second day. *)
Definition gap_df : DataFrame :=
  {| index := range_index 3;
     columns := [("date", datetime64 [Calendar.midnight 2024 1 1; Calendar.midnight 2024 1 2;
                                      Calendar.midnight 2024 1 3]);
                 ("value", float64 [of_Z 1; NaN; of_Z 2])] |}.

(** A table whose values sum to zero. *)
Definition balanced_df : DataFrame :=
  {| index := range_index 3;
     columns := [("date", datetime64 [Calendar.midnight 2024 1 1; Calendar.midnight 2024 1 2;
                                      Calendar.midnight 2024 1 3]);
                 ("value", int64 [5; -5; 0])] |}.

(** * Properties *)

(** ** Running a computation *)

Lemma bind_run {A B} (m : py A) (f : A → py B) h :
  (m ≫= f) h = match m h with
               | (Return a, h') => f a h'
               | (Raise e, h') => (Raise e, h')
               end.
Proof. reflexivity. Qed.

Lemma bind_return {A B} (m : py A) (f : A → py B) h a h' :
  m h = (Return a, h') → (m ≫= f) h = f a h'.
Proof. intros E. by rewrite bind_run, E. Qed.

Lemma bind_raise {A B} (m : py A) (f : A → py B) h e h' :
  m h = (Raise e, h') → (m ≫= f) h = (Raise e, h').
Proof. intros E. by rewrite bind_run, E. Qed.

Lemma deref_run h data df :
  h !! data = Some df → deref data h = (Return df, h).
Proof. intros E. unfold deref. by rewrite E. Qed.

Lemma getitem_run h data df key s :
  h !! data = Some df → dict_get key (columns df) = Some s →
  getitem data key h = (Return s, h).
Proof.
  intros E Es. unfold getitem.
  rewrite (bind_return _ _ _ _ _ (deref_run _ _ _ E)).
  unfold lift. by rewrite Es.
Qed.

Lemma getitem_missing h data df key :
  h !! data = Some df → dict_get key (columns df) = None →
  getitem data key h = (Raise (KeyError key), h).
Proof.
  intros E Es. unfold getitem.
  rewrite (bind_return _ _ _ _ _ (deref_run _ _ _ E)).
  unfold lift. by rewrite Es.
Qed.

Lemma setitem_run h data df key s :
  h !! data = Some df →
  setitem data key s h = (Return (), <[data := with_column key s df]> h).
Proof.
  intros E. unfold setitem.
  by rewrite (bind_return _ _ _ _ _ (deref_run _ _ _ E)).
Qed.

Lemma copy_run h data df :
  h !! data = Some df → copy data h = (Return (length h), h ++ [df]).
Proof.
  intros E. unfold copy.
  by rewrite (bind_return _ _ _ _ _ (deref_run _ _ _ E)).
Qed.

Lemma len_run h data df :
  h !! data = Some df → len data h = (Return (nrows df), h).
Proof.
  intros E. unfold len.
  by rewrite (bind_return _ _ _ _ _ (deref_run _ _ _ E)).
Qed.

Lemma lookup_new (h : heap) (df : DataFrame) :
  (h ++ [df]) !! length h = Some df.
Proof. rewrite lookup_app_r by lia. by rewrite Nat.sub_diag. Qed.

Lemma lookup_old (h : heap) (df df' : DataFrame) (data : ref) :
  h !! data = Some df → (h ++ [df']) !! data = Some df.
Proof. intros E. by rewrite lookup_app_l by (by eapply lookup_lt_Some). Qed.

Lemma lookup_stored (h : heap) (df df' : DataFrame) (data : ref) :
  h !! data = Some df → <[data := df']> h !! data = Some df'.
Proof. intros E. apply list_lookup_insert_eq. by eapply lookup_lt_Some. Qed.

(** ** Dictionaries *)

Lemma dict_get_set_eq {V} k (v : V) d : dict_get k (dict_set k v d) = Some v.
Proof.
  induction d as [|[k' v'] d IH]; simpl.
  - by rewrite decide_True.
  - destruct (decide (k' = k)) as [->|Hne]; simpl.
    + by rewrite decide_True.
    + by rewrite decide_False.
Qed.

Lemma dict_get_set_ne {V} k k' (v : V) d :
  k ≠ k' → dict_get k' (dict_set k v d) = dict_get k' d.
Proof.
  intros Hne. induction d as [|[k0 v0] d IH]; simpl.
  - by rewrite decide_False.
  - destruct (decide (k0 = k)) as [->|Hne0]; simpl.
    + by rewrite !decide_False.
    + by rewrite IH.
Qed.

Lemma dict_set_id {V} k (v : V) d : dict_get k d = Some v → dict_set k v d = d.
Proof.
  induction d as [|[k0 v0] d IH]; simpl; [done|].
  destruct (decide (k0 = k)) as [->|Hne].
  - by intros [= ->].
  - intros E. by rewrite IH.
Qed.

Lemma store_new (h : heap) (df df' : DataFrame) :
  <[length h := df']> (h ++ [df]) = h ++ [df'].
Proof.
  rewrite insert_app_r_alt by lia. by rewrite Nat.sub_diag.
Qed.

(** A statement on the fresh copy: [getitem] and [setitem] there. *)
Lemma getitem_new h df key s :
  dict_get key (columns df) = Some s →
  getitem (length h) key (h ++ [df]) = (Return s, h ++ [df]).
Proof. intros. eapply getitem_run; [apply lookup_new|done]. Qed.

Lemma setitem_new h df key s :
  setitem (length h) key s (h ++ [df]) = (Return (), h ++ [with_column key s df]).
Proof. erewrite setitem_run by apply lookup_new. by rewrite store_new. Qed.

(** ** Growth rates *)

Lemma as_float_shift s vals :
  as_float s = Return vals →
  shift 1 s = Return (float64 (take (length vals) (NaN :: vals))).
Proof. intros E. unfold shift. by rewrite E. Qed.

Lemma series_sub_float s vals p :
  as_float s = Return vals →
  series_sub s (float64 p) = Return (float64 (zip_with fsub vals p)).
Proof. intros E. destruct s; simpl in *; by simplify_eq. Qed.

Lemma calculate_growth_rate_run h data df value_column s vals :
  h !! data = Some df →
  dict_get value_column (columns df) = Some s →
  as_float s = Return vals →
  value_column ≠ "previous_value" →
  let previous := take (length vals) (NaN :: vals) in
  let rate := zip_with fdiv (zip_with fsub vals previous) previous in
  data_processor.calculate_growth_rate data value_column h =
    (Return (length h),
     h ++ [{| index := index df;
              columns := dict_set "growth_rate" (float64 rate)
                           (dict_set "previous_value" (float64 previous) (columns df)) |}]).
Proof.
  intros Hd Hs Hv Hne previous rate. unfold data_processor.calculate_growth_rate.
  erewrite bind_return by (by apply copy_run).
  erewrite bind_return by (by apply getitem_new).
  erewrite bind_return by (unfold lift; by erewrite as_float_shift).
  erewrite bind_return by apply setitem_new.
  erewrite bind_return
    by (apply getitem_new; simpl; by rewrite dict_get_set_ne).
  erewrite bind_return by (apply getitem_new; simpl; apply dict_get_set_eq).
  erewrite bind_return by (unfold lift; by erewrite series_sub_float).
  erewrite bind_return by (apply getitem_new; simpl; apply dict_get_set_eq).
  erewrite bind_return by (unfold lift; reflexivity).
  erewrite bind_return by apply setitem_new.
  reflexivity.
Qed.

Lemma growth_rate_row (vals : list float) i prev cur :
  vals !! i = Some prev → vals !! S i = Some cur →
  zip_with fdiv (zip_with fsub vals (take (length vals) (NaN :: vals)))
    (take (length vals) (NaN :: vals)) !! S i = Some (fdiv (fsub cur prev) prev).
Proof.
  intros Hp Hc.
  assert (S i < length vals)%nat by (by eapply lookup_lt_Some).
  rewrite !lookup_zip_with, lookup_take_lt by done.
  simpl. by rewrite Hc, Hp.
Qed.

(** C5: [calculate_growth_rate] returns a table whose [growth_rate]
    column holds, at every row [i > 0], the quotient
    [(value[i] - value[i-1]) / value[i-1]] (of IEEE arithmetic, and of
    the rationals when both values are finite and the previous one is not
    zero), and at row 0 the undefined value NaN. *)
Theorem calculate_growth_rate_rows h data df value_column s vals :
  h !! data = Some df →
  dict_get value_column (columns df) = Some s →
  as_float s = Return vals →
  value_column ≠ "previous_value" →
  ∃ r h' out rate,
    data_processor.calculate_growth_rate data value_column h = (Return r, h') ∧
    h' !! r = Some out ∧
    dict_get "growth_rate" (columns out) = Some (float64 rate) ∧
    length rate = length vals ∧
    (vals ≠ [] → rate !! 0%nat = Some NaN) ∧
    (∀ i prev cur, vals !! i = Some prev → vals !! S i = Some cur →
       rate !! S i = Some (fdiv (fsub cur prev) prev)) ∧
    (∀ i prev cur, vals !! i = Some (Fin prev) → vals !! S i = Some (Fin cur) →
       prev ≠ 0%Qc → rate !! S i = Some (Fin ((cur - prev) / prev)%Qc)).
Proof.
  intros Hd Hs Hv Hne.
  pose proof (calculate_growth_rate_run h data df value_column s vals Hd Hs Hv Hne) as Hrun.
  simpl in Hrun.
  eexists _, _, _, _. split; [exact Hrun|].
  split; [apply lookup_new|].
  split; [simpl; apply dict_get_set_eq|].
  split; [|split; [|split]].
  - rewrite !length_zip_with, length_take. simpl. lia.
  - intros Hne0. destruct vals as [|v vals]; [done|].
    simpl. by destruct v.
  - apply growth_rate_row.
  - intros i prev cur Hp Hc Hz.
    rewrite (growth_rate_row _ _ _ _ Hp Hc). simpl. by rewrite decide_False.
Qed.

Lemma calculate_growth_rate_rows_witness :
  ∃ r h' out rate,
    data_processor.calculate_growth_rate 0%nat "value" [test_df a_moment] = (Return r, h') ∧
    h' !! r = Some out ∧
    dict_get "growth_rate" (columns out) = Some (float64 rate) ∧
    length rate = length (of_Z <$> test_values) ∧
    (of_Z <$> test_values ≠ [] → rate !! 0%nat = Some NaN) ∧
    (∀ i prev cur, (of_Z <$> test_values) !! i = Some prev →
       (of_Z <$> test_values) !! S i = Some cur →
       rate !! S i = Some (fdiv (fsub cur prev) prev)) ∧
    (∀ i prev cur, (of_Z <$> test_values) !! i = Some (Fin prev) →
       (of_Z <$> test_values) !! S i = Some (Fin cur) →
       prev ≠ 0%Qc → rate !! S i = Some (Fin ((cur - prev) / prev)%Qc)).
Proof.
  apply (calculate_growth_rate_rows [test_df a_moment] 0%nat (test_df a_moment)
           "value" (int64 test_values) (of_Z <$> test_values));
    [reflexivity | reflexivity | reflexivity | discriminate].
Defined.

(** ** Division by zero *)

Lemma sgn_pos q : (0 < q)%Qc → signed_inf (sgn q) = PInf.
Proof.
  unfold Qclt, Qlt, sgn, signed_inf. simpl. intros Hq.
  rewrite Z.mul_1_r in Hq.
  rewrite decide_False, decide_True; [done|lia..].
Qed.

Lemma sgn_neg q : (q < 0)%Qc → signed_inf (sgn q) = NInf.
Proof.
  unfold Qclt, Qlt, sgn, signed_inf. simpl. intros Hq.
  rewrite Z.mul_1_r in Hq.
  rewrite !decide_False; [done|lia..].
Qed.

Lemma fdiv_zero q : fdiv (Fin q) (of_Z 0) = signed_inf (sgn q).
Proof. reflexivity. Qed.

Lemma isinf_signed_inf q : q ≠ 0%Qc → isinf (signed_inf (sgn q)) = true.
Proof.
  intros Hq. unfold signed_inf, sgn.
  destruct (Qnum (this q)) as [|n|n] eqn:E; [|done..].
  destruct Hq. apply Qc_is_canon. unfold Qeq. simpl. by rewrite E.
Qed.

Lemma Qc_of_Z_pos z : 0 < z → (0 < Qc_of_Z z)%Qc.
Proof.
  intros Hz. unfold Qclt, Qc_of_Z. cbn [this Q2Qc]. rewrite Qred_correct.
  unfold Qlt. simpl. lia.
Qed.

Lemma Qc_of_Z_neg z : z < 0 → (Qc_of_Z z < 0)%Qc.
Proof.
  intros Hz. unfold Qclt, Qc_of_Z. cbn [this Q2Qc]. rewrite Qred_correct.
  unfold Qlt. simpl. lia.
Qed.

Lemma fsub_zero q : fsub (Fin q) (of_Z 0) = Fin q.
Proof.
  unfold fsub, of_Z. simpl. f_equal.
  replace (Qc_of_Z 0) with 0%Qc by (by apply Qc_is_canon). ring.
Qed.

(** C1, as the code has it: with a previous value of zero neither
    computation raises, and neither gives an undefined marker in
    general. [calculate_growth] returns positive infinity whatever the
    current value is. [calculate_growth_rate] gives the row the IEEE
    quotient by zero: an infinity when the value of the row is not zero,
    and NaN only when it is zero as well. After the zero of an integer
    column the infinity has the sign of the value of the row; in a float
    column the zero may be the negative zero of IEEE arithmetic, after
    which the signs are the other way round, and so the sign is stated
    for integer columns only. *)
Theorem growth_from_zero :
  (∀ current, analytics.calculate_growth current (of_Z 0) = Return PInf) ∧
  (∀ h data df value_column s vals,
     h !! data = Some df →
     dict_get value_column (columns df) = Some s →
     as_float s = Return vals →
     value_column ≠ "previous_value" →
     ∃ r h' out rate,
       data_processor.calculate_growth_rate data value_column h = (Return r, h') ∧
       h' !! r = Some out ∧
       dict_get "growth_rate" (columns out) = Some (float64 rate) ∧
       (∀ i cur, vals !! i = Some (of_Z 0) → vals !! S i = Some (Fin cur) →
          (cur ≠ 0%Qc → ∃ x, rate !! S i = Some x ∧ isinf x = true) ∧
          (cur = 0%Qc → rate !! S i = Some NaN)) ∧
       (∀ l i cur, s = int64 l → l !! i = Some 0 → l !! S i = Some cur →
          (0 < cur → rate !! S i = Some PInf) ∧
          (cur < 0 → rate !! S i = Some NInf) ∧
          (cur = 0 → rate !! S i = Some NaN))).
Proof.
  split.
  - intros current. reflexivity.
  - intros h data df value_column s vals Hd Hs Hv Hne.
    pose proof (calculate_growth_rate_run h data df value_column s vals Hd Hs Hv Hne) as Hrun.
    simpl in Hrun.
    eexists _, _, _, _. split; [exact Hrun|].
    split; [apply lookup_new|].
    split; [simpl; apply dict_get_set_eq|].
    split.
    + intros i cur Hp Hc.
      rewrite (growth_rate_row _ _ _ _ Hp Hc), fsub_zero, fdiv_zero.
      split.
      * intros Hcur. eexists. split; [reflexivity|]. by apply isinf_signed_inf.
      * by intros ->.
    + intros l i cur -> Hp Hc. simpl in Hv. injection Hv as <-.
      assert ((of_Z <$> l) !! i = Some (of_Z 0)) as Hp'
        by (by rewrite list_lookup_fmap, Hp).
      assert ((of_Z <$> l) !! S i = Some (Fin (Qc_of_Z cur))) as Hc'
        by (by rewrite list_lookup_fmap, Hc).
      rewrite (growth_rate_row _ _ _ _ Hp' Hc'), fsub_zero, fdiv_zero.
      split; [|split].
      * intros Hcur. by rewrite sgn_pos by (by apply Qc_of_Z_pos).
      * intros Hcur. by rewrite sgn_neg by (by apply Qc_of_Z_neg).
      * by intros ->.
Qed.

Lemma growth_from_zero_witness :
  ∃ r h' out rate,
    data_processor.calculate_growth_rate 0%nat "value" [zero_df] = (Return r, h') ∧
    h' !! r = Some out ∧
    dict_get "growth_rate" (columns out) = Some (float64 rate) ∧
    (∀ i cur, [of_Z 0; of_Z 5] !! i = Some (of_Z 0) → [of_Z 0; of_Z 5] !! S i = Some (Fin cur) →
       (cur ≠ 0%Qc → ∃ x, rate !! S i = Some x ∧ isinf x = true) ∧
       (cur = 0%Qc → rate !! S i = Some NaN)) ∧
    (∀ l i cur, int64 [0; 5] = int64 l → l !! i = Some 0 → l !! S i = Some cur →
       (0 < cur → rate !! S i = Some PInf) ∧
       (cur < 0 → rate !! S i = Some NInf) ∧
       (cur = 0 → rate !! S i = Some NaN)).
Proof.
  apply (proj2 growth_from_zero [zero_df] 0%nat zero_df "value" (int64 [0; 5]));
    [reflexivity | reflexivity | reflexivity | discriminate].
Defined.

(** C1 fails as stated: from a previous value of zero to a current value
    of 5, [calculate_growth] returns infinity, and so does the second row
    of [calculate_growth_rate]; neither is the undefined marker. *)
Lemma growth_from_zero_is_infinite :
  analytics.calculate_growth (of_Z 5) (of_Z 0) = Return PInf ∧
  analytics.calculate_growth (of_Z 5) (of_Z 0) ≠ Return NaN ∧
  ∃ out,
    data_processor.calculate_growth_rate 0%nat "value" [zero_df] = (Return 1%nat, [zero_df; out]) ∧
    dict_get "growth_rate" (columns out) = Some (float64 [NaN; PInf]).
Proof.
  split; [reflexivity|]. split; [discriminate|].
  eexists. split; reflexivity.
Qed.

(** ** Moving averages *)

Lemma fsum_nan l : existsb isnan l = true → fsum l = NaN.
Proof.
  induction l as [|x l IH]; simpl; [done|].
  destruct x; simpl; try done; intros E; by rewrite (IH E).
Qed.

Lemma fmean_nan l : existsb isnan l = true → fmean l = NaN.
Proof. intros E. unfold fmean. by rewrite (fsum_nan _ E). Qed.

Lemma fsum_finite (qs : list Qc) : fsum (Fin <$> qs) = Fin (qsum qs).
Proof.
  induction qs as [|q qs IH]; simpl.
  - unfold of_Z. f_equal. by apply Qc_is_canon.
  - change (fadd (Fin q) (fsum (Fin <$> qs)) = Fin (q + qsum qs)%Qc). by rewrite IH.
Qed.

Lemma Qc_of_Z_nonzero z : z ≠ 0 → Qc_of_Z z ≠ 0%Qc.
Proof.
  intros Hz E. apply Hz.
  apply (f_equal (λ q : Qc, Qnum (this q))) in E. by simpl in E.
Qed.

Lemma fmean_finite (qs : list Qc) :
  qs ≠ [] →
  fmean (Fin <$> qs) = Fin (qsum qs / Qc_of_Z (Z.of_nat (length qs)))%Qc.
Proof.
  intros Hne. unfold fmean. rewrite fsum_finite, length_fmap. unfold of_nat, of_Z. simpl.
  rewrite decide_False; [done|].
  apply Qc_of_Z_nonzero. destruct qs; [done|simpl; lia].
Qed.

(** The mean of the window, whether it holds a NaN or not. *)
Lemma rolling_mean_at_full w l i :
  (w ≤ S i)%nat → rolling_mean_at w l i = fmean (window_at w i l).
Proof.
  intros Hw. unfold rolling_mean_at.
  rewrite decide_False by lia.
  destruct (existsb isnan (window_at w i l)) eqn:E; [|done].
  by rewrite fmean_nan.
Qed.

Lemma rolling_mean_at_short w l i :
  (S i < w)%nat → rolling_mean_at w l i = NaN.
Proof. intros Hw. unfold rolling_mean_at. by rewrite decide_True. Qed.

Lemma calculate_moving_average_run h data df value_column window s vals :
  h !! data = Some df →
  dict_get value_column (columns df) = Some s →
  as_float s = Return vals →
  data_processor.calculate_moving_average data value_column window h =
    (Return (length h),
     h ++ [{| index := index df;
              columns := dict_set (data_processor.ma_column value_column window)
                           (float64 (rolling_mean_at window vals <$> seq 0 (length vals)))
                           (columns df) |}]).
Proof.
  intros Hd Hs Hv. unfold data_processor.calculate_moving_average.
  erewrite bind_return by (by apply copy_run).
  erewrite bind_return by (by apply getitem_new).
  erewrite bind_return by (unfold lift, rolling_mean; by rewrite Hv).
  erewrite bind_return by apply setitem_new.
  reflexivity.
Qed.

(** C6: on a table whose values are numbers (none is infinite), the
    moving average of [calculate_moving_average] (a column of the
    returned table) and of [calculate_running_average] (the column
    itself) is NaN at a row [i] with fewer than [window] values up to it,
    [i + 1 < window], and at every other row the arithmetic mean of the
    [window] values that end at row [i]: the IEEE mean, which is the sum
    of the rationals over [window] when these values are finite. *)
Theorem moving_average_rows h data df value_column window s vals :
  h !! data = Some df →
  dict_get value_column (columns df) = Some s →
  as_float s = Return vals →
  Forall (λ x, isinf x = false) vals →
  ∃ r h' out ma,
    data_processor.calculate_moving_average data value_column window h = (Return r, h') ∧
    h' !! r = Some out ∧
    dict_get (data_processor.ma_column value_column window) (columns out) = Some (float64 ma) ∧
    analytics.calculate_running_average data value_column window h = (Return (float64 ma), h) ∧
    length ma = length vals ∧
    ∀ i, (i < length vals)%nat →
      ((S i < window)%nat → ma !! i = Some NaN) ∧
      ((window ≤ S i)%nat →
         ∃ trailing,
           length trailing = window ∧
           (∀ j, (j < window)%nat → trailing !! j = vals !! (S i - window + j)%nat) ∧
           ma !! i = Some (fmean trailing) ∧
           (∀ qs, trailing = Fin <$> qs → (0 < window)%nat →
              ma !! i = Some (Fin (qsum qs / Qc_of_Z (Z.of_nat window))%Qc))).
Proof.
  intros Hd Hs Hv _.
  eexists _, _, _, _.
  split; [by eapply calculate_moving_average_run|].
  split; [apply lookup_new|].
  split; [simpl; apply dict_get_set_eq|].
  split.
  { unfold analytics.calculate_running_average.
    erewrite bind_return by (by eapply getitem_run).
    unfold lift, rolling_mean. by rewrite Hv. }
  split; [by rewrite length_fmap, length_seq|].
  intros i Hi.
  rewrite list_lookup_fmap, lookup_seq_lt by done. simpl.
  split.
  - intros Hw. by rewrite rolling_mean_at_short.
  - intros Hw. exists (window_at window i vals).
    assert (Hlen : length (window_at window i vals) = window).
    { unfold window_at. rewrite length_take, length_drop. lia. }
    split; [done|]. split; [|split].
    + intros j Hj. unfold window_at.
      by rewrite lookup_take_lt, lookup_drop by done.
    + by rewrite rolling_mean_at_full.
    + intros qs Hqs Hpos. rewrite rolling_mean_at_full by done.
      rewrite Hqs, fmean_finite.
      * rewrite Hqs, length_fmap in Hlen. by rewrite Hlen.
      * intros ->. rewrite Hqs in Hlen. simpl in Hlen. lia.
Qed.

Lemma moving_average_rows_witness :
  ∃ r h' out ma,
    data_processor.calculate_moving_average 0%nat "value" 7 [test_df a_moment] = (Return r, h') ∧
    h' !! r = Some out ∧
    dict_get (data_processor.ma_column "value" 7) (columns out) = Some (float64 ma) ∧
    analytics.calculate_running_average 0%nat "value" 7 [test_df a_moment]
      = (Return (float64 ma), [test_df a_moment]) ∧
    length ma = length (of_Z <$> test_values) ∧
    ∀ i, (i < length (of_Z <$> test_values))%nat →
      ((S i < 7)%nat → ma !! i = Some NaN) ∧
      ((7 ≤ S i)%nat →
         ∃ trailing,
           length trailing = 7%nat ∧
           (∀ j, (j < 7)%nat → trailing !! j = (of_Z <$> test_values) !! (S i - 7 + j)%nat) ∧
           ma !! i = Some (fmean trailing) ∧
           (∀ qs, trailing = Fin <$> qs → (0 < 7)%nat →
              ma !! i = Some (Fin (qsum qs / Qc_of_Z (Z.of_nat 7))%Qc))).
Proof.
  apply (moving_average_rows [test_df a_moment] 0%nat (test_df a_moment)
           "value" 7 (int64 test_values) (of_Z <$> test_values));
    [reflexivity | reflexivity | reflexivity |].
  by apply Forall_fmap, Forall_true.
Defined.

(** ** Percentile rank *)

Lemma Qc_of_Z_0 : Qc_of_Z 0 = 0%Qc.
Proof. by apply Qc_is_canon. Qed.

Lemma feqb_of_Z a b : feqb (of_Z a) (of_Z b) = bool_decide (a = b).
Proof.
  change (bool_decide (of_Z a = of_Z b) = bool_decide (a = b)).
  apply bool_decide_ext. split; [|by intros ->].
  by intros [= E].
Qed.

Lemma truediv_of_nat x n :
  n ≠ 0%nat → truediv x (of_nat n) = Return (fdiv x (of_nat n)).
Proof.
  intros Hn. unfold truediv, of_nat.
  rewrite feqb_of_Z, bool_decide_eq_false_2; [done|lia].
Qed.

Lemma truediv_zero x : truediv x (of_nat 0) = Raise ZeroDivisionError.
Proof. destruct x; reflexivity. Qed.

Lemma count_mask (l : list float) value :
  length (filter (λ b : bool, b = true) ((λ x, fleb x value) <$> l))
  = length (filter (λ x, fleb x value = true) l).
Proof.
  induction l as [|x l IH]; [done|].
  rewrite fmap_cons, !filter_cons. simpl.
  destruct (decide (fleb x value = true)); simpl; by rewrite IH.
Qed.

Lemma calculate_percentile_series h s value :
  analytics.calculate_percentile (series s) value None h =
    match as_float s with
    | Return l =>
        match truediv (of_nat (length (filter (λ x, fleb x value = true) l))) (of_nat (length l)) with
        | Return ratio => (Return (fmul ratio (of_Z 100)), h)
        | Raise e => (Raise e, h)
        end
    | Raise e => (Raise e, h)
    end.
Proof.
  unfold analytics.calculate_percentile, mbind, py_bind, mret, py_ret, lift.
  destruct (as_float s) as [l|e]; [|done].
  rewrite count_mask. by destruct (truediv _ _).
Qed.

Lemma calculate_percentile_frame h r df c s value :
  h !! r = Some df → dict_get c (columns df) = Some s →
  analytics.calculate_percentile (frame r) value (Some c) h
  = analytics.calculate_percentile (series s) value None h.
Proof.
  intros Hd Hs. unfold analytics.calculate_percentile.
  rewrite (bind_run (s0 ← getitem r c; mret (series s0))).
  by rewrite (bind_return _ _ _ _ _ (getitem_run _ _ _ _ _ Hd Hs)).
Qed.

(** C10: the division of [calculate_percentile] is not guarded. On an
    empty dataset (a Series, or the column of a DataFrame) the call raises
    ZeroDivisionError; on a dataset that is not empty it returns, and the
    value is the number of elements [<= value] over the number of
    elements, times 100. *)
Theorem calculate_percentile_division h data column value s l :
  (data = series s ∧ column = None) ∨
  (∃ r c df, data = frame r ∧ column = Some c ∧
             h !! r = Some df ∧ dict_get c (columns df) = Some s) →
  as_float s = Return l →
  (l = [] → analytics.calculate_percentile data value column h = (Raise ZeroDivisionError, h)) ∧
  (l ≠ [] →
     analytics.calculate_percentile data value column h =
       (Return (Fin (Qc_of_Z (Z.of_nat (length (filter (λ x, fleb x value = true) l)))
                     / Qc_of_Z (Z.of_nat (length l)) * Qc_of_Z 100)%Qc), h)).
Proof.
  intros Hdata Hl.
  assert (analytics.calculate_percentile data value column h
          = analytics.calculate_percentile (series s) value None h) as ->.
  { destruct Hdata as [[-> ->]|(r & c & df & -> & -> & Hd & Hs)]; [done|].
    by eapply calculate_percentile_frame. }
  rewrite calculate_percentile_series, Hl.
  split.
  - intros ->. simpl length. by rewrite truediv_zero.
  - intros Hne. rewrite truediv_of_nat by (by destruct l).
    unfold of_nat, of_Z, fdiv, fmul.
    rewrite decide_False; [done|].
    apply Qc_of_Z_nonzero. destruct l; [done|simpl; lia].
Qed.

Lemma calculate_percentile_division_witness :
  (analytics.calculate_percentile (frame 0%nat) (of_Z 150) (Some "value") [test_df a_moment]
     = (Return (Fin (Qc_of_Z 6 / Qc_of_Z 30 * Qc_of_Z 100)%Qc), [test_df a_moment])) ∧
  (analytics.calculate_percentile (series (float64 [])) (of_Z 150) None []
     = (Raise ZeroDivisionError, [])).
Proof.
  split.
  - refine (proj2 (calculate_percentile_division [test_df a_moment] (frame 0%nat) (Some "value")
             (of_Z 150) (int64 test_values) (of_Z <$> test_values) _ _) _).
    + right. by exists 0%nat, "value", (test_df a_moment).
    + reflexivity.
    + discriminate.
  - refine (proj1 (calculate_percentile_division [] (series (float64 [])) None
             (of_Z 150) (float64 []) [] _ _) _).
    + by left.
    + reflexivity.
    + reflexivity.
Defined.

(** ** Forecast methods *)

Lemma len_cases data h :
  (∃ n, len data h = (Return n, h)) ∨ len data h = (Raise NameError, h).
Proof.
  unfold len, deref. rewrite bind_run.
  destruct (h !! data); simpl; eauto.
Qed.

Lemma getitem_cases data key h :
  (∃ s, getitem data key h = (Return s, h)) ∨
  (∃ e, getitem data key h = (Raise e, h) ∧ ∀ msg, e ≠ ValueError msg).
Proof.
  unfold getitem, deref. rewrite bind_run.
  destruct (h !! data) as [df|]; simpl; [|by right; eexists].
  unfold lift. destruct (dict_get key (columns df)); simpl; [eauto|by right; eexists].
Qed.

Lemma as_float_cases s :
  (∃ l, as_float s = Return l) ∨ as_float s = Raise TypeError.
Proof. destruct s; simpl; eauto. Qed.

Lemma polyfit1_cases x y :
  (∃ c, polyfit1 x y = Return c) ∨
  polyfit1 x y = Raise TypeError ∨ polyfit1 x y = Raise LinAlgError.
Proof.
  unfold polyfit1. case_decide; [eauto|].
  destruct (finite_values y); [|eauto].
  case_decide; eauto.
Qed.

(** A supported method raises no ValueError, whatever the table. *)
Lemma predict_linear_no_ValueError data column periods h msg :
  (analytics.predict_future_value data column periods "linear" h).1 ≠ Raise (ValueError msg).
Proof.
  unfold analytics.predict_future_value. rewrite decide_True by done.
  destruct (len_cases data h) as [[n Hn]|Hn];
    [erewrite bind_return by exact Hn|by erewrite bind_raise by exact Hn].
  rewrite bind_run.
  rewrite (bind_run (getitem data column)).
  destruct (getitem_cases data column h) as [[s Hs]|(e & Hs & He)]; rewrite Hs;
    [|simpl; intros [= E]; by eapply He].
  unfold lift at 1.
  destruct (as_float_cases s) as [[y Hy]|Hy]; rewrite Hy; [|done].
  rewrite bind_run. unfold lift at 1.
  destruct (polyfit1_cases (arange 0 (Z.of_nat n)) y) as [[[slope intercept] Hc]|[Hc|Hc]];
    rewrite Hc; [|done..].
  by do 2 erewrite bind_return by exact Hn.
Qed.

Lemma predict_moving_average_no_ValueError data column periods h msg :
  (analytics.predict_future_value data column periods "moving_average" h).1
  ≠ Raise (ValueError msg).
Proof.
  unfold analytics.predict_future_value.
  rewrite decide_False, decide_True by done.
  destruct (len_cases data h) as [[n Hn]|Hn];
    [erewrite bind_return by exact Hn|by erewrite bind_raise by exact Hn].
  rewrite bind_run.
  destruct (getitem_cases data column h) as [[s Hs]|(e & Hs & He)]; rewrite Hs;
    [|simpl; intros [= E]; by eapply He].
  rewrite bind_run. rewrite (bind_run (lift (rolling_mean (7 `min` n) s))).
  unfold lift at 1, rolling_mean.
  destruct (as_float_cases s) as [[y Hy]|Hy]; rewrite Hy; [|done].
  simpl. unfold lift at 1. simpl.
  rewrite bind_run. unfold lift.
  by destruct (last _).
Qed.

(** *** Forecasts that return *)

Lemma arange_0 n : arange 0 (Z.of_nat n) = Z.of_nat <$> seq 0 n.
Proof.
  unfold arange. rewrite Z.sub_0_r, Nat2Z.id. by apply list_fmap_ext.
Qed.

Lemma zsum_app l k : zsum (l ++ k) = zsum l + zsum k.
Proof. unfold zsum. induction l as [|y l IH]; simpl; lia. Qed.

Lemma sum_arange n : 2 * zsum (Z.of_nat <$> seq 0 n) = Z.of_nat n * (Z.of_nat n - 1).
Proof.
  induction n as [|n IH]; [done|].
  rewrite seq_S, fmap_app, zsum_app. unfold zsum at 2. simpl. lia.
Qed.

Lemma sum_squares_arange n :
  6 * zsum ((λ i, i * i) <$> (Z.of_nat <$> seq 0 n))
  = (Z.of_nat n - 1) * Z.of_nat n * (2 * Z.of_nat n - 1).
Proof.
  induction n as [|n IH]; [done|].
  rewrite seq_S, !fmap_app, zsum_app. unfold zsum at 2. simpl. lia.
Qed.

Lemma qsum_of_Z l : qsum (Qc_of_Z <$> l) = Qc_of_Z (zsum l).
Proof.
  induction l as [|x l IH]; [exact (eq_sym Qc_of_Z_0)|].
  rewrite fmap_cons. change (zsum (x :: l)) with (x + zsum l).
  rewrite Z2Qc_inj_add, <- IH. reflexivity.
Qed.

Lemma squares_of_Z l :
  zip_with Qcmult (Qc_of_Z <$> l) (Qc_of_Z <$> l) = Qc_of_Z <$> ((λ i, i * i) <$> l).
Proof.
  rewrite zip_with_diag, <- !list_fmap_compose. apply list_fmap_ext.
  intros _ x _. simpl. by rewrite Z2Qc_inj_mul.
Qed.

(** The least-squares system of two rows or more has one solution. *)
Lemma polyfit_det n :
  (2 ≤ n)%nat →
  (Qc_of_Z (Z.of_nat n)
   * qsum (zip_with Qcmult (Qc_of_Z <$> (Z.of_nat <$> seq 0 n))
                           (Qc_of_Z <$> (Z.of_nat <$> seq 0 n)))
   - qsum (Qc_of_Z <$> (Z.of_nat <$> seq 0 n)) * qsum (Qc_of_Z <$> (Z.of_nat <$> seq 0 n))
   ≠ 0)%Qc.
Proof.
  intros Hn. rewrite squares_of_Z, !qsum_of_Z.
  rewrite <- !Z2Qc_inj_mul, <- Z2Qc_inj_sub.
  apply Qc_of_Z_nonzero.
  pose proof (sum_arange n) as H1. pose proof (sum_squares_arange n) as H2.
  set (s1 := zsum (Z.of_nat <$> seq 0 n)) in *.
  set (s2 := zsum ((λ i, i * i) <$> (Z.of_nat <$> seq 0 n))) in *.
  set (m := Z.of_nat n) in *.
  assert (2 ≤ m) by lia.
  assert (E : 12 * (m * s2 - s1 * s1) = m * m * (m - 1) * (m + 1)).
  { replace (12 * (m * s2 - s1 * s1)) with (2 * m * (6 * s2) - 3 * ((2 * s1) * (2 * s1))) by ring.
    rewrite H1, H2. ring. }
  assert (0 < m * m * (m - 1) * (m + 1)) by (repeat apply Z.mul_pos_pos; lia).
  lia.
Qed.

Lemma finite_values_Fin qs : finite_values (Fin <$> qs) = Some qs.
Proof.
  unfold finite_values. induction qs as [|q qs IH]; [done|].
  rewrite fmap_cons. simpl. by rewrite IH.
Qed.

(** On a table of two rows or more with finite values, ['linear']
    returns the line through them at the next [periods] indices. *)
Lemma predict_linear_returns h data df column periods s qs :
  h !! data = Some df →
  dict_get column (columns df) = Some s →
  as_float s = Return (Fin <$> qs) →
  length qs = nrows df → (2 ≤ nrows df)%nat →
  ∃ slope intercept,
    analytics.predict_future_value data column periods "linear" h
    = (Return ((λ x, fadd (fmul (Fin slope) (of_Z x)) (Fin intercept))
                 <$> arange (Z.of_nat (nrows df)) (Z.of_nat (nrows df) + periods)), h).
Proof.
  intros Hd Hc Hv Hlen Hn. unfold analytics.predict_future_value.
  rewrite decide_True by done.
  erewrite bind_return by (by eapply len_run).
  erewrite bind_return.
  2:{ rewrite (bind_return (getitem data column) _ h s h) by (by eapply getitem_run).
      unfold lift. by rewrite Hv. }
  assert (∃ slope intercept,
            polyfit1 (arange 0 (Z.of_nat (nrows df))) (Fin <$> qs)
            = Return (Fin slope, Fin intercept)) as (slope & intercept & Hfit).
  { unfold polyfit1. rewrite arange_0, finite_values_Fin.
    rewrite decide_False.
    2:{ rewrite !length_fmap, length_seq. intros [E|E]; [|lia].
        apply (f_equal length) in E. rewrite length_fmap, length_seq in E.
        simpl in E. lia. }
    rewrite !length_fmap, length_seq.
    rewrite decide_False by (by apply polyfit_det).
    by eexists _, _. }
  erewrite bind_return by (unfold lift; by rewrite Hfit).
  cbv beta iota.
  do 2 erewrite bind_return by (by eapply len_run).
  by exists slope, intercept.
Qed.

(** On a table that is not empty, ['moving_average'] returns [periods]
    copies of the last moving average. *)
Lemma predict_moving_average_returns h data df column periods s vals :
  h !! data = Some df →
  dict_get column (columns df) = Some s →
  as_float s = Return vals →
  vals ≠ [] →
  ∃ ma,
    analytics.predict_future_value data column periods "moving_average" h
    = (Return (replicate (Z.to_nat periods) ma), h).
Proof.
  intros Hd Hc Hv Hne. unfold analytics.predict_future_value.
  rewrite decide_False, decide_True by done.
  erewrite bind_return by (by eapply len_run).
  erewrite bind_return by (by eapply getitem_run).
  erewrite bind_return by (unfold lift, rolling_mean; rewrite Hv; reflexivity).
  match goal with
  | |- context [last ?l] => destruct (last l) as [ma|] eqn:E
  end.
  - erewrite bind_return by reflexivity. by exists ma.
  - apply last_None in E. apply fmap_nil_inv in E.
    destruct vals; [done|discriminate E].
Qed.

(** The method name sits inside the message. *)
Lemma not_supported_includes method :
  ∃ before after, analytics.not_supported method = before +:+ method +:+ after.
Proof. by exists "Prediction method '", "' not supported". Qed.

(** C8: for a method other than ['linear'] and ['moving_average'],
    [predict_future_value] raises the ValueError whose message names the
    method, before it reads anything of its table (the store is left as
    it was, and the table may as well not exist); for the two supported
    methods it raises no ValueError on any input, and it returns
    [periods] values on a table of two rows or more whose values are
    finite. *)
Theorem predict_future_value_method data column periods method h :
  (method ≠ "linear" ∧ method ≠ "moving_average" →
     analytics.predict_future_value data column periods method h
       = (Raise (ValueError (analytics.not_supported method)), h) ∧
     ∃ before after, analytics.not_supported method = before +:+ method +:+ after) ∧
  (method = "linear" ∨ method = "moving_average" →
     (∀ msg, (analytics.predict_future_value data column periods method h).1
             ≠ Raise (ValueError msg)) ∧
     (∀ df s qs,
        h !! data = Some df →
        dict_get column (columns df) = Some s →
        as_float s = Return (Fin <$> qs) →
        length qs = nrows df → (2 ≤ nrows df)%nat →
        ∃ forecast,
          analytics.predict_future_value data column periods method h = (Return forecast, h) ∧
          length forecast = Z.to_nat periods)).
Proof.
  split.
  - intros [Hl Hm]. split; [|apply not_supported_includes].
    unfold analytics.predict_future_value. by rewrite !decide_False.
  - intros Hm. split.
    + intros msg. destruct Hm as [->| ->].
      * apply predict_linear_no_ValueError.
      * apply predict_moving_average_no_ValueError.
    + intros df s qs Hd Hc Hv Hlen Hn. destruct Hm as [->| ->].
      * destruct (predict_linear_returns h data df column periods s qs Hd Hc Hv Hlen Hn)
          as (slope & intercept & ->).
        eexists. split; [done|].
        rewrite length_fmap. unfold arange. rewrite length_fmap, length_seq. f_equal. lia.
      * destruct (predict_moving_average_returns h data df column periods s (Fin <$> qs) Hd Hc Hv)
          as (ma & ->).
        { destruct qs; [simpl in Hlen; lia|done]. }
        eexists. split; [done|]. by rewrite length_replicate.
Qed.

Lemma predict_future_value_method_witness :
  analytics.predict_future_value 0%nat "value" 3 "exponential" [test_df a_moment]
    = (Raise (ValueError "Prediction method 'exponential' not supported"), [test_df a_moment]) ∧
  (∀ msg, (analytics.predict_future_value 0%nat "value" 3 "linear" [test_df a_moment]).1
          ≠ Raise (ValueError msg)) ∧
  ∃ forecast,
    analytics.predict_future_value 0%nat "value" 3 "linear" [test_df a_moment]
      = (Return forecast, [test_df a_moment]) ∧
    length forecast = Z.to_nat 3.
Proof.
  split; [|split].
  - apply (proj1 (predict_future_value_method 0%nat "value" 3 "exponential" [test_df a_moment])).
    by split.
  - apply (proj1 (proj2 (predict_future_value_method 0%nat "value" 3 "linear" [test_df a_moment])
                    (or_introl eq_refl))).
  - apply (proj2 (proj2 (predict_future_value_method 0%nat "value" 3 "linear" [test_df a_moment])
                    (or_introl eq_refl))
             (test_df a_moment) (int64 test_values) (Qc_of_Z <$> test_values));
      [reflexivity | reflexivity | reflexivity | reflexivity | vm_compute; lia].
Defined.

(** ** Selecting rows *)

Lemma select_cons {A} (b : bool) m (x : A) l :
  select (b :: m) (x :: l) = if b then x :: select m l else select m l.
Proof.
  unfold select. simpl zip. rewrite filter_cons. simpl.
  destruct b; by case_decide.
Qed.

Lemma select_nil {A} m : select m ([] : list A) = [].
Proof. unfold select. by destruct m. Qed.

Lemma select_fmap {A B} (f : A → B) m l : select m (f <$> l) = f <$> select m l.
Proof.
  revert m. induction l as [|x l IH]; intros [|b m]; try done.
  rewrite fmap_cons, !select_cons. destruct b; simpl; by rewrite IH.
Qed.

Lemma select_filter {A} (P : A → Prop) `{∀ x, Decision (P x)} (l : list A) :
  select ((λ x, bool_decide (P x)) <$> l) l = filter P l.
Proof.
  induction l as [|x l IH]; [done|].
  rewrite fmap_cons, select_cons, filter_cons.
  destruct (decide (P x)).
  - rewrite bool_decide_eq_true_2 by done. by rewrite IH.
  - by rewrite bool_decide_eq_false_2.
Qed.

Lemma select_all {A} m (l : list A) :
  Forall (λ b, b = true) m → (length l ≤ length m)%nat → select m l = l.
Proof.
  revert m. induction l as [|x l IH]; intros [|b m] Hm Hl; simpl in *; try done; try lia.
  inversion Hm; subst. rewrite select_cons. f_equal. apply IH; [done|lia].
Qed.


Lemma length_select_same {A B} m (l : list A) (k : list B) :
  length l = length k → length (select m l) = length (select m k).
Proof.
  revert m k. induction l as [|x l IH]; intros [|b m] [|y k] Hl; simpl in *; try done.
  rewrite !select_cons. destruct b; simpl; rewrite (IH m k); congruence.
Qed.

Lemma cells_select m s : cells (series_select m s) = select m (cells s).
Proof. destruct s; simpl; by rewrite select_fmap. Qed.

Lemma series_len_cells s : length (cells s) = series_len s.
Proof. destruct s; simpl; by rewrite length_fmap. Qed.

Lemma rows_select m idx (cols : list (string * list cell)) :
  length m = length idx →
  Forall (λ c, length c.2 = length idx) cols →
  rows (select m idx) (prod_map id (select m) <$> cols) = select m (rows idx cols).
Proof.
  revert m cols. induction idx as [|i idx IH]; intros m cols Hm Hcols.
  - rewrite select_nil. simpl rows. by rewrite select_nil.
  - destruct m as [|b m]; [done|]. simpl in Hm.
    assert (Htl : Forall (λ c, length c.2 = length idx) (prod_map id tail <$> cols)).
    { apply Forall_fmap. eapply Forall_impl; [exact Hcols|].
      intros [k l] Hl. simpl in *. destruct l; simpl in *; lia. }
    simpl rows. rewrite !select_cons. destruct b.
    + simpl rows. f_equal.
      * f_equal. rewrite <- list_fmap_compose. apply Forall_fmap_ext_1.
        eapply Forall_impl; [exact Hcols|].
        intros [k [|x l]] Hl; simpl in Hl; [lia|].
        unfold compose, prod_map. cbn [fst snd]. by rewrite select_cons.
      * rewrite <- (IH m) by (done || lia). f_equal.
        rewrite <- !list_fmap_compose. apply Forall_fmap_ext_1.
        eapply Forall_impl; [exact Hcols|].
        intros [k [|x l]] Hl; simpl in Hl; [lia|].
        unfold compose, prod_map. cbn [fst snd]. by rewrite select_cons.
    + rewrite <- (IH m) by (done || lia). f_equal.
      rewrite <- !list_fmap_compose. apply Forall_fmap_ext_1.
      eapply Forall_impl; [exact Hcols|].
      intros [k [|x l]] Hl; simpl in Hl; [lia|].
      unfold compose, prod_map. cbn [fst snd]. by rewrite select_cons.
Qed.

Lemma records_select m df :
  wf_frame df → length m = nrows df →
  records (frame_select m df) = select m (records df).
Proof.
  intros Hwf Hm. unfold records, frame_select. simpl.
  rewrite <- rows_select.
  - f_equal. rewrite <- !list_fmap_compose. apply list_fmap_ext.
    intros _ [k s] _. unfold compose, prod_map. cbn [fst snd]. by rewrite cells_select.
  - done.
  - apply Forall_fmap. eapply Forall_impl; [exact Hwf|].
    intros [k s] Hs. simpl in *. by rewrite series_len_cells.
Qed.

(** ** The date column, row by row *)

Lemma dict_get_fmap {V W} (f : V → W) k (d : list (string * V)) :
  dict_get k (prod_map id f <$> d) = f <$> dict_get k d.
Proof.
  induction d as [|[k' v] d IH]; [done|].
  rewrite fmap_cons. simpl. by case_decide.
Qed.

Lemma rows_column k idx (cols : list (string * list cell)) l :
  dict_get k cols = Some l → length l = length idx →
  (λ r : record, dict_get k r.2) <$> rows idx cols = (λ c, Some (Some c)) <$> l.
Proof.
  revert cols l. induction idx as [|i idx IH]; intros cols l Hk Hl.
  - by destruct l.
  - destruct l as [|x l]; [done|]. simpl rows. rewrite !fmap_cons. f_equal.
    + cbn [snd]. by rewrite dict_get_fmap, Hk.
    + apply IH; [|simpl in Hl; lia]. by rewrite dict_get_fmap, Hk.
Qed.

Lemma records_dates date_column df ts :
  dict_get date_column (columns df) = Some (datetime64 ts) →
  length ts = nrows df →
  record_date date_column <$> records df = Some <$> ts.
Proof.
  intros Hk Hl.
  assert (E : (λ r : record, dict_get date_column r.2) <$> records df
              = (λ c, Some (Some c)) <$> (date_cell <$> ts)).
  { apply rows_column; [|by rewrite length_fmap].
    by rewrite dict_get_fmap, Hk. }
  change (record_date date_column) with
    ((λ o, match o with Some (Some (date_cell t)) => Some t | _ => None end)
       ∘ (λ r : record, dict_get date_column r.2)).
  rewrite list_fmap_compose, E, <- !list_fmap_compose.
  by apply list_fmap_ext.
Qed.

(** The mask of the filter is the test [start <= date <= end] on the
    records. *)
Lemma mask_in_range date_column df ts s e :
  dict_get date_column (columns df) = Some (datetime64 ts) →
  length ts = nrows df →
  mask_and ((λ d, bool_decide (s ≤ d)) <$> ts) ((λ d, bool_decide (d ≤ e)) <$> ts)
  = (λ r, bool_decide (in_range date_column s e r)) <$> records df.
Proof.
  intros Hk Hl.
  change (λ r, bool_decide (in_range date_column s e r)) with
    ((λ o : option Z, bool_decide (between s e o)) ∘ record_date date_column).
  rewrite list_fmap_compose, (records_dates _ _ _ Hk Hl), <- list_fmap_compose.
  unfold mask_and. rewrite zip_with_fmap_l, zip_with_fmap_r, zip_with_diag.
  apply list_fmap_ext. intros _ t _. simpl.
  rewrite <- bool_decide_and. by apply bool_decide_ext.
Qed.

(** ** The range filter *)

Lemma mapM_result_length {A B} (f : A → result B) l k :
  mapM f l = Return k → length k = length l.
Proof.
  revert k. induction l as [|x l IH]; intros k; simpl.
  - by intros [= <-].
  - destruct (f x); simpl; [|done].
    destruct (mapM f l); simpl; [|done].
    intros [= <-]. simpl. by rewrite (IH _ eq_refl).
Qed.

Lemma to_datetime_len `{DatetimeParser} d ts :
  to_datetime d = Return (datetime64 ts) → length ts = series_len d.
Proof.
  destruct d as [l|l|l|l]; simpl.
  - by intros [= <-].
  - destruct (mapM _ l) eqn:E; simpl; [|done].
    intros [= <-]. by eapply mapM_result_length.
  - destruct (mapM _ l) eqn:E; simpl; [|done].
    intros [= <-]. by eapply mapM_result_length.
  - by intros [= <-].
Qed.

Lemma with_column_id key s df :
  dict_get key (columns df) = Some s → with_column key s df = df.
Proof. intros E. destruct df. unfold with_column. simpl in *. by rewrite dict_set_id. Qed.

Lemma Forall_dict_set {V} (P : string * V → Prop) k v d :
  Forall P d → P (k, v) → Forall P (dict_set k v d).
Proof.
  intros Hd Hk. induction Hd as [|[k' v'] d Hx Hd IH]; simpl.
  - by constructor.
  - case_decide; constructor; auto.
Qed.

Lemma wf_with_column key s df :
  wf_frame df → series_len s = nrows df → wf_frame (with_column key s df).
Proof. intros Hwf Hs. by apply Forall_dict_set. Qed.

Lemma wf_column df key s :
  wf_frame df → dict_get key (columns df) = Some s → series_len s = nrows df.
Proof.
  unfold wf_frame. generalize (nrows df). intros n Hwf.
  induction Hwf as [|[k' v'] d Hx Hd IH]; simpl; [done|].
  case_decide; [by intros [= <-]|done].
Qed.

Lemma ensure_datetime_run `{DatetimeParser} h data df date_column d ts :
  h !! data = Some df →
  dict_get date_column (columns df) = Some d →
  to_datetime d = Return (datetime64 ts) →
  data_processor.ensure_datetime data date_column h
  = (Return (), <[data := with_column date_column (datetime64 ts) df]> h).
Proof.
  intros Hd Hc Ht. unfold data_processor.ensure_datetime.
  erewrite bind_return by (by eapply getitem_run).
  destruct (is_datetime64_dtype d) eqn:E.
  - destruct d; try done. simpl in Ht. injection Ht as <-.
    rewrite with_column_id by done. by rewrite list_insert_id.
  - erewrite bind_return by (by eapply getitem_run).
    erewrite bind_return by (unfold lift; by rewrite Ht).
    by erewrite setitem_run.
Qed.

Lemma filter_by_date_range_run `{DatetimeParser} h data df date_column start_date end_date d ts s e :
  h !! data = Some df →
  dict_get date_column (columns df) = Some d →
  to_datetime d = Return (datetime64 ts) →
  data_processor.normalize_bound start_date = Return s →
  data_processor.normalize_bound end_date = Return e →
  let table := with_column date_column (datetime64 ts) df in
  data_processor.filter_by_date_range data date_column start_date end_date h =
    (Return (length h),
     <[data := table]> h ++
       [frame_select (mask_and ((λ d, bool_decide (s ≤ d)) <$> ts)
                               ((λ d, bool_decide (d ≤ e)) <$> ts)) table]).
Proof.
  intros Hd Hc Ht Hs He table. unfold data_processor.filter_by_date_range.
  erewrite bind_return by (by eapply ensure_datetime_run).
  erewrite bind_return by (unfold lift; by rewrite Hs).
  erewrite bind_return by (unfold lift; by rewrite He).
  assert (Hd' : <[data := table]> h !! data = Some table) by (by eapply lookup_stored).
  assert (Hc' : dict_get date_column (columns table) = Some (datetime64 ts))
    by apply dict_get_set_eq.
  erewrite bind_return by (by eapply getitem_run).
  erewrite bind_return by (unfold lift; reflexivity).
  erewrite bind_return by (by eapply getitem_run).
  erewrite bind_return by (unfold lift; reflexivity).
  erewrite bind_return by (by eapply deref_run).
  unfold new. by rewrite length_insert.
Qed.

Lemma length_rows idx cols : length (rows idx cols) = length idx.
Proof.
  revert cols. induction idx as [|i idx IH]; intros cols; simpl; [done|].
  by rewrite IH.
Qed.

Lemma length_records df : length (records df) = nrows df.
Proof. apply length_rows. Qed.

Lemma filter_none date_column s e (l : list record) ts :
  record_date date_column <$> l = Some <$> ts →
  Forall (λ t, ¬ s ≤ t ≤ e) ts →
  filter (in_range date_column s e) l = [].
Proof.
  revert ts. induction l as [|r l IH]; intros [|t ts] E Hts; try done.
  rewrite !fmap_cons in E. injection E as Er El.
  inversion Hts; subst.
  rewrite filter_cons_False; [by eapply IH|].
  unfold in_range. by rewrite Er.
Qed.

Lemma ns_per_day_pos : 0 < Calendar.ns_per_day.
Proof. reflexivity. Qed.

(** The last seven days of the table of the tests. *)
Lemma test_dates_last_week now :
  select (mask_and ((λ d, bool_decide (now - 6 * Calendar.ns_per_day ≤ d)) <$> test_dates now)
                   ((λ d, bool_decide (d ≤ now)) <$> test_dates now))
         (test_dates now)
  = (λ i, now - (6 - Z.of_nat i) * Calendar.ns_per_day) <$> seq 0 7.
Proof.
  pose proof ns_per_day_pos as Hpos.
  unfold test_dates, mask_and.
  rewrite zip_with_fmap_l, zip_with_fmap_r, zip_with_diag, <- list_fmap_compose.
  rewrite select_fmap.
  rewrite (list_fmap_ext _ (λ i, bool_decide (23 ≤ i)%nat) (seq 0 30)).
  2:{ intros k i Hi%lookup_seq. destruct Hi as [-> Hk]. simpl.
      rewrite <- bool_decide_and. apply bool_decide_ext. nia. }
  rewrite (select_filter (λ i, (23 ≤ i)%nat)).
  change (filter (λ i, (23 ≤ i)%nat) (seq 0 30)) with (seq 23 7).
  generalize Calendar.ns_per_day. intros D.
  cbn [seq fmap list_fmap]. repeat (f_equal; try lia).
Qed.

Lemma frame_select_column m df key s :
  dict_get key (columns df) = Some s →
  dict_get key (columns (frame_select m df)) = Some (series_select m s).
Proof. intros E. simpl. by rewrite dict_get_fmap, E. Qed.

(** C4: [filter_by_date_range] returns a new table that holds exactly
    the records of its argument whose date [d] satisfies
    [start <= d <= end], both bounds included, and none when no date
    does; a bound given as a string is first turned into a timestamp, and
    the call is then the one with the two timestamps. On the thirty-day
    table of the tests, the last seven days ([now - 6 days] to [now])
    give seven records, the earliest at the start and the latest at the
    end. *)
Theorem filter_by_date_range_records `{DatetimeParser} :
  (∀ h data df date_column start_date end_date d ts s e,
     h !! data = Some df → wf_frame df →
     dict_get date_column (columns df) = Some d →
     to_datetime d = Return (datetime64 ts) →
     data_processor.normalize_bound start_date = Return s →
     data_processor.normalize_bound end_date = Return e →
     ∃ r h' out,
       data_processor.filter_by_date_range data date_column start_date end_date h
         = (Return r, h') ∧
       h' !! r = Some out ∧
       records out
         = filter (in_range date_column s e)
                  (records (with_column date_column (datetime64 ts) df)) ∧
       (Forall (λ t, ¬ s ≤ t ≤ e) ts → records out = [] ∧ nrows out = 0%nat) ∧
       data_processor.filter_by_date_range data date_column (timestamp s) (timestamp e) h
         = (Return r, h')) ∧
  (∀ now, ∃ r h' out dates,
     data_processor.filter_by_date_range 0%nat "date"
         (timestamp (now - 6 * Calendar.ns_per_day)) (timestamp now) [test_df now]
       = (Return r, h') ∧
     h' !! r = Some out ∧
     nrows out = 7%nat ∧
     dict_get "date" (columns out) = Some (datetime64 dates) ∧
     dates_min dates = Some (now - 6 * Calendar.ns_per_day) ∧
     dates_max dates = Some now).
Proof.
  split.
  - intros h data df date_column start_date end_date d ts s e Hd Hwf Hc Ht Hs He.
    set (table := with_column date_column (datetime64 ts) df).
    assert (Hlen : length ts = nrows df).
    { rewrite (to_datetime_len _ _ Ht). by eapply wf_column. }
    assert (Hwf' : wf_frame table) by (by apply wf_with_column).
    assert (Hc' : dict_get date_column (columns table) = Some (datetime64 ts))
      by apply dict_get_set_eq.
    assert (Hrec : records (frame_select
                     (mask_and ((λ d, bool_decide (s ≤ d)) <$> ts)
                               ((λ d, bool_decide (d ≤ e)) <$> ts)) table)
                   = filter (in_range date_column s e) (records table)).
    { rewrite (mask_in_range date_column table ts s e Hc' Hlen).
      rewrite records_select by (by rewrite ?length_fmap, ?length_records).
      apply (select_filter (in_range date_column s e)). }
    eexists _, _, _.
    split; [by eapply filter_by_date_range_run|].
    split; [rewrite <- (length_insert h data table); apply lookup_new|].
    split; [exact Hrec|].
    split.
    + intros Hnone.
      assert (E : records (frame_select
                     (mask_and ((λ d, bool_decide (s ≤ d)) <$> ts)
                               ((λ d, bool_decide (d ≤ e)) <$> ts)) table) = []).
      { rewrite Hrec. eapply filter_none; [|exact Hnone].
        by apply records_dates. }
      split; [exact E|]. rewrite <- length_records. exact (f_equal length E).
    + by erewrite filter_by_date_range_run.
  - intros now. pose proof ns_per_day_pos as Hpos.
    eexists _, _, _, _.
    split.
    { eapply (filter_by_date_range_run [test_df now] 0%nat (test_df now) "date");
        reflexivity. }
    split; [reflexivity|].
    split; [|split].
    + unfold nrows, frame_select. cbn [index].
      erewrite (length_select_same _ _ (test_dates now)) by reflexivity.
      by rewrite test_dates_last_week.
    + erewrite frame_select_column by reflexivity.
      cbn [series_select]. by rewrite test_dates_last_week.
    + generalize dependent Calendar.ns_per_day. intros D HD.
      cbn [seq fmap list_fmap dates_min dates_max foldr]. split; f_equal; lia.
Qed.

Lemma filter_by_date_range_records_witness :
  ∃ r h' out,
    data_processor.filter_by_date_range 0%nat "date"
        (date_str "2024-01-07") (timestamp (Calendar.midnight 2024 1 8)) [str_df]
      = (Return r, h') ∧
    h' !! r = Some out ∧
    records out
      = filter (in_range "date" (Calendar.midnight 2024 1 7) (Calendar.midnight 2024 1 8))
               (records (with_column "date"
                           (datetime64 [Calendar.midnight 2024 1 1; Calendar.midnight 2024 1 7;
                                        Calendar.midnight 2024 1 8; Calendar.midnight 2024 2 1])
                           str_df)) ∧
    (Forall (λ t, ¬ Calendar.midnight 2024 1 7 ≤ t ≤ Calendar.midnight 2024 1 8)
            [Calendar.midnight 2024 1 1; Calendar.midnight 2024 1 7;
             Calendar.midnight 2024 1 8; Calendar.midnight 2024 2 1] →
     records out = [] ∧ nrows out = 0%nat) ∧
    data_processor.filter_by_date_range 0%nat "date"
        (timestamp (Calendar.midnight 2024 1 7)) (timestamp (Calendar.midnight 2024 1 8)) [str_df]
      = (Return r, h').
Proof.
  apply (proj1 filter_by_date_range_records [str_df] 0%nat str_df "date"
           (date_str "2024-01-07") (timestamp (Calendar.midnight 2024 1 8))
           (object ["2024-01-01"; "2024-01-07"; "2024-01-08"; "2024-02-01"]));
    [reflexivity | by repeat constructor | reflexivity..].
Defined.

(** ** Filtering twice *)

Lemma mask_and_between ts s e :
  mask_and ((λ d, bool_decide (s ≤ d)) <$> ts) ((λ d, bool_decide (d ≤ e)) <$> ts)
  = (λ t, bool_decide (s ≤ t ≤ e)) <$> ts.
Proof.
  unfold mask_and. rewrite zip_with_fmap_l, zip_with_fmap_r, zip_with_diag.
  apply list_fmap_ext. intros _ t _. simpl. by rewrite <- bool_decide_and.
Qed.

Lemma frame_select_all m df :
  Forall (λ b, b = true) m → wf_frame df → (nrows df ≤ length m)%nat →
  frame_select m df = df.
Proof.
  intros Hm Hwf Hlen. destruct df as [idx cols]. unfold frame_select, nrows in *. simpl in *.
  f_equal; [by apply select_all|].
  rewrite <- (list_fmap_id cols) at 2. apply Forall_fmap_ext_1.
  eapply Forall_impl; [exact Hwf|]. intros [k s] Hs. simpl in Hs.
  unfold prod_map. simpl. f_equal.
  unfold nrows in Hs. simpl in Hs.
  destruct s; simpl in *; f_equal; apply select_all; (done || lia).
Qed.

Lemma wf_frame_select m df :
  wf_frame df → wf_frame (frame_select m df).
Proof.
  intros Hwf. unfold wf_frame, frame_select, nrows. simpl.
  apply Forall_fmap. eapply Forall_impl; [exact Hwf|].
  intros [k s] Hs. unfold nrows in Hs. simpl in *.
  destruct s; simpl in *; by apply length_select_same.
Qed.

Lemma ensure_datetime_raise `{DatetimeParser} h data df date_column d e :
  h !! data = Some df →
  dict_get date_column (columns df) = Some d →
  to_datetime d = Raise e →
  data_processor.ensure_datetime data date_column h = (Raise e, h).
Proof.
  intros Hd Hc Ht. unfold data_processor.ensure_datetime.
  erewrite bind_return by (by eapply getitem_run).
  destruct d; try done; simpl.
  - erewrite bind_return by (by eapply getitem_run).
    erewrite bind_raise; [done|]. unfold lift. by rewrite Ht.
  - erewrite bind_return by (by eapply getitem_run).
    erewrite bind_raise; [done|]. unfold lift. by rewrite Ht.
Qed.

Lemma to_datetime_dtype `{DatetimeParser} d s' :
  to_datetime d = Return s' → ∃ ts, s' = datetime64 ts.
Proof.
  destruct d as [l|l|l|l]; simpl.
  - intros [= <-]; eauto.
  - destruct (mapM _ l); simpl; [|done]. intros [= <-]; eauto.
  - destruct (mapM _ l); simpl; [|done]. intros [= <-]; eauto.
  - intros [= <-]; eauto.
Qed.

(** A call that returns had a date column that converts and two bounds
    that do. *)
Lemma filter_by_date_range_inv `{DatetimeParser} h data df date_column start_date end_date r h' :
  h !! data = Some df →
  data_processor.filter_by_date_range data date_column start_date end_date h = (Return r, h') →
  ∃ d ts s e,
    dict_get date_column (columns df) = Some d ∧
    to_datetime d = Return (datetime64 ts) ∧
    data_processor.normalize_bound start_date = Return s ∧
    data_processor.normalize_bound end_date = Return e.
Proof.
  intros Hd Hrun. unfold data_processor.filter_by_date_range in Hrun.
  destruct (dict_get date_column (columns df)) as [d|] eqn:Hc.
  2:{ erewrite bind_raise in Hrun; [done|].
      unfold data_processor.ensure_datetime.
      erewrite bind_raise; [done|]. by eapply getitem_missing. }
  destruct (to_datetime d) as [s'|e0] eqn:Ht.
  2:{ erewrite bind_raise in Hrun; [done|]. by eapply ensure_datetime_raise. }
  destruct (to_datetime_dtype _ _ Ht) as [ts ->].
  erewrite bind_return in Hrun by (by eapply ensure_datetime_run).
  destruct (data_processor.normalize_bound start_date) as [s|e0] eqn:Hs.
  2:{ erewrite bind_raise in Hrun; [done|]. reflexivity. }
  erewrite bind_return in Hrun by reflexivity.
  destruct (data_processor.normalize_bound end_date) as [e|e0] eqn:He.
  2:{ erewrite bind_raise in Hrun; [done|]. reflexivity. }
  by exists d, ts, s, e.
Qed.

(** C9: filtering is idempotent. When [filter_by_date_range] has
    returned a table, filtering that table again with the same column and
    bounds returns a table equal to it. *)
Theorem filter_by_date_range_idempotent `{DatetimeParser}
    h data df date_column start_date end_date r1 h1 :
  h !! data = Some df → wf_frame df →
  data_processor.filter_by_date_range data date_column start_date end_date h = (Return r1, h1) →
  ∃ r2 h2 out,
    data_processor.filter_by_date_range r1 date_column start_date end_date h1 = (Return r2, h2) ∧
    h1 !! r1 = Some out ∧
    h2 !! r2 = Some out.
Proof.
  intros Hd Hwf Hrun.
  destruct (filter_by_date_range_inv _ _ _ _ _ _ _ _ Hd Hrun) as (d & ts & s & e & Hc & Ht & Hs & He).
  pose proof (filter_by_date_range_run h data df date_column start_date end_date d ts s e
                Hd Hc Ht Hs He) as Hrun1.
  simpl in Hrun1. rewrite Hrun1 in Hrun. injection Hrun as <- <-.
  rewrite mask_and_between in *.
  set (table := with_column date_column (datetime64 ts) df) in *.
  set (mask := (λ t, bool_decide (s ≤ t ≤ e)) <$> ts) in *.
  set (out := frame_select mask table) in *.
  set (h1 := <[data := table]> h ++ [out]) in *.
  assert (Hlen : length ts = nrows df).
  { rewrite (to_datetime_len _ _ Ht). by eapply wf_column. }
  assert (Hwf' : wf_frame table) by (by apply wf_with_column).
  assert (Hr1 : h1 !! length h = Some out).
  { unfold h1. rewrite <- (length_insert h data table). apply lookup_new. }
  assert (Hc1 : dict_get date_column (columns out) = Some (datetime64 (select mask ts))).
  { unfold out. erewrite frame_select_column by apply dict_get_set_eq. done. }
  pose proof (filter_by_date_range_run h1 (length h) out date_column start_date end_date
                (datetime64 (select mask ts)) (select mask ts) s e
                Hr1 Hc1 eq_refl Hs He) as Hrun2.
  simpl in Hrun2. rewrite mask_and_between in Hrun2.
  rewrite (with_column_id _ _ _ Hc1) in Hrun2.
  assert (Hall : Forall (λ b, b = true) ((λ t, bool_decide (s ≤ t ≤ e)) <$> select mask ts)).
  { unfold mask. rewrite (select_filter (λ t, s ≤ t ≤ e)).
    apply Forall_fmap, Forall_forall. intros t Ht'%list_elem_of_filter.
    simpl. apply bool_decide_eq_true_2. tauto. }
  rewrite frame_select_all in Hrun2.
  - exists (length h1), (<[length h := out]> h1 ++ [out]), out.
    split; [exact Hrun2|]. split; [exact Hr1|].
    rewrite <- (length_insert h1 (length h) out). apply lookup_new.
  - exact Hall.
  - by apply wf_frame_select.
  - rewrite length_fmap. unfold out, nrows, frame_select. simpl.
    erewrite (length_select_same _ _ ts); [done|].
    unfold table. simpl. by rewrite Hlen.
Qed.

Lemma filter_by_date_range_idempotent_witness :
  ∃ r2 h2 out,
    data_processor.filter_by_date_range 1%nat "date"
        (date_str "2024-01-07") (timestamp (Calendar.midnight 2024 1 8))
        (data_processor.filter_by_date_range 0%nat "date"
           (date_str "2024-01-07") (timestamp (Calendar.midnight 2024 1 8)) [str_df]).2
      = (Return r2, h2) ∧
    (data_processor.filter_by_date_range 0%nat "date"
       (date_str "2024-01-07") (timestamp (Calendar.midnight 2024 1 8)) [str_df]).2 !! 1%nat
      = Some out ∧
    h2 !! r2 = Some out.
Proof.
  apply (filter_by_date_range_idempotent [str_df] 0%nat str_df "date"
           (date_str "2024-01-07") (timestamp (Calendar.midnight 2024 1 8)));
    [reflexivity | by repeat constructor | reflexivity].
Defined.

(** ** Sums over groups *)

Section group_sum.
Context {K A R : Type} `{EqDecision K}.
Context (add : R → R → R) (zero : R) (val : A → R).
Context (add_assoc : ∀ x y z, add x (add y z) = add (add x y) z).
Context (add_comm : ∀ x y, add x y = add y x).
Context (add_zero : ∀ x, add zero x = x).

Lemma total_zeros (gk : list K) : foldr add zero ((λ _, zero) <$> gk) = zero.
Proof.
  induction gk as [|k gk IH]; [done|].
  rewrite fmap_cons. cbn [foldr]. by rewrite IH, add_zero.
Qed.

(** One more cell in one group. *)
Lemma total_one_more (g : K → R) (k0 : K) (x : R) (gk : list K) :
  NoDup gk → k0 ∈ gk →
  foldr add zero ((λ k, if decide (k0 = k) then add x (g k) else g k) <$> gk)
  = add x (foldr add zero (g <$> gk)).
Proof.
  intros Hnd Hin. induction Hnd as [|k gk Hk Hnd IH]; [by apply elem_of_nil in Hin|].
  rewrite !fmap_cons. simpl. destruct (decide (k0 = k)) as [->|Hne].
  - rewrite <- add_assoc. do 3 f_equal.
    apply list_fmap_ext. intros _ k' Hk'%list_elem_of_lookup_2.
    rewrite decide_False; [done|]. by intros ->.
  - apply elem_of_cons in Hin as [?|Hin]; [done|].
    rewrite (IH Hin), !add_assoc. f_equal. apply add_comm.
Qed.

(** The totals of the groups add up to the total of the rows, when every
    key of a row is among the groups. *)
Lemma total_groups (ps : list (K * A)) (gk : list K) :
  NoDup gk → Forall (λ p, p.1 ∈ gk) ps →
  foldr add zero ((λ k, foldr add zero (val <$> (filter (λ p, p.1 = k) ps).*2)) <$> gk)
  = foldr add zero (val <$> ps.*2).
Proof.
  intros Hnd Hps. induction Hps as [|[k0 x] ps Hk Hps IH].
  - apply total_zeros.
  - rewrite !fmap_cons. simpl foldr. rewrite <- IH.
    rewrite <- (total_one_more _ k0 (val x) gk Hnd Hk).
    f_equal. apply list_fmap_ext. intros _ k _. simpl.
    rewrite filter_cons. simpl. by destruct (decide (k0 = k)).
Qed.

End group_sum.

Lemma group_keys_NoDup keys : NoDup (group_keys keys).
Proof.
  unfold group_keys. rewrite merge_sort_Permutation. apply NoDup_remove_dups.
Qed.

Lemma group_keys_elem keys k : k ∈ group_keys keys ↔ k ∈ keys.
Proof.
  unfold group_keys. rewrite merge_sort_Permutation. apply elem_of_remove_dups.
Qed.

Lemma zip_keys {A} (keys : list (Z * Z)) (l : list A) :
  Forall (λ p, p.1 ∈ group_keys keys) (zip keys l).
Proof.
  apply Forall_forall. intros [k x] Hin. simpl.
  apply group_keys_elem. by apply elem_of_zip_l in Hin.
Qed.

Lemma snd_zip_same {A B} (k : list A) (l : list B) :
  length k = length l → (zip k l).*2 = l.
Proof. intros E. apply snd_zip. lia. Qed.

(** *** Integers *)

Lemma wrap64_eq a b : a `mod` 2 ^ 64 = b `mod` 2 ^ 64 → wrap64 a = wrap64 b.
Proof.
  intros E. unfold wrap64. f_equal.
  rewrite <- (Zplus_mod_idemp_l a), <- (Zplus_mod_idemp_l b). by rewrite E.
Qed.

Lemma wrap64_mod a : wrap64 a `mod` 2 ^ 64 = a `mod` 2 ^ 64.
Proof.
  unfold wrap64. rewrite <- Zminus_mod_idemp_l, Z.mod_mod by done.
  rewrite Zminus_mod_idemp_l. f_equal. lia.
Qed.

Lemma wrap64_zsum (f : Z * Z → Z) gk :
  wrap64 (zsum ((λ k, wrap64 (f k)) <$> gk)) = wrap64 (zsum (f <$> gk)).
Proof.
  apply wrap64_eq. induction gk as [|k gk IH]; [done|].
  rewrite !fmap_cons. simpl.
  rewrite <- Zplus_mod_idemp_l, <- Zplus_mod_idemp_r, wrap64_mod, IH.
  by rewrite Zplus_mod_idemp_l, Zplus_mod_idemp_r.
Qed.

Lemma zsum_groups keys (l : list Z) :
  length keys = length l →
  zsum ((λ k, zsum (group keys l k)) <$> group_keys keys) = zsum l.
Proof.
  intros Hlen.
  pose proof (total_groups Z.add 0 id Z.add_assoc Z.add_comm Z.add_0_l
                (zip keys l) (group_keys keys) (group_keys_NoDup keys) (zip_keys keys l)) as E.
  rewrite (snd_zip_same keys l Hlen), list_fmap_id in E.
  unfold zsum. rewrite <- E. f_equal.
  apply list_fmap_ext. intros _ k _. unfold group. by rewrite list_fmap_id.
Qed.

(** *** Floats *)

Lemma nansum_summands l :
  Forall (λ x, isinf x = false) l → nansum l = Fin (qsum (summand <$> l)).
Proof.
  unfold nansum, fsum. induction 1 as [|x l Hx Hl IH].
  - unfold of_Z. simpl. by rewrite Qc_of_Z_0.
  - rewrite fmap_cons, filter_cons. destruct x as [q| | |]; try done.
    + rewrite decide_True by done. cbn [foldr]. by rewrite IH.
    + rewrite decide_False by done. rewrite IH. simpl. f_equal. ring.
Qed.

Lemma nansum_finite qs : nansum (Fin <$> qs) = Fin (qsum qs).
Proof.
  rewrite nansum_summands.
  - f_equal. f_equal. rewrite <- list_fmap_compose. apply list_fmap_id.
  - by apply Forall_fmap, Forall_true.
Qed.

Lemma group_elem {A} keys (l : list A) k x : x ∈ group keys l k → x ∈ l.
Proof.
  unfold group. intros ([k' x'] & -> & Hin%list_elem_of_filter)%list_elem_of_fmap.
  destruct Hin as [_ Hin]. by apply elem_of_zip_r in Hin.
Qed.

Lemma qsum_groups keys (l : list float) :
  length keys = length l →
  qsum ((λ k, qsum (summand <$> group keys l k)) <$> group_keys keys) = qsum (summand <$> l).
Proof.
  intros Hlen.
  pose proof (total_groups Qcplus 0%Qc summand Qcplus_assoc Qcplus_comm Qcplus_0_l
                (zip keys l) (group_keys keys) (group_keys_NoDup keys) (zip_keys keys l)) as E.
  by rewrite (snd_zip_same keys l Hlen) in E.
Qed.

Lemma nansum_groups keys (l : list float) :
  length keys = length l →
  Forall (λ x, isinf x = false) l →
  nansum ((λ k, nansum (group keys l k)) <$> group_keys keys) = nansum l.
Proof.
  intros Hlen Hl.
  rewrite (nansum_summands l Hl), <- (qsum_groups keys l Hlen).
  rewrite <- nansum_finite, <- list_fmap_compose. f_equal.
  apply list_fmap_ext. intros _ k _. simpl.
  apply nansum_summands, Forall_forall. intros x Hx%group_elem.
  by eapply Forall_forall in Hl.
Qed.

(** ** Aggregation *)

Lemma dict_of_two {V} k1 k2 (v1 v2 : V) :
  k1 ≠ k2 → dict_of [(k1, v1); (k2, v2)] = [(k1, v1); (k2, v2)].
Proof. intros. unfold dict_of. simpl. by rewrite decide_False. Qed.

Lemma groupby_agg_run t by1 by2 k1 k2 value_column date_column v ts aggv :
  dict_get by1 (columns t) = Some (int64 k1) →
  dict_get by2 (columns t) = Some (int64 k2) →
  dict_get value_column (columns t) = Some v →
  dict_get date_column (columns t) = Some (datetime64 ts) →
  value_column ≠ date_column →
  value_column ≠ by1 → value_column ≠ by2 →
  date_column ≠ by1 → date_column ≠ by2 →
  agg agg_sum (zip k1 k2) (group_keys (zip k1 k2)) v = Return aggv →
  groupby_agg_reset_index t by1 by2
      (dict_of [(value_column, agg_sum); (date_column, agg_first)])
  = Return {| index := range_index (length (group_keys (zip k1 k2)));
              columns :=
                [(by1, int64 (group_keys (zip k1 k2)).*1);
                 (by2, int64 (group_keys (zip k1 k2)).*2);
                 (value_column, aggv);
                 (date_column,
                  datetime64 ((λ k, default 0 (head (group (zip k1 k2) ts k)))
                                <$> group_keys (zip k1 k2)))] |}.
Proof.
  intros H1 H2 Hv Hd Hvd Hv1 Hv2 Hd1 Hd2 Hagg.
  unfold groupby_agg_reset_index, column.
  rewrite H1, H2, dict_of_two by done.
  cbn [from_some mbind result_bind as_int mapM fst snd].
  rewrite !decide_False by tauto.
  rewrite Hv. cbn [from_some mbind result_bind]. rewrite Hagg.
  cbn [from_some mbind result_bind]. by rewrite Hd.
Qed.

Lemma agg_sum_returns keys gk v :
  is_datetime64_dtype v = false →
  ∃ aggv, agg agg_sum keys gk v = Return aggv ∧ series_len aggv = length gk.
Proof.
  destruct v; try done; intros _; eexists; (split; [reflexivity|]);
    simpl; by rewrite length_fmap.
Qed.

Lemma insert_thrice (h : list DataFrame) (data : nat) (a b c : DataFrame) :
  <[data := c]> (<[data := b]> (<[data := a]> h)) = <[data := c]> h.
Proof. by rewrite !list_insert_insert_eq. Qed.

Lemma convert_to_weekly_run `{DatetimeParser} h data df date_column value_column d ts v aggv :
  h !! data = Some df →
  dict_get date_column (columns df) = Some d →
  to_datetime d = Return (datetime64 ts) →
  dict_get value_column (columns df) = Some v →
  value_column ≠ date_column →
  value_column ≠ "year" → value_column ≠ "week" →
  date_column ≠ "year" → date_column ≠ "week" →
  let weeks := (λ t, (Calendar.isocalendar t).2) <$> ts in
  let years := (λ t, (Calendar.isocalendar t).1) <$> ts in
  let gk := group_keys (zip years weeks) in
  agg agg_sum (zip years weeks) gk v = Return aggv →
  data_processor.convert_to_weekly data date_column value_column h =
    (Return (length h),
     <[data := with_column "year" (int64 years)
                 (with_column "week" (int64 weeks)
                    (with_column date_column (datetime64 ts) df))]> h
     ++ [{| index := range_index (length gk);
            columns :=
              [("year", int64 gk.*1); ("week", int64 gk.*2);
               (value_column, aggv);
               (date_column,
                datetime64 ((λ k, default 0 (head (group (zip years weeks) ts k))) <$> gk))] |}]).
Proof.
  intros Hd Hc Ht Hv Hvd Hvy Hvw Hdy Hdw weeks years gk Hagg.
  unfold data_processor.convert_to_weekly.
  erewrite bind_return by (by eapply ensure_datetime_run).
  set (t1 := with_column date_column (datetime64 ts) df).
  assert (H1 : <[data := t1]> h !! data = Some t1) by (by eapply lookup_stored).
  erewrite bind_return by (eapply getitem_run; [exact H1|apply dict_get_set_eq]).
  erewrite bind_return by reflexivity.
  erewrite bind_return by (by eapply setitem_run).
  set (t2 := with_column "week" (int64 weeks) t1).
  assert (H2 : <[data := t2]> (<[data := t1]> h) !! data = Some t2) by (by eapply lookup_stored).
  erewrite bind_return
    by (eapply getitem_run; [exact H2|]; simpl;
        rewrite dict_get_set_ne by done; apply dict_get_set_eq).
  erewrite bind_return by reflexivity.
  erewrite bind_return by (by eapply setitem_run).
  set (t3 := with_column "year" (int64 years) t2).
  assert (H3 : <[data := t3]> (<[data := t2]> (<[data := t1]> h)) !! data = Some t3)
    by (by eapply lookup_stored).
  erewrite bind_return by (by eapply deref_run).
  erewrite bind_return.
  2:{ unfold lift. erewrite (groupby_agg_run t3 "year" "week" years weeks
                               value_column date_column v ts aggv); try done.
      - simpl. apply dict_get_set_eq.
      - simpl. rewrite dict_get_set_ne by done. apply dict_get_set_eq.
      - simpl. by rewrite !dict_get_set_ne by done.
      - simpl. rewrite !dict_get_set_ne by done. apply dict_get_set_eq. }
  unfold new. by rewrite insert_thrice, length_insert.
Qed.

Lemma convert_to_monthly_run `{DatetimeParser} h data df date_column value_column d ts v aggv :
  h !! data = Some df →
  dict_get date_column (columns df) = Some d →
  to_datetime d = Return (datetime64 ts) →
  dict_get value_column (columns df) = Some v →
  value_column ≠ date_column →
  value_column ≠ "year" → value_column ≠ "month" →
  date_column ≠ "year" → date_column ≠ "month" →
  let months := Calendar.month <$> ts in
  let years := Calendar.year <$> ts in
  let gk := group_keys (zip years months) in
  agg agg_sum (zip years months) gk v = Return aggv →
  data_processor.convert_to_monthly data date_column value_column h =
    (Return (length h),
     <[data := with_column "year" (int64 years)
                 (with_column "month" (int64 months)
                    (with_column date_column (datetime64 ts) df))]> h
     ++ [{| index := range_index (length gk);
            columns :=
              [("year", int64 gk.*1); ("month", int64 gk.*2);
               (value_column, aggv);
               (date_column,
                datetime64 ((λ k, default 0 (head (group (zip years months) ts k))) <$> gk))] |}]).
Proof.
  intros Hd Hc Ht Hv Hvd Hvy Hvw Hdy Hdw months years gk Hagg.
  unfold data_processor.convert_to_monthly.
  erewrite bind_return by (by eapply ensure_datetime_run).
  set (t1 := with_column date_column (datetime64 ts) df).
  assert (H1 : <[data := t1]> h !! data = Some t1) by (by eapply lookup_stored).
  erewrite bind_return by (eapply getitem_run; [exact H1|apply dict_get_set_eq]).
  erewrite bind_return by reflexivity.
  erewrite bind_return by (by eapply setitem_run).
  set (t2 := with_column "month" (int64 months) t1).
  assert (H2 : <[data := t2]> (<[data := t1]> h) !! data = Some t2) by (by eapply lookup_stored).
  erewrite bind_return
    by (eapply getitem_run; [exact H2|]; simpl;
        rewrite dict_get_set_ne by done; apply dict_get_set_eq).
  erewrite bind_return by reflexivity.
  erewrite bind_return by (by eapply setitem_run).
  set (t3 := with_column "year" (int64 years) t2).
  assert (H3 : <[data := t3]> (<[data := t2]> (<[data := t1]> h)) !! data = Some t3)
    by (by eapply lookup_stored).
  erewrite bind_return by (by eapply deref_run).
  erewrite bind_return.
  2:{ unfold lift. erewrite (groupby_agg_run t3 "year" "month" years months
                               value_column date_column v ts aggv); try done.
      - simpl. apply dict_get_set_eq.
      - simpl. rewrite dict_get_set_ne by done. apply dict_get_set_eq.
      - simpl. by rewrite !dict_get_set_ne by done.
      - simpl. rewrite !dict_get_set_ne by done. apply dict_get_set_eq. }
  unfold new. by rewrite insert_thrice, length_insert.
Qed.

(** The sum of the aggregated column, for an integer and for a float
    column. *)
Lemma agg_sum_total keys v vals :
  as_float v = Return vals →
  Forall (λ x, isinf x = false) vals →
  length keys = series_len v →
  ∃ aggv total,
    agg agg_sum keys (group_keys keys) v = Return aggv ∧
    series_sum aggv = Return total ∧
    series_sum v = Return total.
Proof.
  intros Hv Hfin Hlen. destruct v as [l|l|l|l]; try done; simpl in *.
  - injection Hv as <-. eexists _, _. split; [reflexivity|]. simpl.
    by rewrite nansum_groups.
  - eexists _, _. split; [reflexivity|]. simpl.
    by rewrite (wrap64_zsum (λ k, zsum (group keys l k))), zsum_groups.
Qed.

Lemma lookup_new_stored (h : list DataFrame) (data : nat) (df out : DataFrame) :
  (<[data := df]> h ++ [out]) !! length h = Some out.
Proof. rewrite <- (length_insert h data df). apply lookup_new. Qed.

Lemma length_zip_same {A B} (k : list A) (l : list B) :
  length k = length l → length (zip k l) = length k.
Proof. intros E. rewrite length_zip. lia. Qed.

(** C3: the weekly aggregation keeps the total. For a table whose value
    column is numeric (integers, or floats none of which is infinite),
    [convert_to_weekly] returns a table whose value column has the same
    sum as the value column of the argument: exactly for floats, and
    modulo the 64-bit wrap-around that both sums have for integers. *)
Theorem convert_to_weekly_sum `{DatetimeParser}
    h data df date_column value_column d ts v vals :
  h !! data = Some df → wf_frame df →
  dict_get date_column (columns df) = Some d →
  to_datetime d = Return (datetime64 ts) →
  dict_get value_column (columns df) = Some v →
  as_float v = Return vals →
  Forall (λ x, isinf x = false) vals →
  value_column ≠ date_column →
  value_column ≠ "year" → value_column ≠ "week" →
  date_column ≠ "year" → date_column ≠ "week" →
  ∃ r h' weekly_data s total,
    data_processor.convert_to_weekly data date_column value_column h = (Return r, h') ∧
    h' !! r = Some weekly_data ∧
    dict_get value_column (columns weekly_data) = Some s ∧
    series_sum s = Return total ∧
    series_sum v = Return total.
Proof.
  intros Hd Hwf Hc Ht Hv Hvals Hfin Hvd Hvy Hvw Hdy Hdw.
  assert (Hlen : length ts = nrows df).
  { rewrite (to_datetime_len _ _ Ht). by eapply wf_column. }
  set (weeks := (λ t, (Calendar.isocalendar t).2) <$> ts).
  set (years := (λ t, (Calendar.isocalendar t).1) <$> ts).
  destruct (agg_sum_total (zip years weeks) v vals Hvals Hfin) as (aggv & total & Hagg & Hs1 & Hs2).
  { rewrite length_zip_same by (unfold years, weeks; by rewrite !length_fmap).
    unfold years. rewrite length_fmap, Hlen. symmetry. by eapply wf_column. }
  eexists _, _, _, aggv, total.
  split; [by eapply convert_to_weekly_run|].
  split; [apply lookup_new_stored|].
  split; [|done]. simpl.
  rewrite !decide_False by done. by rewrite decide_True.
Qed.

Lemma convert_to_weekly_sum_witness :
  ∃ r h' weekly_data s total,
    data_processor.convert_to_weekly 0%nat "date" "value" [test_df a_moment] = (Return r, h') ∧
    h' !! r = Some weekly_data ∧
    dict_get "value" (columns weekly_data) = Some s ∧
    series_sum s = Return total ∧
    series_sum (int64 test_values) = Return total.
Proof.
  apply (convert_to_weekly_sum [test_df a_moment] 0%nat (test_df a_moment) "date" "value"
           (datetime64 (test_dates a_moment)) (test_dates a_moment)
           (int64 test_values) (of_Z <$> test_values));
    try done.
  - by repeat constructor.
  - by apply Forall_fmap, Forall_true.
Defined.

(** ** Empty tables *)

Lemma records_empty df : nrows df = 0%nat → records df = [].
Proof. intros E. apply length_zero_iff_nil. by rewrite length_records. Qed.

(** C7: on a table without records, the filter and the two aggregations
    return a table without records and raise nothing, whatever the dtype
    of the (empty) date column: for the filter when its bounds are
    timestamps or strings that parse, for the aggregations when the value
    column is not a datetime column and the two field names are distinct
    and are not the names of the key columns. *)
Theorem empty_table_result `{DatetimeParser} h data df date_column d :
  h !! data = Some df → wf_frame df → nrows df = 0%nat →
  dict_get date_column (columns df) = Some d →
  (∀ start_date end_date s e,
     data_processor.normalize_bound start_date = Return s →
     data_processor.normalize_bound end_date = Return e →
     ∃ r h' out,
       data_processor.filter_by_date_range data date_column start_date end_date h
         = (Return r, h') ∧
       h' !! r = Some out ∧ nrows out = 0%nat ∧ records out = []) ∧
  (∀ value_column v,
     dict_get value_column (columns df) = Some v →
     is_datetime64_dtype v = false →
     value_column ≠ date_column → value_column ≠ "year" → date_column ≠ "year" →
     (value_column ≠ "week" → date_column ≠ "week" →
      ∃ r h' out,
        data_processor.convert_to_weekly data date_column value_column h = (Return r, h') ∧
        h' !! r = Some out ∧ nrows out = 0%nat ∧ records out = []) ∧
     (value_column ≠ "month" → date_column ≠ "month" →
      ∃ r h' out,
        data_processor.convert_to_monthly data date_column value_column h = (Return r, h') ∧
        h' !! r = Some out ∧ nrows out = 0%nat ∧ records out = [])).
Proof.
  intros Hd Hwf Hn Hc.
  assert (Ht : to_datetime d = Return (datetime64 [])).
  { pose proof (wf_column _ _ _ Hwf Hc) as Hlen. rewrite Hn in Hlen.
    destruct d as [[|??]|[|??]|[|??]|[|??]]; done. }
  split.
  - intros start_date end_date s e Hs He.
    eexists _, _, _.
    split; [by eapply filter_by_date_range_run|].
    split; [apply lookup_new_stored|].
    assert (E : nrows (frame_select (mask_and ((λ d, bool_decide (s ≤ d)) <$> [])
                                              ((λ d, bool_decide (d ≤ e)) <$> []))
                         (with_column date_column (datetime64 []) df)) = 0%nat).
    { reflexivity. }
    split; [exact E|by apply records_empty].
  - intros value_column v Hv Hdt Hvd Hvy Hdy.
    split.
    + intros Hvw Hdw.
      destruct (agg_sum_returns [] (group_keys []) v Hdt) as (aggv & Hagg & _).
      eexists _, _, _.
      split; [by eapply convert_to_weekly_run|].
      split; [apply lookup_new_stored|]. by split.
    + intros Hvm Hdm.
      destruct (agg_sum_returns [] (group_keys []) v Hdt) as (aggv & Hagg & _).
      eexists _, _, _.
      split; [by eapply convert_to_monthly_run|].
      split; [apply lookup_new_stored|]. by split.
Qed.

Lemma empty_table_result_witness :
  (∃ r h' out,
     data_processor.filter_by_date_range 0%nat "date"
         (date_str "2024-01-01") (timestamp (Calendar.midnight 2024 1 31)) [empty_df]
       = (Return r, h') ∧
     h' !! r = Some out ∧ nrows out = 0%nat ∧ records out = []) ∧
  (∃ r h' out,
     data_processor.convert_to_weekly 0%nat "date" "value" [empty_df] = (Return r, h') ∧
     h' !! r = Some out ∧ nrows out = 0%nat ∧ records out = []) ∧
  (∃ r h' out,
     data_processor.convert_to_monthly 0%nat "date" "value" [empty_df] = (Return r, h') ∧
     h' !! r = Some out ∧ nrows out = 0%nat ∧ records out = []).
Proof.
  pose proof (empty_table_result [empty_df] 0%nat empty_df "date" (object [])
                eq_refl ltac:(by repeat constructor) eq_refl eq_refl) as [Hfilter Hagg].
  split; [|split].
  - by apply (Hfilter (date_str "2024-01-01") (timestamp (Calendar.midnight 2024 1 31))
                (Calendar.midnight 2024 1 1) (Calendar.midnight 2024 1 31)).
  - by apply (proj1 (Hagg "value" (object []) eq_refl eq_refl
                       ltac:(done) ltac:(done) ltac:(done))).
  - by apply (proj2 (Hagg "value" (object []) eq_refl eq_refl
                       ltac:(done) ltac:(done) ltac:(done))).
Defined.

(** ** What a call leaves of its argument *)

(** The three transformations that start with [data = data.copy()]
    leave the caller's table as it was. *)
Lemma calculate_growth_rate_keeps_argument h data df value_column s vals :
  h !! data = Some df →
  dict_get value_column (columns df) = Some s →
  as_float s = Return vals →
  value_column ≠ "previous_value" →
  ∃ r h', data_processor.calculate_growth_rate data value_column h = (Return r, h') ∧
          h' !! data = Some df.
Proof.
  intros Hd Hs Hv Hne. eexists _, _.
  split; [by eapply calculate_growth_rate_run|]. by apply lookup_old.
Qed.

Lemma calculate_moving_average_keeps_argument h data df value_column window s vals :
  h !! data = Some df →
  dict_get value_column (columns df) = Some s →
  as_float s = Return vals →
  ∃ r h', data_processor.calculate_moving_average data value_column window h = (Return r, h') ∧
          h' !! data = Some df.
Proof.
  intros Hd Hs Hv. eexists _, _.
  split; [by eapply calculate_moving_average_run|]. by apply lookup_old.
Qed.

Lemma calculate_percentages_keeps_argument h data df value_column total s vals :
  h !! data = Some df →
  dict_get value_column (columns df) = Some s →
  as_float s = Return vals →
  ∃ r h', data_processor.calculate_percentages data value_column total h = (Return r, h') ∧
          h' !! data = Some df.
Proof.
  intros Hd Hs Hv. unfold data_processor.calculate_percentages.
  erewrite bind_return by (by apply copy_run).
  assert (∃ t, (match total with
                | Some total => mret total
                | None => v ← getitem (length h) value_column; lift (series_sum v)
                end) (h ++ [df]) = (Return t, h ++ [df])) as [t Ht].
  { destruct total as [t|]; [by exists t|].
    erewrite bind_return by (by apply getitem_new).
    unfold lift. destruct s; try done; by eexists. }
  erewrite bind_return by exact Ht.
  erewrite bind_return by (by apply getitem_new).
  erewrite bind_return by (unfold lift, series_div_scalar; by rewrite Hv).
  erewrite bind_return by (unfold lift; reflexivity).
  erewrite bind_return by apply setitem_new.
  eexists _, _. split; [reflexivity|]. by apply lookup_old.
Qed.

(** The filter leaves a table whose dates are datetimes as it was. *)
Lemma filter_by_date_range_keeps_datetimes `{DatetimeParser}
    h data df date_column start_date end_date ts s e :
  h !! data = Some df →
  dict_get date_column (columns df) = Some (datetime64 ts) →
  data_processor.normalize_bound start_date = Return s →
  data_processor.normalize_bound end_date = Return e →
  ∃ r h', data_processor.filter_by_date_range data date_column start_date end_date h
            = (Return r, h') ∧
          h' !! data = Some df.
Proof.
  intros Hd Hc Hs He. eexists _, _.
  split; [by eapply (filter_by_date_range_run _ _ _ _ _ _ (datetime64 ts))|].
  rewrite with_column_id, list_insert_id by done. by apply lookup_old.
Qed.

(** C2 fails on the code: [convert_to_weekly] and [convert_to_monthly]
    assign the key columns to their argument, and so does every call that
    finds dates that are not datetimes with the converted date column.
    After [convert_to_weekly] on the table of the tests, the caller's
    table has the two columns [week] and [year] it did not have; after
    [convert_to_monthly], [month] and [year]; after [filter_by_date_range]
    on a table of date strings, the caller's date column is a datetime
    column. *)
Theorem aggregation_changes_its_argument :
  (∃ h' table,
     data_processor.convert_to_weekly 0%nat "date" "value" [test_df a_moment]
       = (Return 1%nat, h') ∧
     h' !! 0%nat = Some table ∧
     table ≠ test_df a_moment ∧
     (columns (test_df a_moment)).*1 = ["date"; "value"] ∧
     (columns table).*1 = ["date"; "value"; "week"; "year"]) ∧
  (∃ h' table,
     data_processor.convert_to_monthly 0%nat "date" "value" [test_df a_moment]
       = (Return 1%nat, h') ∧
     h' !! 0%nat = Some table ∧
     table ≠ test_df a_moment ∧
     (columns table).*1 = ["date"; "value"; "month"; "year"]) ∧
  (∃ h' table,
     data_processor.filter_by_date_range 0%nat "date"
         (date_str "2024-01-07") (date_str "2024-01-08") [str_df]
       = (Return 1%nat, h') ∧
     h' !! 0%nat = Some table ∧
     table ≠ str_df ∧
     dict_get "date" (columns str_df)
       = Some (object ["2024-01-01"; "2024-01-07"; "2024-01-08"; "2024-02-01"]) ∧
     dict_get "date" (columns table)
       = Some (datetime64 [Calendar.midnight 2024 1 1; Calendar.midnight 2024 1 7;
                           Calendar.midnight 2024 1 8; Calendar.midnight 2024 2 1])).
Proof.
  split; [|split].
  - eexists _, _. split; [vm_compute; reflexivity|].
    split; [reflexivity|]. split; [|split; reflexivity].
    intros E. apply (f_equal (λ t, length (columns t))) in E. discriminate E.
  - eexists _, _. split; [vm_compute; reflexivity|].
    split; [reflexivity|]. split; [|reflexivity].
    intros E. apply (f_equal (λ t, length (columns t))) in E. discriminate E.
  - eexists _, _. split; [vm_compute; reflexivity|].
    split; [reflexivity|]. split; [|split; reflexivity].
    intros E. apply (f_equal (λ t, dict_get "date" (columns t))) in E. discriminate E.
Qed.

(** ** Transformations that work on a copy *)

Lemma on_new_ret {A} h (a : A) : on_new h (mret a).
Proof. intros df. by eexists _, _. Qed.

Lemma on_new_lift {A} h (r : result A) : on_new h (lift r).
Proof. intros df. by eexists _, _. Qed.

Lemma on_new_getitem h key : on_new h (getitem (length h) key).
Proof.
  intros df. unfold getitem.
  erewrite bind_return by (apply deref_run, lookup_new). by eexists _, _.
Qed.

Lemma on_new_setitem h key s : on_new h (setitem (length h) key s).
Proof. intros df. rewrite setitem_new. by eexists _, _. Qed.

Lemma on_new_bind {A B} h (m : py A) (f : A → py B) :
  on_new h m → (∀ a, on_new h (f a)) → on_new h (m ≫= f).
Proof.
  intros Hm Hf df. destruct (Hm df) as (r & df' & E).
  rewrite bind_run, E. destruct r as [a|e]; [apply Hf|by eexists _, _].
Qed.

Ltac on_new :=
  repeat first
    [ apply on_new_ret | apply on_new_lift | apply on_new_getitem | apply on_new_setitem
    | apply on_new_bind; [|intros ?] ].

(** A computation that copies its argument and goes on with the copy
    appends one table to the store and changes none. *)
Lemma copy_then {A} (rest : nat → py A) h data r h' :
  (∀ h, on_new h (rest (length h))) →
  (copy data ≫= rest) h = (r, h') →
  h' = h ∨ ∃ df df', h !! data = Some df ∧ h' = h ++ [df'].
Proof.
  intros Hrest. rewrite bind_run. unfold copy at 1. rewrite bind_run. unfold deref.
  destruct (h !! data) as [df|]; simpl; [|intros [= _ <-]; by left].
  destruct (Hrest h df) as (r' & df' & ->). intros [= _ <-]. right. by eexists _, _.
Qed.

(** The three transformations that start with [data = data.copy()]
    change no table of the store, whether they return or raise: they
    leave the store as it was or with one more table. *)
Theorem copying_transformations_change_nothing h data value_column window total :
  (∀ r h', data_processor.calculate_growth_rate data value_column h = (r, h') →
           h `prefix_of` h' ∧ h' !! data = h !! data) ∧
  (∀ r h', data_processor.calculate_moving_average data value_column window h = (r, h') →
           h `prefix_of` h' ∧ h' !! data = h !! data) ∧
  (∀ r h', data_processor.calculate_percentages data value_column total h = (r, h') →
           h `prefix_of` h' ∧ h' !! data = h !! data).
Proof.
  assert (Hpre : ∀ h' : list DataFrame,
            h' = h ∨ (∃ df df', h !! data = Some df ∧ h' = h ++ [df']) →
            h `prefix_of` h' ∧ h' !! data = h !! data).
  { intros h' [->|(df & df' & E & ->)]; [done|]. split; [by apply prefix_app_r|].
    rewrite E. by apply lookup_old. }
  split; [|split]; intros r h' Hrun; apply Hpre; revert Hrun; apply copy_then; intros h0.
  - on_new.
  - on_new.
  - on_new. destruct total; on_new.
Qed.

Lemma run_pair {A} (m : py A) h : m h = ((m h).1, (m h).2).
Proof. by destruct (m h). Qed.

Lemma copying_transformations_change_nothing_witness :
  ([test_df a_moment]
     `prefix_of` (data_processor.calculate_growth_rate 0%nat "plays" [test_df a_moment]).2 ∧
   (data_processor.calculate_growth_rate 0%nat "plays" [test_df a_moment]).2 !! 0%nat
     = [test_df a_moment] !! 0%nat) ∧
  ([test_df a_moment]
     `prefix_of` (data_processor.calculate_moving_average 0%nat "value" 7 [test_df a_moment]).2 ∧
   (data_processor.calculate_moving_average 0%nat "value" 7 [test_df a_moment]).2 !! 0%nat
     = [test_df a_moment] !! 0%nat) ∧
  ([test_df a_moment]
     `prefix_of` (data_processor.calculate_percentages 0%nat "value" None [test_df a_moment]).2 ∧
   (data_processor.calculate_percentages 0%nat "value" None [test_df a_moment]).2 !! 0%nat
     = [test_df a_moment] !! 0%nat).
Proof.
  pose proof (copying_transformations_change_nothing [test_df a_moment] 0%nat "plays" 7 None)
    as [Hg _].
  pose proof (copying_transformations_change_nothing [test_df a_moment] 0%nat "value" 7 None)
    as (_ & Hm & Hp).
  split; [|split].
  - eapply Hg, run_pair.
  - eapply Hm, run_pair.
  - eapply Hp, run_pair.
Defined.

(** ** What the filter changes, and two filters in a row *)

(** [filter_by_date_range] adds one table to the store and changes at
    most the date column of its argument, which becomes the converted
    column; an argument whose dates are datetimes is left as it was. *)
Theorem filter_by_date_range_frame `{DatetimeParser}
    h data df date_column start_date end_date d ts s e :
  h !! data = Some df →
  dict_get date_column (columns df) = Some d →
  to_datetime d = Return (datetime64 ts) →
  data_processor.normalize_bound start_date = Return s →
  data_processor.normalize_bound end_date = Return e →
  ∃ r h' out table,
    data_processor.filter_by_date_range data date_column start_date end_date h = (Return r, h') ∧
    h' = <[data := table]> h ++ [out] ∧
    h' !! data = Some table ∧
    index table = index df ∧
    dict_get date_column (columns table) = Some (datetime64 ts) ∧
    (∀ key, key ≠ date_column → dict_get key (columns table) = dict_get key (columns df)) ∧
    (is_datetime64_dtype d = true → table = df ∧ h' = h ++ [out]).
Proof.
  intros Hd Hc Ht Hs He. eexists _, _, _, (with_column date_column (datetime64 ts) df).
  split; [by eapply filter_by_date_range_run|].
  split; [done|].
  split; [apply lookup_old; by eapply lookup_stored|].
  split; [done|].
  split; [apply dict_get_set_eq|].
  split; [intros key Hkey; simpl; by rewrite dict_get_set_ne|].
  intros Hdt. destruct d; try done. simpl in Ht. injection Ht as <-.
  rewrite with_column_id by done. split; [done|]. by rewrite list_insert_id.
Qed.

Lemma filter_by_date_range_frame_witness :
  ∃ r h' out table,
    data_processor.filter_by_date_range 0%nat "date"
        (date_str "2024-01-07") (date_str "2024-01-08") [str_df] = (Return r, h') ∧
    h' = <[0%nat := table]> [str_df] ++ [out] ∧
    h' !! 0%nat = Some table ∧
    index table = index str_df ∧
    dict_get "date" (columns table)
      = Some (datetime64 [Calendar.midnight 2024 1 1; Calendar.midnight 2024 1 7;
                          Calendar.midnight 2024 1 8; Calendar.midnight 2024 2 1]) ∧
    (∀ key, key ≠ "date" → dict_get key (columns table) = dict_get key (columns str_df)) ∧
    (is_datetime64_dtype (object ["2024-01-01"; "2024-01-07"; "2024-01-08"; "2024-02-01"]) = true →
     table = str_df ∧ h' = [str_df] ++ [out]).
Proof.
  apply (filter_by_date_range_frame [str_df] 0%nat str_df "date"
           (date_str "2024-01-07") (date_str "2024-01-08")
           (object ["2024-01-01"; "2024-01-07"; "2024-01-08"; "2024-02-01"])
           [Calendar.midnight 2024 1 1; Calendar.midnight 2024 1 7;
            Calendar.midnight 2024 1 8; Calendar.midnight 2024 2 1]
           (Calendar.midnight 2024 1 7) (Calendar.midnight 2024 1 8));
    reflexivity.
Defined.

Lemma select_twice {A B} (f1 f2 : B → bool) (l : list B) (x : list A) :
  select (f2 <$> select (f1 <$> l) l) (select (f1 <$> l) x)
  = select ((λ t, f1 t && f2 t) <$> l) x.
Proof.
  revert x. induction l as [|t l IH]; intros x; [reflexivity|].
  destruct x as [|a x]; [by rewrite !select_nil|].
  rewrite !fmap_cons, !select_cons. destruct (f1 t); cbn [andb].
  - rewrite fmap_cons, select_cons. destruct (f2 t); by rewrite IH.
  - apply IH.
Qed.

Lemma frame_select_twice {B} (f1 f2 : B → bool) (l : list B) df :
  frame_select (f2 <$> select (f1 <$> l) l) (frame_select (f1 <$> l) df)
  = frame_select ((λ t, f1 t && f2 t) <$> l) df.
Proof.
  unfold frame_select. simpl. f_equal; [apply select_twice|].
  rewrite <- list_fmap_compose. apply list_fmap_ext. intros _ [k s] _.
  unfold compose, prod_map. simpl. f_equal.
  destruct s; simpl; f_equal; apply select_twice.
Qed.

(** Two filters in a row are one filter on the intersection of the two
    ranges: filtering the result of a first call again gives the table
    that one call with the later start and the earlier end gives. *)
Theorem filter_by_date_range_twice `{DatetimeParser}
    h data df date_column d ts a1 b1 a2 b2 s1 e1 s2 e2 :
  h !! data = Some df →
  dict_get date_column (columns df) = Some d →
  to_datetime d = Return (datetime64 ts) →
  data_processor.normalize_bound a1 = Return s1 →
  data_processor.normalize_bound b1 = Return e1 →
  data_processor.normalize_bound a2 = Return s2 →
  data_processor.normalize_bound b2 = Return e2 →
  ∃ r1 h1 r2 h2 r3 h3 out,
    data_processor.filter_by_date_range data date_column a1 b1 h = (Return r1, h1) ∧
    data_processor.filter_by_date_range r1 date_column a2 b2 h1 = (Return r2, h2) ∧
    data_processor.filter_by_date_range data date_column
        (timestamp (s1 `max` s2)) (timestamp (e1 `min` e2)) h = (Return r3, h3) ∧
    h2 !! r2 = Some out ∧
    h3 !! r3 = Some out.
Proof.
  intros Hd Hc Ht Hs1 He1 Hs2 He2.
  pose proof (filter_by_date_range_run h data df date_column a1 b1 d ts s1 e1
                Hd Hc Ht Hs1 He1) as Hrun1.
  pose proof (filter_by_date_range_run h data df date_column
                (timestamp (s1 `max` s2)) (timestamp (e1 `min` e2)) d ts _ _
                Hd Hc Ht eq_refl eq_refl) as Hrun3.
  simpl in Hrun1, Hrun3. rewrite mask_and_between in Hrun1, Hrun3.
  set (table := with_column date_column (datetime64 ts) df) in *.
  set (f1 := λ t, bool_decide (s1 ≤ t ≤ e1)) in *.
  set (out1 := frame_select (f1 <$> ts) table) in *.
  set (h1 := <[data := table]> h ++ [out1]) in *.
  assert (Hr1 : h1 !! length h = Some out1) by apply lookup_new_stored.
  assert (Hc1 : dict_get date_column (columns out1)
                = Some (datetime64 (select (f1 <$> ts) ts))).
  { unfold out1. by erewrite frame_select_column by apply dict_get_set_eq. }
  pose proof (filter_by_date_range_run h1 (length h) out1 date_column a2 b2
                (datetime64 (select (f1 <$> ts) ts)) _ s2 e2
                Hr1 Hc1 eq_refl Hs2 He2) as Hrun2.
  simpl in Hrun2. rewrite mask_and_between, (with_column_id _ _ _ Hc1) in Hrun2.
  eexists _, _, _, _, _, _, _.
  split; [exact Hrun1|]. split; [exact Hrun2|]. split; [exact Hrun3|].
  split.
  - rewrite <- (length_insert h1 (length h) out1). apply lookup_new.
  - rewrite lookup_new_stored. f_equal. unfold out1.
    rewrite (frame_select_twice f1 (λ t, bool_decide (s2 ≤ t ≤ e2))).
    f_equal. apply list_fmap_ext. intros _ t _. unfold f1. simpl.
    rewrite <- bool_decide_and. apply bool_decide_ext. lia.
Qed.

Lemma filter_by_date_range_twice_witness :
  ∃ r1 h1 r2 h2 r3 h3 out,
    data_processor.filter_by_date_range 0%nat "date"
        (date_str "2024-01-01") (date_str "2024-01-08") [str_df] = (Return r1, h1) ∧
    data_processor.filter_by_date_range r1 "date"
        (date_str "2024-01-07") (date_str "2024-02-01") h1 = (Return r2, h2) ∧
    data_processor.filter_by_date_range 0%nat "date"
        (timestamp (Calendar.midnight 2024 1 1 `max` Calendar.midnight 2024 1 7))
        (timestamp (Calendar.midnight 2024 1 8 `min` Calendar.midnight 2024 2 1)) [str_df]
      = (Return r3, h3) ∧
    h2 !! r2 = Some out ∧
    h3 !! r3 = Some out.
Proof.
  apply (filter_by_date_range_twice [str_df] 0%nat str_df "date"
           (object ["2024-01-01"; "2024-01-07"; "2024-01-08"; "2024-02-01"])
           [Calendar.midnight 2024 1 1; Calendar.midnight 2024 1 7;
            Calendar.midnight 2024 1 8; Calendar.midnight 2024 2 1]);
    reflexivity.
Defined.

(** ** The rows of an aggregated table *)

#[local] Instance key_le_trans : Transitive key_le.
Proof. intros [a1 a2] [b1 b2] [c1 c2]. unfold key_le. simpl. lia. Qed.

#[local] Instance key_le_total : Total key_le.
Proof. intros [a1 a2] [b1 b2]. unfold key_le. simpl. lia. Qed.

Lemma group_keys_sorted keys : StronglySorted key_le (group_keys keys).
Proof. apply (StronglySorted_merge_sort key_le); apply _. Qed.

Lemma group_keys_length keys : (length (group_keys keys) ≤ length keys)%nat.
Proof.
  apply submseteq_length, NoDup_submseteq; [apply group_keys_NoDup|].
  intros k. apply group_keys_elem.
Qed.

Lemma zip_pair {A} (f g : A → Z) (l : list A) :
  zip (f <$> l) (g <$> l) = (λ t, (f t, g t)) <$> l.
Proof. induction l as [|t l IH]; [done|]. rewrite !fmap_cons. simpl zip. by rewrite IH. Qed.

Lemma zip_key {A} (f : A → Z * Z) (l : list A) :
  zip ((λ t, (f t).1) <$> l) ((λ t, (f t).2) <$> l) = f <$> l.
Proof. rewrite zip_pair. apply list_fmap_ext. intros _ t _. by destruct (f t). Qed.

(** The group of a key, when the keys are computed from the cells. *)
Lemma group_fmap {A} (f : A → Z * Z) (l : list A) k :
  group (f <$> l) l k = filter (λ t, f t = k) l.
Proof.
  unfold group. induction l as [|t l IH]; [done|].
  change (zip (f <$> t :: l) (t :: l)) with ((f t, t) :: zip (f <$> l) l).
  rewrite !filter_cons. cbn [fst].
  destruct (decide (f t = k)); [rewrite fmap_cons; cbn [snd]; by rewrite IH|exact IH].
Qed.

Lemma first_of_group {A} (f : A → Z * Z) (l : list A) (x0 : A) k :
  k ∈ group_keys (f <$> l) →
  ∃ t, head (filter (λ t, f t = k) l) = Some t ∧
       default x0 (head (group (f <$> l) l k)) = t ∧ f t = k.
Proof.
  intros Hk. apply (proj1 (group_keys_elem _ _)) in Hk.
  apply list_elem_of_fmap in Hk as (t0 & -> & Ht0).
  rewrite group_fmap.
  destruct (filter (λ t, f t = f t0) l) as [|t l'] eqn:E.
  - assert (t0 ∈ filter (λ t, f t = f t0) l) as Hin by (by apply list_elem_of_filter).
    rewrite E in Hin. by apply elem_of_nil in Hin.
  - exists t. split; [done|]. split; [done|].
    assert (t ∈ filter (λ t, f t = f t0) l) as Hin by (rewrite E; left).
    by apply list_elem_of_filter in Hin as [? _].
Qed.

(** The shape both aggregations give their result, for the keys [f]. *)
Lemma aggregated_rows (f : Z → Z * Z) (ts : list Z) :
  let gk := group_keys (f <$> ts) in
  zip gk.*1 gk.*2 = gk ∧
  StronglySorted key_le gk ∧ NoDup gk ∧
  (length gk ≤ length ts)%nat ∧
  Forall2 (λ t k, head (filter (λ t', f t' = k) ts) = Some t ∧ f t = k)
          ((λ k, default 0 (head (group (f <$> ts) ts k))) <$> gk) gk.
Proof.
  intros gk. split; [apply zip_fst_snd|].
  split; [apply group_keys_sorted|]. split; [apply group_keys_NoDup|].
  split; [unfold gk; etrans; [apply group_keys_length|]; by rewrite length_fmap|].
  apply Forall2_fmap_l, Forall_Forall2_diag, Forall_forall. intros k Hk.
  destruct (first_of_group f ts 0 k Hk) as (t & Hhead & Hdef & Hf).
  unfold compose. by rewrite Hdef.
Qed.

(** The table [convert_to_weekly] returns has exactly one row per ISO
    week of the input: every date of the input has the row of its week,
    every row is the week of a date of the input, and the rows are in
    ascending order of (year, week) without repetition, so that they are
    at most as many as the rows of the input. The columns are the year,
    the week, the value and the date, in this order, under a fresh range
    index: the value of a row is the sum over the rows of its week, and
    its date is the first date of the input, in row order, that falls in
    its week. The table [convert_to_monthly] returns is the same with
    calendar months. *)
Theorem aggregation_rows `{DatetimeParser} h data df date_column value_column d ts v :
  h !! data = Some df →
  dict_get date_column (columns df) = Some d →
  to_datetime d = Return (datetime64 ts) →
  dict_get value_column (columns df) = Some v →
  is_datetime64_dtype v = false →
  value_column ≠ date_column → value_column ≠ "year" → date_column ≠ "year" →
  (value_column ≠ "week" → date_column ≠ "week" →
   ∃ r h' out years weeks dates sums,
     data_processor.convert_to_weekly data date_column value_column h = (Return r, h') ∧
     h' !! r = Some out ∧
     (columns out).*1 = ["year"; "week"; value_column; date_column] ∧
     index out = range_index (nrows out) ∧
     dict_get "year" (columns out) = Some (int64 years) ∧
     dict_get "week" (columns out) = Some (int64 weeks) ∧
     dict_get value_column (columns out) = Some sums ∧
     dict_get date_column (columns out) = Some (datetime64 dates) ∧
     StronglySorted key_le (zip years weeks) ∧ NoDup (zip years weeks) ∧
     nrows out = length (zip years weeks) ∧
     (nrows out ≤ length ts)%nat ∧
     (∀ t, t ∈ ts → Calendar.isocalendar t ∈ zip years weeks) ∧
     agg agg_sum (Calendar.isocalendar <$> ts) (zip years weeks) v = Return sums ∧
     Forall2 (λ t k, head (filter (λ t', Calendar.isocalendar t' = k) ts) = Some t ∧
                     Calendar.isocalendar t = k)
             dates (zip years weeks)) ∧
  (value_column ≠ "month" → date_column ≠ "month" →
   ∃ r h' out years months dates sums,
     data_processor.convert_to_monthly data date_column value_column h = (Return r, h') ∧
     h' !! r = Some out ∧
     (columns out).*1 = ["year"; "month"; value_column; date_column] ∧
     index out = range_index (nrows out) ∧
     dict_get "year" (columns out) = Some (int64 years) ∧
     dict_get "month" (columns out) = Some (int64 months) ∧
     dict_get value_column (columns out) = Some sums ∧
     dict_get date_column (columns out) = Some (datetime64 dates) ∧
     StronglySorted key_le (zip years months) ∧ NoDup (zip years months) ∧
     nrows out = length (zip years months) ∧
     (nrows out ≤ length ts)%nat ∧
     (∀ t, t ∈ ts → (Calendar.year t, Calendar.month t) ∈ zip years months) ∧
     agg agg_sum ((λ t, (Calendar.year t, Calendar.month t)) <$> ts) (zip years months) v
       = Return sums ∧
     Forall2 (λ t k, head (filter (λ t', (Calendar.year t', Calendar.month t') = k) ts) = Some t ∧
                     (Calendar.year t, Calendar.month t) = k)
             dates (zip years months)).
Proof.
  intros Hd Hc Ht Hv Hdt Hvd Hvy Hdy. split.
  - intros Hvw Hdw.
    destruct (agg_sum_returns (Calendar.isocalendar <$> ts)
                (group_keys (Calendar.isocalendar <$> ts)) v Hdt) as (aggv & Hagg & _).
    pose proof (convert_to_weekly_run h data df date_column value_column d ts v aggv
                  Hd Hc Ht Hv Hvd Hvy Hvw Hdy Hdw) as Hrun.
    cbv zeta in Hrun. rewrite (zip_key Calendar.isocalendar) in Hrun.
    specialize (Hrun Hagg).
    destruct (aggregated_rows Calendar.isocalendar ts) as (Hz & Hs & Hn & Hl & Hf).
    eexists _, _, _, _, _, _, aggv. split; [exact Hrun|].
    split; [apply lookup_new_stored|].
    split; [reflexivity|].
    split; [unfold nrows, range_index; simpl; by rewrite length_fmap, length_seq|].
    split; [reflexivity|]. split; [reflexivity|].
    split; [simpl; rewrite !decide_False by done; by rewrite decide_True|].
    split; [simpl; rewrite !decide_False by done; by rewrite decide_True|].
    rewrite Hz. split; [done|]. split; [done|].
    split; [unfold nrows, range_index; simpl; by rewrite length_fmap, length_seq|].
    split; [unfold nrows, range_index; simpl; by rewrite length_fmap, length_seq|].
    split; [|by split].
    intros t Hin. apply group_keys_elem. by apply list_elem_of_fmap_2.
  - intros Hvm Hdm.
    destruct (agg_sum_returns ((λ t, (Calendar.year t, Calendar.month t)) <$> ts)
                (group_keys ((λ t, (Calendar.year t, Calendar.month t)) <$> ts)) v Hdt)
      as (aggv & Hagg & _).
    pose proof (convert_to_monthly_run h data df date_column value_column d ts v aggv
                  Hd Hc Ht Hv Hvd Hvy Hvm Hdy Hdm) as Hrun.
    cbv zeta in Hrun. rewrite zip_pair in Hrun.
    specialize (Hrun Hagg).
    destruct (aggregated_rows (λ t, (Calendar.year t, Calendar.month t)) ts)
      as (Hz & Hs & Hn & Hl & Hf).
    eexists _, _, _, _, _, _, aggv. split; [exact Hrun|].
    split; [apply lookup_new_stored|].
    split; [reflexivity|].
    split; [unfold nrows, range_index; simpl; by rewrite length_fmap, length_seq|].
    split; [reflexivity|]. split; [reflexivity|].
    split; [simpl; rewrite !decide_False by done; by rewrite decide_True|].
    split; [simpl; rewrite !decide_False by done; by rewrite decide_True|].
    rewrite Hz. split; [done|]. split; [done|].
    split; [unfold nrows, range_index; simpl; by rewrite length_fmap, length_seq|].
    split; [unfold nrows, range_index; simpl; by rewrite length_fmap, length_seq|].
    split; [|by split].
    intros t Hin. apply group_keys_elem.
    by apply (list_elem_of_fmap_2 (λ t, (Calendar.year t, Calendar.month t))).
Qed.

Lemma aggregation_rows_witness :
  (∃ r h' out years weeks dates sums,
     data_processor.convert_to_weekly 0%nat "date" "value" [test_df a_moment] = (Return r, h') ∧
     h' !! r = Some out ∧
     (columns out).*1 = ["year"; "week"; "value"; "date"] ∧
     index out = range_index (nrows out) ∧
     dict_get "year" (columns out) = Some (int64 years) ∧
     dict_get "week" (columns out) = Some (int64 weeks) ∧
     dict_get "value" (columns out) = Some sums ∧
     dict_get "date" (columns out) = Some (datetime64 dates) ∧
     StronglySorted key_le (zip years weeks) ∧ NoDup (zip years weeks) ∧
     nrows out = length (zip years weeks) ∧
     (nrows out ≤ length (test_dates a_moment))%nat ∧
     (∀ t, t ∈ test_dates a_moment → Calendar.isocalendar t ∈ zip years weeks) ∧
     agg agg_sum (Calendar.isocalendar <$> test_dates a_moment) (zip years weeks)
       (int64 test_values) = Return sums ∧
     Forall2 (λ t k, head (filter (λ t', Calendar.isocalendar t' = k) (test_dates a_moment)) = Some t ∧
                     Calendar.isocalendar t = k)
             dates (zip years weeks)) ∧
  (∃ r h' out years months dates sums,
     data_processor.convert_to_monthly 0%nat "date" "value" [test_df a_moment] = (Return r, h') ∧
     h' !! r = Some out ∧
     (columns out).*1 = ["year"; "month"; "value"; "date"] ∧
     index out = range_index (nrows out) ∧
     dict_get "year" (columns out) = Some (int64 years) ∧
     dict_get "month" (columns out) = Some (int64 months) ∧
     dict_get "value" (columns out) = Some sums ∧
     dict_get "date" (columns out) = Some (datetime64 dates) ∧
     StronglySorted key_le (zip years months) ∧ NoDup (zip years months) ∧
     nrows out = length (zip years months) ∧
     (nrows out ≤ length (test_dates a_moment))%nat ∧
     (∀ t, t ∈ test_dates a_moment → (Calendar.year t, Calendar.month t) ∈ zip years months) ∧
     agg agg_sum ((λ t, (Calendar.year t, Calendar.month t)) <$> test_dates a_moment)
       (zip years months) (int64 test_values) = Return sums ∧
     Forall2 (λ t k, head (filter (λ t', (Calendar.year t', Calendar.month t') = k)
                             (test_dates a_moment)) = Some t ∧
                     (Calendar.year t, Calendar.month t) = k)
             dates (zip years months)).
Proof.
  destruct (aggregation_rows [test_df a_moment] 0%nat (test_df a_moment) "date" "value"
              (datetime64 (test_dates a_moment)) (test_dates a_moment) (int64 test_values))
    as [W M]; try done.
  split; [by apply W|by apply M].
Defined.

(** The monthly aggregation keeps the total, as the weekly one does: for
    a table whose value column is numeric and holds no infinite cell, the
    value column of the table [convert_to_monthly] returns sums to what
    the value column of the input sums to. *)
Theorem convert_to_monthly_sum `{DatetimeParser}
    h data df date_column value_column d ts v vals :
  h !! data = Some df → wf_frame df →
  dict_get date_column (columns df) = Some d →
  to_datetime d = Return (datetime64 ts) →
  dict_get value_column (columns df) = Some v →
  as_float v = Return vals →
  Forall (λ x, isinf x = false) vals →
  value_column ≠ date_column →
  value_column ≠ "year" → value_column ≠ "month" →
  date_column ≠ "year" → date_column ≠ "month" →
  ∃ r h' monthly_data s total,
    data_processor.convert_to_monthly data date_column value_column h = (Return r, h') ∧
    h' !! r = Some monthly_data ∧
    dict_get value_column (columns monthly_data) = Some s ∧
    series_sum s = Return total ∧
    series_sum v = Return total.
Proof.
  intros Hd Hwf Hc Ht Hv Hvals Hfin Hvd Hvy Hvm Hdy Hdm.
  assert (Hlen : length ts = nrows df).
  { rewrite (to_datetime_len _ _ Ht). by eapply wf_column. }
  destruct (agg_sum_total (zip (Calendar.year <$> ts) (Calendar.month <$> ts)) v vals Hvals Hfin)
    as (aggv & total & Hagg & Hs1 & Hs2).
  { rewrite length_zip_same by (by rewrite !length_fmap).
    rewrite length_fmap, Hlen. symmetry. by eapply wf_column. }
  eexists _, _, _, aggv, total.
  split; [by eapply convert_to_monthly_run|].
  split; [apply lookup_new_stored|].
  split; [|done]. simpl.
  rewrite !decide_False by done. by rewrite decide_True.
Qed.

Lemma convert_to_monthly_sum_witness :
  ∃ r h' monthly_data s total,
    data_processor.convert_to_monthly 0%nat "date" "value" [str_df] = (Return r, h') ∧
    h' !! r = Some monthly_data ∧
    dict_get "value" (columns monthly_data) = Some s ∧
    series_sum s = Return total ∧
    series_sum (int64 [1; 2; 3; 4]) = Return total.
Proof.
  apply (convert_to_monthly_sum [str_df] 0%nat str_df "date" "value"
           (object ["2024-01-01"; "2024-01-07"; "2024-01-08"; "2024-02-01"])
           [Calendar.midnight 2024 1 1; Calendar.midnight 2024 1 7;
            Calendar.midnight 2024 1 8; Calendar.midnight 2024 2 1]
           (int64 [1; 2; 3; 4]) (of_Z <$> [1; 2; 3; 4]));
    try done.
  - by repeat constructor.
  - by repeat constructor.
Defined.

(** ** Percentages *)

Lemma calculate_percentages_run h data df value_column total s vals t :
  h !! data = Some df →
  dict_get value_column (columns df) = Some s →
  as_float s = Return vals →
  match total with Some x => x = t | None => series_sum s = Return t end →
  data_processor.calculate_percentages data value_column total h =
    (Return (length h),
     h ++ [with_column (value_column +:+ "_pct")
             (float64 ((λ u, fmul (fdiv u t) (of_Z 100)) <$> vals)) df]).
Proof.
  intros Hd Hs Hv Ht. unfold data_processor.calculate_percentages.
  erewrite bind_return by (by apply copy_run).
  assert ((match total with
           | Some total => mret total
           | None => v ← getitem (length h) value_column; lift (series_sum v)
           end) (h ++ [df]) = (Return t, h ++ [df])) as Htot.
  { destruct total as [x|]; [by subst|].
    erewrite bind_return by (by apply getitem_new).
    unfold lift. by rewrite Ht. }
  erewrite bind_return by exact Htot.
  erewrite bind_return by (by apply getitem_new).
  erewrite bind_return by (unfold lift, series_div_scalar; by rewrite Hv).
  erewrite bind_return by (unfold lift; reflexivity).
  erewrite bind_return by apply setitem_new.
  cbn. by rewrite <- list_fmap_compose.
Qed.

Lemma qsum_scale (c : Qc) (l : list Qc) :
  qsum ((λ q, q * c)%Qc <$> l) = (qsum l * c)%Qc.
Proof.
  induction l as [|q l IH]; [cbn; ring|].
  rewrite fmap_cons. cbn [qsum foldr]. fold (qsum ((λ q, q * c)%Qc <$> l)).
  fold (qsum l). rewrite IH. ring.
Qed.

(** Without a total, [calculate_percentages] divides by the sum of the
    column, and the percentages it adds sum to 100: for a numeric column
    without infinite cells whose sum is the exact sum of its cells (an
    int64 sum that did not wrap around) and is not zero. A missing cell
    (NaN) gets a missing percentage and counts in neither sum. The
    arithmetic is exact here. *)
Theorem percentages_sum_to_100 h data df value_column s vals :
  h !! data = Some df →
  dict_get value_column (columns df) = Some s →
  as_float s = Return vals →
  Forall (λ x, isinf x = false) vals →
  series_sum s = Return (Fin (qsum (summand <$> vals))) →
  qsum (summand <$> vals) ≠ 0%Qc →
  ∃ r h' out pct,
    data_processor.calculate_percentages data value_column None h = (Return r, h') ∧
    h' !! r = Some out ∧
    dict_get (value_column +:+ "_pct") (columns out) = Some (float64 pct) ∧
    series_sum (float64 pct) = Return (of_Z 100).
Proof.
  intros Hd Hs Hv Hfin Hsum Hnz.
  set (S := qsum (summand <$> vals)) in *.
  eexists _, _, _, _.
  split; [by eapply (calculate_percentages_run _ _ _ _ None)|].
  split; [apply lookup_new|].
  split; [simpl; apply dict_get_set_eq|].
  cbn [series_sum]. f_equal.
  rewrite nansum_summands.
  - rewrite <- list_fmap_compose.
    rewrite (list_fmap_ext _ ((λ q, q * (/ S * Qc_of_Z 100))%Qc ∘ summand) vals).
    + rewrite list_fmap_compose, qsum_scale. fold S. unfold of_Z. f_equal. by field.
    + intros i x Hx. eapply Forall_lookup_1 in Hfin; [|exact Hx].
      unfold compose. destruct x as [q| | |]; try done.
      * unfold of_Z. cbn. rewrite decide_False by done. cbn. by field.
      * cbn. ring.
  - apply Forall_fmap, Forall_forall. intros x Hx.
    eapply Forall_forall in Hfin; [|exact Hx].
    destruct x as [q| | |]; try done.
    unfold of_Z. cbn. by rewrite decide_False by done.
Qed.

Lemma percentages_sum_to_100_witness :
  ∃ r h' out pct,
    data_processor.calculate_percentages 0%nat "value" None [str_df] = (Return r, h') ∧
    h' !! r = Some out ∧
    dict_get "value_pct" (columns out) = Some (float64 pct) ∧
    series_sum (float64 pct) = Return (of_Z 100).
Proof.
  apply (percentages_sum_to_100 [str_df] 0%nat str_df "value" (int64 [1; 2; 3; 4])
           (of_Z <$> [1; 2; 3; 4])); try done.
  - by repeat constructor.
  - compute_done.
Defined.

Lemma percent_of_infinity q :
  q ≠ 0%Qc → isinf (fmul (signed_inf (sgn q)) (of_Z 100)) = true.
Proof.
  intros Hq. pose proof (isinf_signed_inf q Hq) as Hi.
  by destruct (signed_inf (sgn q)).
Qed.

(** Against a total of zero, given or found as the sum of a column of
    integers, [calculate_percentages] raises nothing: a row gets an
    infinity when its value is not zero, and NaN when it is zero. When
    the total is the sum of the column, the infinity has the sign of the
    value; a total that is given may be the negative zero of IEEE
    arithmetic, against which the signs are the other way round, and so
    the sign is stated for the sum of a column of integers only. (The
    sum of a column of floats is rounded, and is zero on other columns
    than the exact sum is: it is left out.) *)
Theorem percentages_of_zero_total h data df value_column total s vals :
  h !! data = Some df →
  dict_get value_column (columns df) = Some s →
  as_float s = Return vals →
  total = Some (of_Z 0) ∨
    (total = None ∧ (∃ l, s = int64 l) ∧ series_sum s = Return (of_Z 0)) →
  ∃ r h' out pct,
    data_processor.calculate_percentages data value_column total h = (Return r, h') ∧
    h' !! r = Some out ∧
    dict_get (value_column +:+ "_pct") (columns out) = Some (float64 pct) ∧
    length pct = length vals ∧
    (∀ i q, vals !! i = Some (Fin q) →
       (q ≠ 0%Qc → ∃ x, pct !! i = Some x ∧ isinf x = true) ∧
       (q = 0%Qc → pct !! i = Some NaN)) ∧
    (∀ l i z, s = int64 l → total = None → l !! i = Some z →
       (0 < z → pct !! i = Some PInf) ∧
       (z < 0 → pct !! i = Some NInf) ∧
       (z = 0 → pct !! i = Some NaN)).
Proof.
  intros Hd Hs Hv Htot.
  eexists _, _, _, _.
  split.
  { eapply (calculate_percentages_run _ _ _ _ total _ _ (of_Z 0)); try done.
    by destruct Htot as [->|(-> & _ & ?)]. }
  split; [apply lookup_new|].
  split; [simpl; apply dict_get_set_eq|].
  split; [by rewrite length_fmap|].
  split.
  - intros i q Hq. rewrite list_lookup_fmap, Hq. cbn [fmap option_fmap option_map].
    rewrite fdiv_zero. split.
    + intros Hne. eexists. split; [reflexivity|]. by apply percent_of_infinity.
    + by intros ->.
  - intros l i z -> _ Hz. simpl in Hv. injection Hv as <-.
    rewrite !list_lookup_fmap, Hz. cbn [fmap option_fmap option_map].
    change (of_Z z) with (Fin (Qc_of_Z z)). rewrite fdiv_zero. split; [|split].
    + intros. by rewrite sgn_pos by (by apply Qc_of_Z_pos).
    + intros. by rewrite sgn_neg by (by apply Qc_of_Z_neg).
    + by intros ->.
Qed.

Lemma percentages_of_zero_total_witness :
  ∃ r h' out pct,
    data_processor.calculate_percentages 0%nat "value" None [balanced_df] = (Return r, h') ∧
    h' !! r = Some out ∧
    dict_get "value_pct" (columns out) = Some (float64 pct) ∧
    length pct = 3%nat ∧
    (∀ i q, [of_Z 5; of_Z (-5); of_Z 0] !! i = Some (Fin q) →
       (q ≠ 0%Qc → ∃ x, pct !! i = Some x ∧ isinf x = true) ∧
       (q = 0%Qc → pct !! i = Some NaN)) ∧
    (∀ l i z, int64 [5; -5; 0] = int64 l → @None float = None → l !! i = Some z →
       (0 < z → pct !! i = Some PInf) ∧
       (z < 0 → pct !! i = Some NInf) ∧
       (z = 0 → pct !! i = Some NaN)).
Proof.
  apply (percentages_of_zero_total [balanced_df] 0%nat balanced_df "value" None
           (int64 [5; -5; 0]) [of_Z 5; of_Z (-5); of_Z 0]); try done.
  right. split; [done|]. split; [by eexists|done].
Defined.

(** ** Rates *)

Lemma feqb_Fin_0 q : feqb (Fin q) (of_Z 0) = bool_decide (q = 0%Qc).
Proof.
  change (bool_decide (Fin q = of_Z 0) = bool_decide (q = 0%Qc)).
  apply bool_decide_ext. unfold of_Z. rewrite Qc_of_Z_0.
  split; [by intros [= ->]|by intros ->].
Qed.

Lemma truediv_Fin x q : q ≠ 0%Qc → truediv x (Fin q) = Return (fdiv x (Fin q)).
Proof.
  intros Hq. unfold truediv.
  destruct (feqb (Fin q) (of_Z 0)) eqn:E; [|done].
  rewrite feqb_Fin_0 in E. by apply bool_decide_eq_true_1 in E.
Qed.

Lemma truediv_guarded x y :
  feqb y (of_Z 0) = false → truediv x y = Return (fdiv x y).
Proof. intros E. unfold truediv. by rewrite E. Qed.

(** Churn is the complement of retention, but for an initial value of
    zero: there retention and churn are both 0, and for every other
    initial value [calculate_churn] gives 1 minus what
    [calculate_retention] gives, and raises what it raises. The
    conversion rate is the retention read the other way round. On numbers
    that a float holds, none of the three raises. *)
Theorem churn_complements_retention initial current :
  analytics.calculate_conversion_rate current initial
    = analytics.calculate_retention initial current ∧
  (feqb initial (of_Z 0) = true →
     analytics.calculate_retention initial current = Return (of_Z 0) ∧
     analytics.calculate_churn initial current = Return (of_Z 0)) ∧
  (feqb initial (of_Z 0) = false →
     analytics.calculate_churn initial current
       = fsub (of_Z 1) <$> analytics.calculate_retention initial current) ∧
  (is_float initial → is_float current →
     ∃ r c, analytics.calculate_retention initial current = Return r ∧
            analytics.calculate_churn initial current = Return c).
Proof.
  unfold analytics.calculate_retention, analytics.calculate_churn,
    analytics.calculate_conversion_rate.
  destruct (feqb initial (of_Z 0)) eqn:E.
  - split; [done|]. split; [done|]. split; [done|]. intros _ _. by eexists _, _.
  - rewrite (truediv_guarded _ _ E). split; [done|]. split; [done|]. split; [done|].
    intros _ _. by eexists _, _.
Qed.

Lemma churn_complements_retention_witness :
  (analytics.calculate_retention (of_Z 0) (of_Z 150) = Return (of_Z 0) ∧
   analytics.calculate_churn (of_Z 0) (of_Z 150) = Return (of_Z 0)) ∧
  analytics.calculate_churn (of_Z 200) (of_Z 150)
    = fsub (of_Z 1) <$> analytics.calculate_retention (of_Z 200) (of_Z 150) ∧
  (∃ r c, analytics.calculate_retention (of_Z 200) (of_Z 150) = Return r ∧
          analytics.calculate_churn (of_Z 200) (of_Z 150) = Return c).
Proof.
  split; [|split].
  - apply (proj1 (proj2 (churn_complements_retention (of_Z 0) (of_Z 150)))). reflexivity.
  - apply (proj1 (proj2 (proj2 (churn_complements_retention (of_Z 200) (of_Z 150))))).
    reflexivity.
  - apply (proj2 (proj2 (proj2 (churn_complements_retention (of_Z 200) (of_Z 150)))));
      compute_done.
Defined.

(** ** Engagement scores *)

Lemma weighted_score_run a b c d :
  analytics.weighted_score a b c d =
    Return (fmul (fadd (fadd (fadd (fmul a (decimal 4 10)) (fmul b (decimal 2 10)))
                             (fmul c (decimal 2 10)))
                       (fmul d (decimal 2 10)))
                 (of_Z 100)).
Proof. reflexivity. Qed.

Lemma sgn_one q : (0 < q)%Qc → sgn q = 1.
Proof.
  unfold Qclt, Qlt, sgn. simpl. intros Hq. apply Z.sgn_pos. lia.
Qed.

Lemma decimal_pos n d : 0 < n → (0 < Q2Qc (n # d))%Qc.
Proof.
  intros Hn. unfold Qclt.
  change (this (Q2Qc (n # d))) with (Qred (n # d)). rewrite Qred_correct.
  unfold Qlt. simpl. lia.
Qed.

Lemma fmul_decimal_zero x n d :
  0 < n → feqb (fmul x (decimal n d)) (of_Z 0) = feqb x (of_Z 0).
Proof.
  intros Hn. pose proof (decimal_pos n d Hn) as Hd.
  destruct x as [q| | |]; try done.
  - unfold decimal. cbn [fmul]. rewrite !feqb_Fin_0. apply bool_decide_ext.
    split.
    + intros E. destruct (Qcmult_integral _ _ E) as [|E']; [done|].
      rewrite E' in Hd. by apply Qclt_not_eq in Hd.
    + intros ->. ring.
  - unfold decimal. cbn [fmul]. by rewrite sgn_one.
  - unfold decimal. cbn [fmul]. by rewrite sgn_one.
Qed.

Lemma truediv_decimal x streams n d :
  0 < n →
  truediv x (fmul streams (decimal n d)) =
    if feqb streams (of_Z 0) then Raise ZeroDivisionError
    else Return (fdiv x (fmul streams (decimal n d))).
Proof. intros Hn. unfold truediv. by rewrite fmul_decimal_zero. Qed.

Lemma engagement_score_zero_streams streams saves shares completion_rate :
  feqb streams (of_Z 0) = true →
  analytics.calculate_engagement_score streams saves shares completion_rate
    = Raise ZeroDivisionError.
Proof.
  intros E. unfold analytics.calculate_engagement_score.
  assert (truediv streams (of_Z 10000) = Return (fdiv streams (of_Z 10000))) as ->
    by (by apply truediv_Fin, Qc_of_Z_nonzero).
  rewrite !truediv_decimal by done. by rewrite E.
Qed.

(** [calculate_engagement_score] does not guard the division of the
    saves by [streams * 0.3]: when the number of streams is zero it
    raises a ZeroDivisionError, and it raises nothing else, on numbers
    that a float holds. (That it raises only then is not stated: the
    product of the code is a float product, which is zero for the
    smallest floats as well.) *)
Theorem engagement_score_raises streams saves shares completion_rate :
  is_float streams → is_float saves → is_float shares → is_float completion_rate →
  (feqb streams (of_Z 0) = true →
     analytics.calculate_engagement_score streams saves shares completion_rate
       = Raise ZeroDivisionError) ∧
  (∀ e, analytics.calculate_engagement_score streams saves shares completion_rate = Raise e →
        e = ZeroDivisionError).
Proof.
  intros _ _ _ _. split; [apply engagement_score_zero_streams|].
  unfold analytics.calculate_engagement_score.
  assert (truediv streams (of_Z 10000) = Return (fdiv streams (of_Z 10000))) as ->
    by (by apply truediv_Fin, Qc_of_Z_nonzero).
  rewrite !truediv_decimal by done.
  destruct (feqb streams (of_Z 0)) eqn:E; cbn [mbind result_bind].
  - by intros e [= <-].
  - by rewrite weighted_score_run.
Qed.

Lemma engagement_score_raises_witness :
  analytics.calculate_engagement_score (of_Z 0) (of_Z 3) (of_Z 1) (decimal 8 10)
    = Raise ZeroDivisionError.
Proof.
  apply (proj1 (engagement_score_raises (of_Z 0) (of_Z 3) (of_Z 1) (decimal 8 10)
                  ltac:(compute_done) ltac:(compute_done) ltac:(compute_done)
                  ltac:(compute_done))).
  reflexivity.
Defined.

(** *** The range of the score *)

Lemma Qc_pos_nonzero q : (0 < q)%Qc → q ≠ 0%Qc.
Proof. intros Hq ->. by apply Qclt_not_eq in Hq. Qed.

Lemma Qcdiv_nonneg a b : (0 <= a)%Qc → (0 < b)%Qc → (0 <= a / b)%Qc.
Proof.
  unfold Qcle, Qclt, Qcdiv, Qcmult, Qcinv. cbn [this Q2Qc].
  rewrite !Qred_correct. change (Qred 0) with 0%Q. intros Ha Hb.
  apply Qmult_le_0_compat; [done|]. by apply Qinv_le_0_compat, Qlt_le_weak.
Qed.

Lemma Qcmult_pos a b : (0 < a)%Qc → (0 < b)%Qc → (0 < a * b)%Qc.
Proof.
  unfold Qclt, Qcmult. cbn [this Q2Qc].
  rewrite !Qred_correct. change (Qred 0) with 0%Q. intros Ha Hb.
  by apply Qmult_lt_0_compat.
Qed.

Lemma py_min_one x :
  ∃ m, py_min (Fin x) (of_Z 1) = Fin m ∧ (m <= 1)%Qc ∧ ((0 <= x)%Qc → (0 <= m)%Qc).
Proof.
  unfold py_min, of_Z. cbn [fltb]. case_bool_decide as Hx.
  - exists (Qc_of_Z 1). split; [done|]. split; [done|]. intros _. done.
  - exists x. split; [done|]. split; [|done]. by apply Qcnot_lt_le in Hx.
Qed.

Lemma fdiv_Fin a b : b ≠ 0%Qc → fdiv (Fin a) (Fin b) = Fin (a / b)%Qc.
Proof. intros Hb. cbn. by rewrite decide_False. Qed.

(** For one stream at least, saves and shares that are not negative and
    a completion rate between 0 and 1, all of them numbers that a float
    holds, the engagement score is returned and lies between 0 and 100.
    (One stream at least: a count of streams; the float product
    [streams * 0.3] of the code is zero for the smallest positive floats,
    which the exact product of the model is not.) *)
Theorem engagement_score_range streams saves shares completion_rate :
  (1 <= streams)%Qc → (streams <= float_max)%Qc →
  (0 <= saves)%Qc → (saves <= float_max)%Qc →
  (0 <= shares)%Qc → (shares <= float_max)%Qc →
  (0 <= completion_rate)%Qc → (completion_rate <= 1)%Qc →
  ∃ score,
    analytics.calculate_engagement_score (Fin streams) (Fin saves) (Fin shares)
      (Fin completion_rate) = Return (Fin score) ∧
    (0 <= score)%Qc ∧ (score <= Qc_of_Z 100)%Qc.
Proof.
  intros Hq1 _ Ha _ Hb _ Hc0 Hc1.
  assert (0 < streams)%Qc as Hq by (by eapply Qclt_le_trans; [|exact Hq1]).
  clear Hq1.
  unfold analytics.calculate_engagement_score.
  assert (truediv (Fin streams) (of_Z 10000) = Return (Fin (streams / Qc_of_Z 10000)%Qc)) as ->.
  { unfold of_Z. rewrite truediv_Fin by (by apply Qc_of_Z_nonzero).
    by rewrite fdiv_Fin by (by apply Qc_of_Z_nonzero). }
  cbn [mbind result_bind].
  rewrite !truediv_decimal by done.
  rewrite feqb_Fin_0, bool_decide_eq_false_2 by (by apply Qc_pos_nonzero).
  cbn [mbind result_bind]. rewrite weighted_score_run.
  unfold decimal. cbn [fmul].
  pose proof (Qcmult_pos _ _ Hq (decimal_pos 3 10 eq_refl)) as H3.
  pose proof (Qcmult_pos _ _ Hq (decimal_pos 5 100 eq_refl)) as H5.
  rewrite !fdiv_Fin by (by apply Qc_pos_nonzero).
  destruct (py_min_one (streams / Qc_of_Z 10000)) as (m1 & -> & Hm1 & Hm1').
  destruct (py_min_one (saves / (streams * Q2Qc (3 # 10)))) as (m2 & -> & Hm2 & Hm2').
  destruct (py_min_one (shares / (streams * Q2Qc (5 # 100)))) as (m3 & -> & Hm3 & Hm3').
  assert (0 <= m1)%Qc as Hn1 by (by apply Hm1', Qcdiv_nonneg; [apply Qclt_le_weak|]).
  assert (0 <= m2)%Qc as Hn2 by (by apply Hm2', Qcdiv_nonneg).
  assert (0 <= m3)%Qc as Hn3 by (by apply Hm3', Qcdiv_nonneg).
  unfold of_Z. cbn [fmul fadd]. eexists. split; [reflexivity|].
  clear Hm1' Hm2' Hm3' H3 H5 Hq Ha Hb.
  unfold Qcle in *. cbn [this Qcmult Qcplus Q2Qc Qc_of_Z] in *.
  rewrite !Qred_correct.
  change (Qred 0) with 0%Q in *. change (Qred 1) with 1%Q in *. unfold inject_Z.
  split; lra.
Qed.

Lemma engagement_score_range_witness :
  ∃ score,
    analytics.calculate_engagement_score (of_Z 5000) (of_Z 1000) (of_Z 500) (decimal 8 10)
      = Return (Fin score) ∧
    (0 <= score)%Qc ∧ (score <= Qc_of_Z 100)%Qc.
Proof.
  apply (engagement_score_range (Qc_of_Z 5000) (Qc_of_Z 1000) (Qc_of_Z 500) (Q2Qc (8 # 10)));
    compute_done.
Defined.

(** *** The score of a song *)

Lemma save_rate_run streams n :
  streams ≠ 0 →
  truediv (of_Z n) (of_Z streams) = Return (Fin (Qc_of_Z n / Qc_of_Z streams)%Qc).
Proof.
  intros Hs. unfold of_Z. rewrite truediv_Fin by (by apply Qc_of_Z_nonzero).
  by rewrite fdiv_Fin by (by apply Qc_of_Z_nonzero).
Qed.



(** With streams, the two scores agree: the score of a song is the score
    [calculate_engagement_score] gives its streams, saves, shares and
    completion rate (in exact arithmetic: the code divides the save rate
    by 0.3 in one and the saves by 0.3 times the streams in the other). *)
Theorem engagement_scores_agree self :
  SongPerformance.total_streams self ≠ 0 →
  SongPerformance.get_engagement_score self =
    analytics.calculate_engagement_score (of_Z (SongPerformance.total_streams self))
      (of_Z (SongPerformance.saves self)) (of_Z (SongPerformance.shares self))
      (SongPerformance.avg_completion_rate self).
Proof.
  intros Hs.
  unfold SongPerformance.get_engagement_score, analytics.calculate_engagement_score,
    SongPerformance.save_rate, SongPerformance.share_rate.
  rewrite !decide_False by done. rewrite !save_rate_run by done.
  assert (∀ x n d, 0 < n → truediv x (decimal n d) = Return (fdiv x (decimal n d))) as Hd.
  { intros x n d Hn. by apply truediv_Fin, Qc_pos_nonzero, decimal_pos. }
  cbn [mbind result_bind]. rewrite !Hd by done.
  rewrite !truediv_decimal by done.
  rewrite feqb_of_Z, bool_decide_eq_false_2 by done.
  cbn [mbind result_bind].
  pose proof (Qc_of_Z_nonzero _ Hs) as Hs'.
  assert (∀ n d, 0 < n → Q2Qc (n # d) ≠ 0%Qc) as Hnz
    by (intros n d Hn; by apply Qc_pos_nonzero, decimal_pos).
  assert (∀ x n d, 0 < n →
            fdiv (Fin (Qc_of_Z x / Qc_of_Z (SongPerformance.total_streams self))%Qc)
                 (decimal n d)
            = fdiv (of_Z x) (fmul (of_Z (SongPerformance.total_streams self)) (decimal n d)))
    as Hq.
  { intros x n d Hn. unfold of_Z, decimal. cbn [fmul].
    rewrite !fdiv_Fin.
    - f_equal. field. split; [by apply Hnz|done].
    - intros E. destruct (Qcmult_integral _ _ E) as [|E']; [done|]. by apply Hnz in E'.
    - by apply Hnz. }
  by rewrite !Hq by done.
Qed.

Lemma engagement_scores_agree_witness :
  SongPerformance.get_engagement_score
    {| SongPerformance.song :=
         {| Song.title := "Intro"; Song.artist := "A"; Song.album := None;
            Song.release_date := None; Song.genre := None; Song.isrc := None;
            Song.duration_seconds := None |};
       SongPerformance.total_streams := 5000;
       SongPerformance.avg_completion_rate := decimal 8 10;
       SongPerformance.saves := 1000;
       SongPerformance.shares := 500;
       SongPerformance.daily_data := [];
       SongPerformance.platform_distribution := [] |}
  = analytics.calculate_engagement_score (of_Z 5000) (of_Z 1000) (of_Z 500) (decimal 8 10).
Proof.
  apply (engagement_scores_agree
           {| SongPerformance.song :=
                {| Song.title := "Intro"; Song.artist := "A"; Song.album := None;
                   Song.release_date := None; Song.genre := None; Song.isrc := None;
                   Song.duration_seconds := None |};
              SongPerformance.total_streams := 5000;
              SongPerformance.avg_completion_rate := decimal 8 10;
              SongPerformance.saves := 1000;
              SongPerformance.shares := 500;
              SongPerformance.daily_data := [];
              SongPerformance.platform_distribution := [] |}).
  discriminate.
Defined.

(** ** Cumulative sums *)

Lemma accumulate_length {A} (add : A → A → A) acc l :
  length (accumulate add acc l) = length l.
Proof. revert acc. induction l as [|x l IH]; intros acc; [done|]. simpl. by rewrite IH. Qed.

Lemma accumulate_lookup {A} (add : A → A → A) acc l i x :
  l !! i = Some x → accumulate add acc l !! i = Some (foldl add acc (take (S i) l)).
Proof.
  revert acc i. induction l as [|y l IH]; intros acc i Hi; [done|].
  destruct i as [|i]; [by destruct l|].
  simpl in Hi. cbn [accumulate take foldl]. rewrite lookup_cons. by apply IH.
Qed.

Lemma wrap64_add a x : wrap64 (wrap64 a + x) = wrap64 (a + x).
Proof.
  apply wrap64_eq. by rewrite <- Zplus_mod_idemp_l, wrap64_mod, Zplus_mod_idemp_l.
Qed.

Lemma foldl_wrap64 a l :
  foldl (λ a x, wrap64 (a + x)) (wrap64 a) l = wrap64 (a + zsum l).
Proof.
  revert a. induction l as [|x l IH]; intros a; cbn [foldl].
  - f_equal. unfold zsum. simpl. lia.
  - rewrite wrap64_add, IH. f_equal. unfold zsum. simpl. lia.
Qed.

Lemma fadd_assoc a b c : fadd (fadd a b) c = fadd a (fadd b c).
Proof. destruct a, b, c; simpl; try done. f_equal. ring. Qed.

Lemma fadd_0_r a : fadd a (of_Z 0) = a.
Proof. destruct a; try done. unfold of_Z. simpl. rewrite Qc_of_Z_0. f_equal. ring. Qed.

Lemma fadd_0_l a : fadd (of_Z 0) a = a.
Proof. destruct a; try done. unfold of_Z. simpl. rewrite Qc_of_Z_0. f_equal. ring. Qed.

(** The running sum with NaN cells as zeros is the sum that skips NaN. *)
Lemma foldl_nansum a l :
  foldl fadd a ((λ x, if isnan x then of_Z 0 else x) <$> l) = fadd a (nansum l).
Proof.
  unfold nansum, fsum. revert a. induction l as [|x l IH]; intros a.
  - simpl. by rewrite fadd_0_r.
  - rewrite fmap_cons, filter_cons. cbn [foldl]. rewrite IH.
    destruct x; simpl; try (by rewrite fadd_assoc).
    by rewrite fadd_0_r.
Qed.

(** [calculate_cumulative_sum] reads its table and changes nothing. Row
    [i] of the column it returns is the sum of the rows up to [i], as
    [series_sum] gives it for these rows: with the 64-bit wrap-around on
    an integer column, and skipping the missing cells of a float column,
    where the row of a missing cell is itself missing. *)
Theorem cumulative_sum_rows h data df column s :
  h !! data = Some df →
  dict_get column (columns df) = Some s →
  (∀ l, s = int64 l →
     ∃ cum, analytics.calculate_cumulative_sum data column h = (Return (int64 cum), h) ∧
            length cum = length l ∧
            ∀ i, (i < length l)%nat → cum !! i = Some (wrap64 (zsum (take (S i) l)))) ∧
  (∀ l, s = float64 l →
     ∃ cum, analytics.calculate_cumulative_sum data column h = (Return (float64 cum), h) ∧
            length cum = length l ∧
            ∀ i x, l !! i = Some x →
              cum !! i = Some (if isnan x then NaN else nansum (take (S i) l))).
Proof.
  intros Hd Hc. split.
  - intros l ->. eexists. split; [|split].
    + unfold analytics.calculate_cumulative_sum.
      erewrite bind_return by (by eapply getitem_run). reflexivity.
    + apply accumulate_length.
    + intros i Hi. destruct (lookup_lt_is_Some_2 l i Hi) as [x Hx].
      rewrite (accumulate_lookup _ _ _ _ _ Hx). f_equal.
      change 0 with (wrap64 0) at 1. by rewrite foldl_wrap64.
  - intros l ->. eexists. split; [|split].
    + unfold analytics.calculate_cumulative_sum.
      erewrite bind_return by (by eapply getitem_run). reflexivity.
    + rewrite length_zip_with, accumulate_length, length_fmap. lia.
    + intros i x Hx. rewrite lookup_zip_with, Hx. cbn [mbind option_bind].
      erewrite accumulate_lookup by (by rewrite list_lookup_fmap, Hx).
      cbn [mbind option_bind]. destruct (isnan x) eqn:E; [done|].
      f_equal. by rewrite <- fmap_take, foldl_nansum, fadd_0_l.
Qed.

Lemma cumulative_sum_rows_witness :
  (∃ cum, analytics.calculate_cumulative_sum 0%nat "value" [str_df]
            = (Return (int64 cum), [str_df]) ∧
          length cum = 4%nat ∧
          ∀ i, (i < 4)%nat → cum !! i = Some (wrap64 (zsum (take (S i) [1; 2; 3; 4])))) ∧
  (∃ cum, analytics.calculate_cumulative_sum 0%nat "value" [gap_df]
            = (Return (float64 cum), [gap_df]) ∧
          length cum = 3%nat ∧
          ∀ i x, [of_Z 1; NaN; of_Z 2] !! i = Some x →
            cum !! i = Some (if isnan x then NaN
                             else nansum (take (S i) [of_Z 1; NaN; of_Z 2]))).
Proof.
  split.
  - apply (proj1 (cumulative_sum_rows [str_df] 0%nat str_df "value" (int64 [1; 2; 3; 4])
                    eq_refl eq_refl) [1; 2; 3; 4] eq_refl).
  - apply (proj2 (cumulative_sum_rows [gap_df] 0%nat gap_df "value"
                    (float64 [of_Z 1; NaN; of_Z 2]) eq_refl eq_refl)
             [of_Z 1; NaN; of_Z 2] eq_refl).
Defined.

(** ** The running average *)

(** [calculate_running_average] returns the column that
    [calculate_moving_average] adds to its copy of the table, and leaves
    the store as it is. *)
Theorem running_average_is_moving_average h data df column window s vals :
  h !! data = Some df →
  dict_get column (columns df) = Some s →
  as_float s = Return vals →
  ∃ ma r h' out,
    analytics.calculate_running_average data column window h = (Return ma, h) ∧
    data_processor.calculate_moving_average data column window h = (Return r, h') ∧
    h' !! r = Some out ∧
    dict_get (data_processor.ma_column column window) (columns out) = Some ma.
Proof.
  intros Hd Hc Hv. eexists _, _, _, _.
  split; [|split; [by eapply calculate_moving_average_run|split; [apply lookup_new|]]].
  - unfold analytics.calculate_running_average.
    erewrite bind_return by (by eapply getitem_run).
    unfold lift, rolling_mean. rewrite Hv. reflexivity.
  - simpl. apply dict_get_set_eq.
Qed.

Lemma running_average_is_moving_average_witness :
  ∃ ma r h' out,
    analytics.calculate_running_average 0%nat "value" 2 [str_df] = (Return ma, [str_df]) ∧
    data_processor.calculate_moving_average 0%nat "value" 2 [str_df] = (Return r, h') ∧
    h' !! r = Some out ∧
    dict_get "value_ma2" (columns out) = Some ma.
Proof.
  apply (running_average_is_moving_average [str_df] 0%nat str_df "value" 2
           (int64 [1; 2; 3; 4]) (of_Z <$> [1; 2; 3; 4])); reflexivity.
Defined.

(** ** What the forecasts are *)

Lemma last_fmap_seq {A} (f : nat → A) n : last (f <$> seq 0 (S n)) = Some (f n).
Proof. rewrite seq_S, fmap_app. apply last_snoc. Qed.

Lemma window_at_last w (l : list float) :
  (w ≤ length l)%nat → l ≠ [] → window_at w (length l - 1) l = drop (length l - w) l.
Proof.
  intros Hw Hl. unfold window_at.
  assert (0 < length l)%nat by (destruct l; [done|simpl; lia]).
  replace (S (length l - 1) - w)%nat with (length l - w)%nat by lia.
  apply take_ge. rewrite length_drop. lia.
Qed.

(** The ['moving_average'] forecast is flat: [periods] copies of the mean
    of the last [min(7, n)] values of the column (none when [periods] is
    not positive), for a table with a row at least and a numeric column
    without infinite cells. A NaN among these values makes it NaN. *)
Theorem moving_average_forecast h data df column periods s vals :
  h !! data = Some df →
  dict_get column (columns df) = Some s →
  as_float s = Return vals →
  length vals = nrows df → vals ≠ [] →
  Forall (λ x, isinf x = false) vals →
  analytics.predict_future_value data column periods "moving_average" h =
    (Return (replicate (Z.to_nat periods)
               (fmean (drop (length vals - min 7 (length vals)) vals))), h).
Proof.
  intros Hd Hc Hv Hlen Hne _. unfold analytics.predict_future_value.
  rewrite decide_False, decide_True by done.
  erewrite bind_return by (by eapply len_run).
  erewrite bind_return by (by eapply getitem_run).
  erewrite bind_return by (unfold lift, rolling_mean; rewrite Hv; reflexivity).
  destruct (length vals) as [|n] eqn:En; [by destruct vals|].
  rewrite last_fmap_seq. erewrite bind_return by reflexivity.
  rewrite <- Hlen. rewrite rolling_mean_at_full by lia.
  pose proof (window_at_last (7 `min` S n) vals) as Hw. rewrite En in Hw.
  replace (S n - 1)%nat with n in Hw by lia.
  by rewrite Hw by (lia || done).
Qed.

Lemma moving_average_forecast_witness :
  analytics.predict_future_value 0%nat "value" 3 "moving_average" [str_df] =
    (Return (replicate 3 (fmean (of_Z <$> [1; 2; 3; 4]))), [str_df]).
Proof.
  exact (moving_average_forecast [str_df] 0%nat str_df "value" 3 (int64 [1; 2; 3; 4])
           (of_Z <$> [1; 2; 3; 4]) eq_refl eq_refl eq_refl eq_refl
           ltac:(discriminate) ltac:(by repeat constructor)).
Defined.

Lemma qsum_line a b (x : list Qc) :
  qsum ((λ u, a * u + b)%Qc <$> x) = (a * qsum x + b * Qc_of_Z (Z.of_nat (length x)))%Qc.
Proof.
  induction x as [|u x IH].
  - change (Z.of_nat (length [])) with 0. rewrite Qc_of_Z_0.
    change (qsum ((λ u, a * u + b)%Qc <$> [])) with 0%Qc. change (qsum []) with 0%Qc. ring.
  - rewrite fmap_cons. cbn [qsum foldr length]. fold (qsum ((λ u, a * u + b)%Qc <$> x)).
    fold (qsum x). rewrite IH, Nat2Z.inj_succ, <- Z.add_1_r, Z2Qc_inj_add.
    replace (Qc_of_Z 1) with 1%Qc by (by apply Qc_is_canon). ring.
Qed.

Lemma qsum_times_line a b (x : list Qc) :
  qsum (zip_with Qcmult x ((λ u, a * u + b)%Qc <$> x))
  = (a * qsum (zip_with Qcmult x x) + b * qsum x)%Qc.
Proof.
  induction x as [|u x IH].
  - cbn. ring.
  - rewrite fmap_cons. cbn [zip_with qsum foldr].
    fold (qsum (zip_with Qcmult x ((λ u, a * u + b)%Qc <$> x))).
    fold (qsum (zip_with Qcmult x x)). fold (qsum x). rewrite IH. ring.
Qed.

(** The least-squares line through the points of a line is that line. *)
Lemma polyfit1_line a b n :
  (2 ≤ n)%nat →
  polyfit1 (arange 0 (Z.of_nat n))
           ((λ i, Fin (a * Qc_of_Z (Z.of_nat i) + b)%Qc) <$> seq 0 n)
  = Return (Fin a, Fin b).
Proof.
  intros Hn. unfold polyfit1. rewrite arange_0.
  rewrite decide_False.
  2:{ rewrite !length_fmap, length_seq. intros [E|E]; [|lia].
      apply (f_equal length) in E. rewrite length_fmap, length_seq in E.
      simpl in E. lia. }
  set (x := Qc_of_Z <$> (Z.of_nat <$> seq 0 n)).
  replace ((λ i, Fin (a * Qc_of_Z (Z.of_nat i) + b)%Qc) <$> seq 0 n)
    with (Fin <$> ((λ u, a * u + b)%Qc <$> x))
    by (unfold x; by rewrite <- !list_fmap_compose).
  rewrite finite_values_Fin. cbv zeta. fold x.
  rewrite !length_fmap, length_seq.
  pose proof (polyfit_det n Hn) as Hdet. fold x in Hdet.
  rewrite decide_False by done.
  rewrite qsum_line, qsum_times_line.
  replace (length x) with n by (unfold x; by rewrite !length_fmap, length_seq).
  assert (Qc_of_Z (Z.of_nat n) ≠ 0%Qc) as Hnz by (apply Qc_of_Z_nonzero; lia).
  do 2 f_equal; f_equal; by field.
Qed.

(** On a column that is a line, [a * i + b] at row [i], the ['linear']
    forecast continues the line: it is [a * x + b] at the next [periods]
    row numbers [x] (in exact arithmetic), for a table of two rows or
    more. *)
Theorem linear_forecast_of_a_line h data df column periods s a b :
  h !! data = Some df →
  dict_get column (columns df) = Some s →
  as_float s = Return ((λ i, Fin (a * Qc_of_Z (Z.of_nat i) + b)%Qc) <$> seq 0 (nrows df)) →
  (2 ≤ nrows df)%nat →
  analytics.predict_future_value data column periods "linear" h =
    (Return ((λ x, Fin (a * Qc_of_Z x + b)%Qc)
               <$> arange (Z.of_nat (nrows df)) (Z.of_nat (nrows df) + periods)), h).
Proof.
  intros Hd Hc Hv Hn. unfold analytics.predict_future_value.
  rewrite decide_True by done.
  erewrite bind_return by (by eapply len_run).
  erewrite bind_return.
  2:{ rewrite (bind_return (getitem data column) _ h s h) by (by eapply getitem_run).
      unfold lift. by rewrite Hv. }
  erewrite bind_return by (unfold lift; by rewrite polyfit1_line).
  cbv beta iota.
  do 2 erewrite bind_return by (by eapply len_run).
  reflexivity.
Qed.

Lemma linear_forecast_of_a_line_witness :
  analytics.predict_future_value 0%nat "value" 2 "linear" [str_df] =
    (Return ((λ x, Fin (Qc_of_Z 1 * Qc_of_Z x + Qc_of_Z 1)%Qc) <$> arange 4 (4 + 2)), [str_df]).
Proof.
  apply (linear_forecast_of_a_line [str_df] 0%nat str_df "value" 2 (int64 [1; 2; 3; 4])
           (Qc_of_Z 1) (Qc_of_Z 1)); try done.
  - compute_done.
  - unfold nrows. simpl. lia.
Defined.

(** ** Date ranges *)

Lemma range_length n : length (range n) = Z.to_nat n.
Proof. unfold range. by rewrite length_fmap, length_seq. Qed.

Lemma range_lookup n i : (i < Z.to_nat n)%nat → range n !! i = Some (Z.of_nat i).
Proof. intros Hi. unfold range. by rewrite list_lookup_fmap, lookup_seq_lt. Qed.

Lemma steps_lookup (s D n : Z) i t :
  ((λ i, s + i * D) <$> range n) !! i = Some t →
  (i < Z.to_nat n)%nat ∧ t = s + Z.of_nat i * D.
Proof.
  intros Hi. assert (i < Z.to_nat n)%nat as Hlt.
  { apply lookup_lt_Some in Hi. by rewrite length_fmap, range_length in Hi. }
  rewrite list_lookup_fmap, range_lookup in Hi by done. by injection Hi as <-.
Qed.

(** [get_date_range] returns the dates from the start date on, one day
    apart, as long as they are not after the end date (the clock when no
    end date is given): all of them lie between the two bounds, the first
    is the start date, the last is less than a day before the end date,
    and there is none when the end date is before the start date. *)
Theorem get_date_range_days `{DatetimeParser} now start_date end_date s e :
  data_processor.normalize_bound start_date = Return s →
  data_processor.normalize_bound (default (timestamp now) end_date) = Return e →
  ∃ l, date_utils.get_date_range now start_date end_date = Return l ∧
       l = (λ i, s + Z.of_nat i * Calendar.ns_per_day) <$> seq 0 (length l) ∧
       Forall (λ t, s ≤ t ≤ e) l ∧
       (e < s → l = []) ∧
       (s ≤ e → head l = Some s ∧
                ∃ t, last l = Some t ∧ e - Calendar.ns_per_day < t).
Proof.
  intros Hs He. unfold date_utils.get_date_range. rewrite Hs. cbn [mbind result_bind].
  rewrite He. cbn [mbind result_bind].
  pose proof ns_per_day_pos as HD. generalize dependent Calendar.ns_per_day.
  intros D HD.
  set (days := (e - s) `div` D + 1).
  eexists. split; [reflexivity|]. split; [|split; [|split]].
  - rewrite length_fmap, range_length. unfold range.
    by rewrite <- list_fmap_compose.
  - apply Forall_forall. intros t Ht. apply list_elem_of_lookup in Ht as [i Hi].
    apply steps_lookup in Hi as [Hi ->].
    assert (Z.of_nat i ≤ (e - s) `div` D) as Hq by (unfold days in Hi; lia).
    pose proof (Z.mul_div_le (e - s) D HD). nia.
  - intros Hlt. assert (days ≤ 0) as Hd.
    { unfold days. assert ((e - s) `div` D < 0); [|lia]. apply Z.div_lt_upper_bound; lia. }
    unfold range. by replace (Z.to_nat days) with 0%nat by lia.
  - intros Hle. assert (0 ≤ (e - s) `div` D) as Hq by (apply Z.div_pos; lia).
    assert (Z.to_nat days = S (Z.to_nat ((e - s) `div` D))) as E by (unfold days; lia).
    unfold range. rewrite E. split.
    + simpl. f_equal. lia.
    + rewrite <- list_fmap_compose, last_fmap_seq. unfold compose.
      eexists. split; [reflexivity|].
      rewrite Z2Nat.id by done.
      pose proof (Z.mod_pos_bound (e - s) D HD). pose proof (Z.div_mod (e - s) D). lia.
Qed.

Lemma get_date_range_days_witness :
  ∃ l, date_utils.get_date_range a_moment (date_str "2024-03-10") None = Return l ∧
       l = (λ i, Calendar.midnight 2024 3 10 + Z.of_nat i * Calendar.ns_per_day)
             <$> seq 0 (length l) ∧
       Forall (λ t, Calendar.midnight 2024 3 10 ≤ t ≤ a_moment) l ∧
       (a_moment < Calendar.midnight 2024 3 10 → l = []) ∧
       (Calendar.midnight 2024 3 10 ≤ a_moment →
        head l = Some (Calendar.midnight 2024 3 10) ∧
        ∃ t, last l = Some t ∧ a_moment - Calendar.ns_per_day < t).
Proof.
  apply (get_date_range_days a_moment (date_str "2024-03-10") None); reflexivity.
Defined.

(** The dates of a period: [get_date_range] on the two dates that
    [get_date_range_for_period] returns gives the dates that
    [sample_data.get_date_range] generates for the days of the period,
    which are as many as [get_days_from_period] says, end at the clock of
    the period, and are between 7 and 365. *)
Theorem date_range_of_period `{DatetimeParser} now clock time_period :
  let days := date_utils.get_days_from_period time_period in
  let dates := sample_data.get_date_range clock days (Some now) in
  date_utils.get_date_range clock
    (timestamp (date_utils.get_date_range_for_period now time_period).1)
    (Some (timestamp (date_utils.get_date_range_for_period now time_period).2))
  = Return dates ∧
  Z.of_nat (length dates) = days ∧
  last dates = Some now ∧
  7 ≤ days ≤ 365.
Proof.
  intros days dates.
  assert (7 ≤ days ≤ 365) as Hdays.
  { unfold days, date_utils.get_days_from_period. repeat case_decide; lia. }
  split; [|split; [|split; [|done]]].
  - unfold date_utils.get_date_range, date_utils.get_date_range_for_period, dates,
      sample_data.get_date_range.
    cbn [default from_option id fst snd data_processor.normalize_bound mbind result_bind].
    fold days.
    pose proof ns_per_day_pos as HD. generalize dependent Calendar.ns_per_day.
    intros D HD. do 3 f_equal.
    replace (now - (now - (days - 1) * D)) with ((days - 1) * D) by lia.
    rewrite Z.div_mul by lia. lia.
  - unfold dates, sample_data.get_date_range. rewrite length_fmap, range_length. lia.
  - unfold dates, sample_data.get_date_range, range. cbn [default from_option id].
    replace (Z.to_nat days) with (S (Z.to_nat (days - 1))) by lia.
    rewrite <- list_fmap_compose, last_fmap_seq. unfold compose.
    f_equal. rewrite Z2Nat.id by lia. lia.
Qed.

(** ** Names of months and weekdays *)

Lemma civil_from_days_range d :
  1 ≤ (Calendar.civil_from_days d).1.2 ≤ 12 ∧ 1 ≤ (Calendar.civil_from_days d).2 ≤ 31.
Proof.
  unfold Calendar.civil_from_days. cbv zeta. cbn [fst snd].
  set (doe := d + 719468 - (d + 719468) `div` 146097 * 146097).
  assert (0 ≤ doe < 146097) as Hdoe by (unfold doe; Z.div_mod_to_equations; lia).
  clearbody doe.
  set (yoe := (doe - doe `div` 1460 + doe `div` 36524 - doe `div` 146096) `div` 365).
  set (doy := doe - (365 * yoe + yoe `div` 4 - yoe `div` 100)).
  assert (0 ≤ doy ≤ 365) as Hdoy by (unfold doy, yoe; Z.div_mod_to_equations; lia).
  clearbody doy. clear yoe.
  case_decide; Z.div_mod_to_equations; lia.
Qed.

Lemma month_range t : 1 ≤ Calendar.month t ≤ 12.
Proof. apply civil_from_days_range. Qed.

Lemma weekday_range d : 0 ≤ Calendar.weekday d ≤ 6.
Proof. unfold Calendar.weekday. Z.div_mod_to_equations. lia. Qed.

Lemma Z_enum (P : Z → Prop) (lo : Z) (n : nat) :
  (∀ k, (k < n)%nat → P (lo + Z.of_nat k)) → ∀ m, lo ≤ m < lo + Z.of_nat n → P m.
Proof.
  intros HP m Hm. replace m with (lo + Z.of_nat (Z.to_nat (m - lo))) by lia.
  apply HP. lia.
Qed.

(** The two month tables go together: for every number, the short name
    is the first three letters of the long one, and the two functions
    raise on the same numbers. A number is one less than a list index
    with Python's wrap-around, so that not only 1 to 12 are accepted: 0
    and the negative numbers down to -11 name the month twelve later, and
    every other number raises an IndexError. *)
Theorem month_name_tables (month_num : Z) :
  date_utils.get_short_month_name month_num
    = String.substring 0 3 <$> date_utils.get_month_name month_num ∧
  (-11 ≤ month_num ≤ 0 →
     date_utils.get_month_name month_num = date_utils.get_month_name (month_num + 12) ∧
     ∃ name, date_utils.get_month_name month_num = Return name) ∧
  (1 ≤ month_num ≤ 12 → ∃ name, date_utils.get_month_name month_num = Return name) ∧
  (month_num < -11 ∨ 12 < month_num → date_utils.get_month_name month_num = Raise IndexError).
Proof.
  destruct (decide (-11 ≤ month_num < -11 + Z.of_nat 24)) as [Hin|Hout].
  - revert month_num Hin. apply Z_enum. intros k Hk.
    do 24 (destruct k as [|k];
           [split; [reflexivity|split; [|split]];
            first [ intros; lia | intros _; by eauto ]|]).
    lia.
  - assert (date_utils.get_month_name month_num = Raise IndexError
            ∧ date_utils.get_short_month_name month_num = Raise IndexError) as [E1 E2].
    { unfold date_utils.get_month_name, date_utils.get_short_month_name, list_getitem.
      cbn [length]. destruct (decide (0 ≤ month_num - 1)).
      - rewrite !lookup_ge_None_2 by (cbn [length]; lia). done.
      - rewrite !decide_False by lia. done. }
    rewrite E1, E2. split; [done|]. split; [lia|]. split; [lia|done].
Qed.

Lemma month_name_tables_witness :
  (date_utils.get_month_name (-3) = date_utils.get_month_name (-3 + 12) ∧
   ∃ name, date_utils.get_month_name (-3) = Return name) ∧
  (∃ name, date_utils.get_month_name 3 = Return name) ∧
  date_utils.get_month_name 13 = Raise IndexError.
Proof.
  split; [|split].
  - apply (proj1 (proj2 (month_name_tables (-3)))). lia.
  - apply (proj1 (proj2 (proj2 (month_name_tables 3)))). lia.
  - apply (proj2 (proj2 (proj2 (month_name_tables 13)))). lia.
Defined.

(** ** The date parts of a table *)

Lemma on_new_ensure_datetime `{DatetimeParser} h date_column :
  on_new h (data_processor.ensure_datetime (length h) date_column).
Proof.
  unfold data_processor.ensure_datetime.
  apply on_new_bind; [apply on_new_getitem|]. intros d.
  destruct (is_datetime64_dtype d); on_new.
Qed.

(** [add_date_parts] works on a copy, as the transformations of the data
    processor that copy do and its two aggregations do not: whether it
    returns or raises, it changes no table of the store. *)
Theorem add_date_parts_changes_nothing `{DatetimeParser} h df date_column r h' :
  date_utils.add_date_parts df date_column h = (r, h') →
  h `prefix_of` h' ∧ h' !! df = h !! df.
Proof.
  intros Hrun.
  assert (h' = h ∨ ∃ t t', h !! df = Some t ∧ h' = h ++ [t']) as [->|(t & t' & E & ->)].
  { revert Hrun. apply copy_then. intros h0.
    apply on_new_bind; [apply on_new_ensure_datetime|]. intros _. on_new. }
  - done.
  - split; [by apply prefix_app_r|]. rewrite E. by apply lookup_old.
Qed.

Lemma add_date_parts_changes_nothing_witness :
  [str_df] `prefix_of` (date_utils.add_date_parts 0%nat "date" [str_df]).2 ∧
  (date_utils.add_date_parts 0%nat "date" [str_df]).2 !! 0%nat = [str_df] !! 0%nat.
Proof.
  eapply (add_date_parts_changes_nothing [str_df] 0%nat "date"), run_pair.
Defined.

Lemma mapM_returns {A B} (f : A → result B) (l : list A) :
  (∀ x, x ∈ l → ∃ y, f x = Return y) →
  ∃ ys, mapM f l = Return ys ∧ Forall2 (λ x y, f x = Return y) l ys.
Proof.
  induction l as [|x l IH]; intros Hf.
  - exists []. by split.
  - destruct (Hf x) as [y Hy]; [left|].
    destruct IH as (ys & Hys & HF); [intros; apply Hf; by right|].
    exists (y :: ys). split; [|by constructor].
    simpl. rewrite Hy. simpl. by rewrite Hys.
Qed.

Lemma get_weekday_name_returns w :
  0 ≤ w < 0 + Z.of_nat 7 → ∃ name, date_utils.get_weekday_name w = Return name.
Proof.
  revert w. apply Z_enum. intros k Hk.
  do 7 (destruct k as [|k]; [by eexists|]). lia.
Qed.

Lemma get_short_month_name_returns m :
  1 ≤ m < 1 + Z.of_nat 12 → ∃ name, date_utils.get_short_month_name m = Return name.
Proof.
  revert m. apply Z_enum. intros k Hk.
  do 12 (destruct k as [|k]; [by eexists|]). lia.
Qed.

Ltac getitem_new :=
  erewrite bind_return
    by (apply getitem_new; cbn [columns with_column];
        rewrite ?dict_get_set_ne by done; apply dict_get_set_eq).

(** On a table whose date column is or converts to datetimes,
    [add_date_parts] raises nothing, for a date column that is not named
    as one of the four numeric parts: it returns a new table with the
    rows of its argument and the columns of the year, month, day and
    weekday of each date, of the name of its weekday and of the short
    name of its month. No date has a weekday or a month without a
    name. *)
Theorem add_date_parts_columns `{DatetimeParser} h df t date_column d ts :
  h !! df = Some t →
  dict_get date_column (columns t) = Some d →
  to_datetime d = Return (datetime64 ts) →
  date_column ≠ "year" → date_column ≠ "month" →
  date_column ≠ "day" → date_column ≠ "weekday" →
  ∃ r h' out weekday_names month_names,
    date_utils.add_date_parts df date_column h = (Return r, h') ∧
    h' !! r = Some out ∧
    index out = index t ∧
    dict_get "year" (columns out) = Some (int64 (Calendar.year <$> ts)) ∧
    dict_get "month" (columns out) = Some (int64 (Calendar.month <$> ts)) ∧
    dict_get "day" (columns out) = Some (int64 (Calendar.day <$> ts)) ∧
    dict_get "weekday" (columns out)
      = Some (int64 ((λ t, Calendar.weekday (Calendar.day_number t)) <$> ts)) ∧
    dict_get "weekday_name" (columns out) = Some (object weekday_names) ∧
    dict_get "month_name" (columns out) = Some (object month_names) ∧
    Forall2 (λ t name,
               date_utils.get_weekday_name (Calendar.weekday (Calendar.day_number t))
               = Return name) ts weekday_names ∧
    Forall2 (λ t name, date_utils.get_short_month_name (Calendar.month t) = Return name)
            ts month_names.
Proof.
  intros Hd Hc Ht Hy Hm Hday Hw.
  destruct (mapM_returns date_utils.get_weekday_name
              ((λ t, Calendar.weekday (Calendar.day_number t)) <$> ts))
    as (wnames & Hwn & HwF).
  { intros w (t0 & -> & _)%list_elem_of_fmap. apply get_weekday_name_returns.
    pose proof (weekday_range (Calendar.day_number t0)). lia. }
  destruct (mapM_returns date_utils.get_short_month_name (Calendar.month <$> ts))
    as (mnames & Hmn & HmF).
  { intros m (t0 & -> & _)%list_elem_of_fmap. apply get_short_month_name_returns.
    pose proof (month_range t0). lia. }
  exists (length h). eexists _, _, wnames, mnames.
  split.
  { unfold date_utils.add_date_parts.
    erewrite bind_return by (by apply copy_run).
    erewrite bind_return.
    2:{ erewrite ensure_datetime_run by (done || apply lookup_new). by rewrite store_new. }
    getitem_new. erewrite bind_return by reflexivity.
    erewrite bind_return by apply setitem_new.
    getitem_new. erewrite bind_return by reflexivity.
    erewrite bind_return by apply setitem_new.
    getitem_new. erewrite bind_return by reflexivity.
    erewrite bind_return by apply setitem_new.
    getitem_new. erewrite bind_return by reflexivity.
    erewrite bind_return by apply setitem_new.
    getitem_new.
    erewrite bind_return by (unfold lift, series_apply; by rewrite Hwn).
    erewrite bind_return by apply setitem_new.
    getitem_new.
    erewrite bind_return by (unfold lift, series_apply; by rewrite Hmn).
    erewrite bind_return by apply setitem_new.
    reflexivity. }
  split; [apply lookup_new|].
  split; [done|].
  cbn [columns with_column].
  repeat (split; [by (rewrite ?dict_get_set_ne by done; apply dict_get_set_eq)|]).
  split; [by apply Forall2_fmap_l in HwF|by apply Forall2_fmap_l in HmF].
Qed.

Lemma add_date_parts_columns_witness :
  ∃ r h' out weekday_names month_names,
    date_utils.add_date_parts 0%nat "date" [zero_df] = (Return r, h') ∧
    h' !! r = Some out ∧
    index out = index zero_df ∧
    dict_get "year" (columns out)
      = Some (int64 (Calendar.year <$> [Calendar.midnight 2024 1 1; Calendar.midnight 2024 1 2])) ∧
    dict_get "month" (columns out)
      = Some (int64 (Calendar.month <$> [Calendar.midnight 2024 1 1; Calendar.midnight 2024 1 2])) ∧
    dict_get "day" (columns out)
      = Some (int64 (Calendar.day <$> [Calendar.midnight 2024 1 1; Calendar.midnight 2024 1 2])) ∧
    dict_get "weekday" (columns out)
      = Some (int64 ((λ t, Calendar.weekday (Calendar.day_number t))
                       <$> [Calendar.midnight 2024 1 1; Calendar.midnight 2024 1 2])) ∧
    dict_get "weekday_name" (columns out) = Some (object weekday_names) ∧
    dict_get "month_name" (columns out) = Some (object month_names) ∧
    Forall2 (λ t name,
               date_utils.get_weekday_name (Calendar.weekday (Calendar.day_number t))
               = Return name)
            [Calendar.midnight 2024 1 1; Calendar.midnight 2024 1 2] weekday_names ∧
    Forall2 (λ t name, date_utils.get_short_month_name (Calendar.month t) = Return name)
            [Calendar.midnight 2024 1 1; Calendar.midnight 2024 1 2] month_names.
Proof.
  apply (add_date_parts_columns [zero_df] 0%nat zero_df "date"
           (datetime64 [Calendar.midnight 2024 1 1; Calendar.midnight 2024 1 2]));
    done.
Defined.

(** ** The models: revenue shares *)

Lemma foldl_fadd_finite a qs : foldl fadd (Fin a) (Fin <$> qs) = Fin (a + qsum qs)%Qc.
Proof.
  revert a. induction qs as [|q qs IH]; intros a.
  - simpl. f_equal. change (qsum []) with 0%Qc. ring.
  - rewrite fmap_cons. cbn [foldl fadd]. rewrite IH. f_equal.
    change (qsum (q :: qs)) with (q + qsum qs)%Qc. ring.
Qed.

Lemma py_sum_finite qs : py_sum (Fin <$> qs) = Fin (qsum qs).
Proof.
  unfold py_sum, of_Z. rewrite foldl_fadd_finite, Qc_of_Z_0. f_equal. ring.
Qed.

Lemma mapM_Return {A B} (f : A → result B) (g : A → B) (l : list A) :
  (∀ x, x ∈ l → f x = Return (g x)) → mapM f l = Return (g <$> l).
Proof.
  induction l as [|x l IH]; intros Hf; [done|].
  simpl. rewrite Hf by left. simpl. rewrite IH by (intros; apply Hf; by right). done.
Qed.

Lemma dict_set_new {V} k (v : V) d : k ∉ d.*1 → dict_set k v d = d ++ [(k, v)].
Proof.
  induction d as [|[k' v'] d IH]; intros Hk; [done|].
  simpl in *. apply not_elem_of_cons in Hk as [Hne Hk].
  rewrite decide_False by done. by rewrite IH.
Qed.

Lemma foldl_dict_set {V} (acc l : list (string * V)) :
  NoDup (acc.*1 ++ l.*1) → foldl (λ d kv, dict_set kv.1 kv.2 d) acc l = acc ++ l.
Proof.
  revert acc. induction l as [|[k v] l IH]; intros acc Hnd.
  - by rewrite app_nil_r.
  - cbn [foldl fst snd]. rewrite dict_set_new.
    + rewrite IH; [by rewrite <- app_assoc|].
      rewrite fmap_app. simpl. by rewrite <- app_assoc.
    + simpl in Hnd. apply NoDup_app in Hnd as (_ & Hnd & _).
      intros Hk. apply (Hnd k Hk). left.
Qed.

(** A dict display with distinct keys holds its items in order. *)
Lemma dict_of_NoDup {V} (l : list (string * V)) : NoDup l.*1 → dict_of l = l.
Proof. intros Hnd. unfold dict_of. by rewrite foldl_dict_set. Qed.

Lemma Forall_dict_of {V} (P : string * V → Prop) l : Forall P l → Forall P (dict_of l).
Proof.
  unfold dict_of. assert (Forall P ([] : list (string * V))) as Hacc by constructor.
  revert Hacc. generalize ([] : list (string * V)).
  induction l as [|[k v] l IH]; intros acc Hacc Hl; [done|].
  apply Forall_cons in Hl as [Hkv Hl]. cbn [foldl]. apply IH; [|done].
  by apply Forall_dict_set.
Qed.

(** [get_platform_revenue_share] raises on no breakdown. When the
    revenues sum to zero every share is 0. When they are finite with a
    sum that is not zero and the platforms have distinct names, there is
    one share per platform, in order, and the shares sum to 1 (in exact
    arithmetic). *)
Theorem platform_revenue_share_total :
  (∀ self, ∃ share, RevenueData.get_platform_revenue_share self = Return share) ∧
  (∀ self,
     feqb (py_sum (PlatformData.revenue <$> RevenueData.platform_breakdown self)) (of_Z 0)
       = true →
     ∃ share, RevenueData.get_platform_revenue_share self = Return share ∧
              Forall (λ kv, kv.2 = of_Z 0) share) ∧
  (∀ self revenues,
     PlatformData.revenue <$> RevenueData.platform_breakdown self = Fin <$> revenues →
     NoDup (PlatformData.platform_name <$> RevenueData.platform_breakdown self) →
     qsum revenues ≠ 0%Qc →
     ∃ share, RevenueData.get_platform_revenue_share self = Return share ∧
              share.*1 = PlatformData.platform_name <$> RevenueData.platform_breakdown self ∧
              py_sum share.*2 = of_Z 1).
Proof.
  split; [|split].
  - intros self. unfold RevenueData.get_platform_revenue_share.
    destruct (feqb _ (of_Z 0)) eqn:E; [by eexists|].
    erewrite mapM_Return; [by eexists|].
    intros p _. cbv beta. rewrite (truediv_guarded _ _ E). reflexivity.
  - intros self E. unfold RevenueData.get_platform_revenue_share. rewrite E.
    eexists. split; [reflexivity|].
    apply Forall_dict_of, Forall_fmap, Forall_true. done.
  - intros self revenues Hrev Hnd Hnz.
    unfold RevenueData.get_platform_revenue_share.
    rewrite Hrev, py_sum_finite, feqb_Fin_0, bool_decide_eq_false_2 by done.
    erewrite mapM_Return.
    2:{ intros p _. cbv beta. rewrite truediv_Fin by done. reflexivity. }
    cbn [fmap result_fmap].
    rewrite dict_of_NoDup by (by rewrite <- list_fmap_compose).
    eexists. split; [reflexivity|]. split; [by rewrite <- list_fmap_compose|].
    rewrite <- list_fmap_compose.
    rewrite (list_fmap_ext _ ((λ x, fdiv x (Fin (qsum revenues))) ∘ PlatformData.revenue)
               (RevenueData.platform_breakdown self)) by done.
    rewrite list_fmap_compose, Hrev, <- list_fmap_compose.
    rewrite (list_fmap_ext _ (Fin ∘ (λ q, q * / qsum revenues)%Qc) revenues)
      by (intros; unfold compose; by rewrite fdiv_Fin).
    rewrite list_fmap_compose, py_sum_finite, qsum_scale. unfold of_Z. f_equal.
    replace (Qc_of_Z 1) with 1%Qc by (by apply Qc_is_canon). by field.
Qed.

Lemma platform_revenue_share_total_witness :
  (∃ share, RevenueData.get_platform_revenue_share no_revenue = Return share ∧
            Forall (λ kv, kv.2 = of_Z 0) share) ∧
  (∃ share, RevenueData.get_platform_revenue_share two_platforms = Return share ∧
            share.*1 = PlatformData.platform_name <$> RevenueData.platform_breakdown two_platforms ∧
            py_sum share.*2 = of_Z 1).
Proof.
  destruct platform_revenue_share_total as (_ & H0 & H1).
  split.
  - apply (H0 no_revenue). reflexivity.
  - apply (H1 two_platforms [Qc_of_Z 30; Qc_of_Z 10]).
    + reflexivity.
    + compute_done.
    + compute_done.
Defined.

(** ** The models: a history without entries *)



(** ** The models: growth *)

Lemma list_getitem_first {A} (x : A) l : list_getitem (x :: l) 0 = Return x.
Proof. reflexivity. Qed.

Lemma list_getitem_last {A} (x : A) l : list_getitem (l ++ [x]) (-1) = Return x.
Proof.
  unfold list_getitem. rewrite decide_False by lia.
  rewrite length_app. cbn [length]. rewrite decide_True by lia.
  replace (Z.to_nat (Z.of_nat (length l + 1) + -1)) with (length l) by lia.
  by rewrite list_lookup_middle.
Qed.

Lemma growth_run first last :
  ∃ g, ArtistProfile.growth first last = Return g ∧
       (0 < first → analytics.calculate_growth (of_Z last) (of_Z first) = Return g) ∧
       (first ≤ 0 → g = of_Z 0).
Proof.
  unfold ArtistProfile.growth, analytics.calculate_growth.
  destruct (decide (0 < first)) as [Hpos|Hneg].
  - rewrite feqb_of_Z, bool_decide_eq_false_2 by lia.
    assert (fsub (of_Z last) (of_Z first) = of_Z (last - first)) as ->.
    { unfold fsub, of_Z. cbn. f_equal. by rewrite Z2Qc_inj_sub. }
    unfold of_Z. rewrite truediv_Fin by (apply Qc_of_Z_nonzero; lia).
    eexists. split; [reflexivity|]. split; [done|lia].
  - eexists. split; [reflexivity|]. split; [lia|done].
Qed.



(** ** The table of the tests: a line

    The tests run the transformations on values that grow by the same
    step from row to row, and read two facts off the result; both hold
    for every such column. *)

Lemma sum_seq s w :
  2 * zsum (Z.of_nat <$> seq s w) = Z.of_nat w * (2 * Z.of_nat s + Z.of_nat w - 1).
Proof.
  induction w as [|w IH]; [simpl; lia|].
  rewrite seq_S, fmap_app, zsum_app. unfold zsum at 2. simpl. lia.
Qed.

Lemma window_of_seq (f : nat → float) n w i :
  (w ≤ S i)%nat → (i < n)%nat →
  window_at w i (f <$> seq 0 n) = f <$> seq (S i - w) w.
Proof.
  intros Hw Hi. unfold window_at.
  rewrite <- fmap_drop, <- fmap_take, drop_seq, take_seq. do 2 f_equal; lia.
Qed.

(** The mean of an odd number of consecutive values of a line is the
    middle one. *)
Lemma mean_of_line a b s m :
  fmean ((λ i, Fin (a * Qc_of_Z (Z.of_nat i) + b)%Qc) <$> seq s (2 * m + 1))
  = Fin (a * Qc_of_Z (Z.of_nat (s + m)) + b)%Qc.
Proof.
  set (w := (2 * m + 1)%nat).
  replace ((λ i, Fin (a * Qc_of_Z (Z.of_nat i) + b)%Qc) <$> seq s w)
    with (Fin <$> ((λ u, a * u + b)%Qc <$> (Qc_of_Z <$> (Z.of_nat <$> seq s w))))
    by (by rewrite <- !list_fmap_compose).
  rewrite fmean_finite.
  2:{ intros E. apply (f_equal length) in E. rewrite !length_fmap, length_seq in E.
      unfold w in E. simpl in E. lia. }
  rewrite qsum_line, qsum_of_Z, !length_fmap, length_seq. f_equal.
  assert (zsum (Z.of_nat <$> seq s w) = Z.of_nat w * Z.of_nat (s + m)) as ->.
  { pose proof (sum_seq s w). unfold w in *. nia. }
  rewrite Z2Qc_inj_mul.
  assert (Qc_of_Z (Z.of_nat w) ≠ 0%Qc) by (apply Qc_of_Z_nonzero; unfold w; lia).
  by field.
Qed.

(** On a column that is a line, the moving average over an odd window
    is, at every row that has a full window, the value at the middle row
    of the window (the tests check it within a tolerance). *)
Theorem moving_average_of_a_line h data df value_column m s a b n :
  h !! data = Some df →
  dict_get value_column (columns df) = Some s →
  as_float s = Return ((λ i, Fin (a * Qc_of_Z (Z.of_nat i) + b)%Qc) <$> seq 0 n) →
  ∃ r h' out ma,
    data_processor.calculate_moving_average data value_column (2 * m + 1) h = (Return r, h') ∧
    h' !! r = Some out ∧
    dict_get (data_processor.ma_column value_column (2 * m + 1)) (columns out)
      = Some (float64 ma) ∧
    ∀ i, (2 * m ≤ i < n)%nat →
      ma !! i = Some (Fin (a * Qc_of_Z (Z.of_nat (i - m)) + b)%Qc).
Proof.
  intros Hd Hc Hv. eexists _, _, _, _.
  split; [by eapply calculate_moving_average_run|].
  split; [apply lookup_new|].
  split; [simpl; apply dict_get_set_eq|].
  intros i Hi. rewrite length_fmap, length_seq.
  rewrite list_lookup_fmap, lookup_seq_lt by lia. cbn [fmap option_fmap option_map plus].
  rewrite rolling_mean_at_full by lia.
  rewrite window_of_seq by lia.
  change (m + (m + 0) + 1)%nat with (2 * m + 1)%nat.
  rewrite mean_of_line.
  by replace (S i - (2 * m + 1) + m)%nat with (i - m)%nat by lia.
Qed.

Lemma moving_average_of_a_line_witness :
  ∃ r h' out ma,
    data_processor.calculate_moving_average 0%nat "value" (2 * 1 + 1) [str_df] = (Return r, h') ∧
    h' !! r = Some out ∧
    dict_get (data_processor.ma_column "value" (2 * 1 + 1)) (columns out) = Some (float64 ma) ∧
    ∀ i, (2 * 1 ≤ i < 4)%nat →
      ma !! i = Some (Fin (Qc_of_Z 1 * Qc_of_Z (Z.of_nat (i - 1)) + Qc_of_Z 1)%Qc).
Proof.
  apply (moving_average_of_a_line [str_df] 0%nat str_df "value" 1 (int64 [1; 2; 3; 4])
           (Qc_of_Z 1) (Qc_of_Z 1) 4); try done.
  compute_done.
Defined.

Lemma Qcmult_nonneg a b : (0 <= a)%Qc → (0 <= b)%Qc → (0 <= a * b)%Qc.
Proof.
  unfold Qcle, Qcmult. cbn [this Q2Qc].
  rewrite !Qred_correct. change (Qred 0) with 0%Q. apply Qmult_le_0_compat.
Qed.

Lemma Qc_of_nat_nonneg k : (0 <= Qc_of_Z (Z.of_nat k))%Qc.
Proof.
  unfold Qcle, Qc_of_Z. cbn [this Q2Qc]. rewrite Qred_correct.
  unfold Qle, inject_Z. simpl. lia.
Qed.

Lemma Qcplus_pos_nonneg p a : (0 < p)%Qc → (0 <= a)%Qc → (0 < p + a)%Qc.
Proof.
  unfold Qclt, Qcle, Qcplus. cbn [this Q2Qc].
  rewrite !Qred_correct. change (Qred 0) with 0%Q. intros. lra.
Qed.

Lemma line_pos a b k : (0 <= a)%Qc → (0 < b)%Qc → (0 < a * Qc_of_Z (Z.of_nat k) + b)%Qc.
Proof.
  intros Ha Hb. rewrite Qcplus_comm.
  apply Qcplus_pos_nonneg; [done|]. apply Qcmult_nonneg; [done|apply Qc_of_nat_nonneg].
Qed.

Lemma line_step a b k :
  (a * Qc_of_Z (Z.of_nat (S k)) + b = (a * Qc_of_Z (Z.of_nat k) + b) + a)%Qc.
Proof.
  rewrite Nat2Z.inj_succ, <- Z.add_1_r, Z2Qc_inj_add.
  replace (Qc_of_Z 1) with 1%Qc by (by apply Qc_is_canon). ring.
Qed.

(** The rate of a step [a] from [p] to [p + a], and from there on. *)
Lemma rates_of_steps p a :
  (0 < p)%Qc → (0 <= a)%Qc →
  (0 <= (p + a + a + - (p + a)) / (p + a))%Qc ∧
  ((p + a + a + - (p + a)) / (p + a) <= (p + a + - p) / p)%Qc.
Proof.
  intros Hp Ha. pose proof (Qcplus_pos_nonneg p a Hp Ha) as Hq.
  pose proof (Qc_pos_nonzero _ Hp). pose proof (Qc_pos_nonzero _ Hq).
  replace (p + a + a + - (p + a))%Qc with a by ring.
  replace (p + a + - p)%Qc with a by ring.
  split; [by apply Qcdiv_nonneg|].
  apply Qcle_minus_iff.
  replace (a / p + - (a / (p + a)))%Qc with ((a * a) / (p * (p + a)))%Qc by (by field).
  apply Qcdiv_nonneg; [by apply Qcmult_nonneg|by apply Qcmult_pos].
Qed.



(** ** Aggregating an aggregated table *)

#[local] Instance key_le_antisymm : AntiSymm (=) key_le.
Proof. intros [a1 a2] [b1 b2]. unfold key_le. simpl. intros. f_equal; lia. Qed.

Lemma remove_dups_NoDup {A} `{EqDecision A} (l : list A) : NoDup l → remove_dups l = l.
Proof.
  induction 1 as [|x l Hx Hl IH]; [done|].
  simpl. destruct (decide_rel elem_of x l); [done|]. by rewrite IH.
Qed.

(** Keys that are sorted and distinct are their own groups. *)
Lemma group_keys_fixed gk : StronglySorted key_le gk → NoDup gk → group_keys gk = gk.
Proof.
  intros Hs Hn. unfold group_keys. rewrite remove_dups_NoDup by done.
  apply (StronglySorted_unique key_le); [|done|apply merge_sort_Permutation].
  apply (StronglySorted_merge_sort key_le); apply _.
Qed.

Lemma group_cons {A} k x gk (l : list A) k' :
  group (k :: gk) (x :: l) k' = if decide (k = k') then x :: group gk l k' else group gk l k'.
Proof.
  unfold group. change (zip (k :: gk) (x :: l)) with ((k, x) :: zip gk l).
  rewrite filter_cons. cbn [fst]. by destruct (decide (k = k')).
Qed.

Lemma group_notin {A} gk (l : list A) k : k ∉ gk → group gk l k = [].
Proof.
  revert l. induction gk as [|k0 gk IH]; intros l Hk; [done|].
  destruct l as [|x l]; [done|].
  apply not_elem_of_cons in Hk as [Hne Hk].
  rewrite group_cons, decide_False by done. by apply IH.
Qed.

Lemma group_singletons {A B} (F : list A → B) gk (l : list A) :
  NoDup gk → length l = length gk →
  (λ k, F (group gk l k)) <$> gk = (λ x, F [x]) <$> l.
Proof.
  intros Hn. revert l. induction Hn as [|k gk Hk Hn IH]; intros l Hl.
  - by destruct l.
  - destruct l as [|x l]; [done|]. rewrite !fmap_cons. f_equal.
    + by rewrite group_cons, decide_True, group_notin by done.
    + rewrite <- IH by (simpl in Hl; lia).
      apply list_fmap_ext. intros i k' Hk'. rewrite group_cons, decide_False; [done|].
      intros ->. apply Hk. by eapply list_elem_of_lookup_2.
Qed.

Section again.
Context (f : Z → Z * Z) (ts : list Z).

Lemma keys_of_firsts :
  f <$> ((λ k, default 0 (head (group (f <$> ts) ts k))) <$> group_keys (f <$> ts))
  = group_keys (f <$> ts).
Proof using Type.
  destruct (aggregated_rows f ts) as (_ & _ & _ & _ & HF).
  apply list_eq_Forall2, Forall2_fmap_l.
  eapply Forall2_impl; [exact HF|]. by intros t k [_ E].
Qed.

Lemma keys_of_keys : group_keys (group_keys (f <$> ts)) = group_keys (f <$> ts).
Proof using Type. apply group_keys_fixed; [apply group_keys_sorted|apply group_keys_NoDup]. Qed.

Lemma firsts_of_firsts (firsts : list Z) :
  length firsts = length (group_keys (f <$> ts)) →
  (λ k, default 0 (head (group (group_keys (f <$> ts)) firsts k))) <$> group_keys (f <$> ts)
  = firsts.
Proof using Type.
  intros Hlen.
  rewrite (group_singletons (λ g, default 0 (head g))) by (apply group_keys_NoDup || done).
  apply list_fmap_id.
Qed.

Lemma sums_of_sums v vals aggv :
  as_float v = Return vals →
  Forall (λ x, isinf x = false) vals →
  agg agg_sum (f <$> ts) (group_keys (f <$> ts)) v = Return aggv →
  agg agg_sum (group_keys (f <$> ts)) (group_keys (f <$> ts)) aggv = Return aggv.
Proof using Type.
  intros Hv Hfin Hagg. destruct v as [l|l|l|l]; try done; simpl in *.
  - injection Hv as <-. injection Hagg as <-. cbn [agg]. do 2 f_equal.
    rewrite (group_singletons nansum) by (apply group_keys_NoDup || by rewrite length_fmap).
    rewrite <- list_fmap_compose. apply list_fmap_ext. intros _ k _. unfold compose.
    rewrite (nansum_summands (group (f <$> ts) l k)).
    + change [Fin ?q] with (Fin <$> [q]). rewrite nansum_finite. f_equal.
      unfold qsum. cbn [foldr]. ring.
    + apply Forall_forall. intros x Hx%group_elem. by eapply Forall_forall in Hfin.
  - injection Hagg as <-. cbn [agg]. do 2 f_equal.
    rewrite (group_singletons (λ g, wrap64 (zsum g)))
      by (apply group_keys_NoDup || by rewrite length_fmap).
    rewrite <- list_fmap_compose. apply list_fmap_ext. intros _ k _. unfold compose.
    unfold zsum at 1. cbn [foldr]. rewrite wrap64_add. f_equal. lia.
Qed.

End again.

(** A table of the shape the aggregations return, whose keys are the
    sorted keys of its own dates and whose sums and dates are those of
    its one-row groups, is returned as it is. *)
Lemma convert_to_weekly_fixed `{DatetimeParser} h r date_column value_column gk aggv firsts :
  let out := {| index := range_index (length gk);
                columns := [("year", int64 gk.*1); ("week", int64 gk.*2);
                            (value_column, aggv); (date_column, datetime64 firsts)] |} in
  h !! r = Some out →
  Calendar.isocalendar <$> firsts = gk →
  group_keys gk = gk →
  agg agg_sum gk gk aggv = Return aggv →
  (λ k, default 0 (head (group gk firsts k))) <$> gk = firsts →
  value_column ≠ date_column →
  value_column ≠ "year" → value_column ≠ "week" →
  date_column ≠ "year" → date_column ≠ "week" →
  data_processor.convert_to_weekly r date_column value_column h
    = (Return (length h), h ++ [out]).
Proof.
  intros out Hout Hk Hgk Hagg Hfirsts Hvd Hvy Hvw Hdy Hdw.
  assert (dict_get date_column (columns out) = Some (datetime64 firsts)) as Hdc.
  { cbn. rewrite !decide_False by done. by rewrite decide_True. }
  assert (dict_get value_column (columns out) = Some aggv) as Hvc.
  { cbn. rewrite !decide_False by done. by rewrite decide_True. }
  pose proof (convert_to_weekly_run h r out date_column value_column
                (datetime64 firsts) firsts aggv aggv Hout Hdc eq_refl Hvc
                Hvd Hvy Hvw Hdy Hdw) as Hrun.
  cbv zeta in Hrun. rewrite (zip_key Calendar.isocalendar), Hk, Hgk, Hfirsts in Hrun.
  rewrite (Hrun Hagg). f_equal.
  assert ((λ t, (Calendar.isocalendar t).1) <$> firsts = gk.*1) as E1.
  { rewrite <- Hk, <- list_fmap_compose. unfold compose. reflexivity. }
  assert ((λ t, (Calendar.isocalendar t).2) <$> firsts = gk.*2) as E2.
  { rewrite <- Hk, <- list_fmap_compose. unfold compose. reflexivity. }
  rewrite E1, E2.
  rewrite (with_column_id date_column) by done.
  rewrite (with_column_id "week") by (cbn; by rewrite decide_False).
  rewrite (with_column_id "year") by done.
  by rewrite list_insert_id.
Qed.

Lemma convert_to_monthly_fixed `{DatetimeParser} h r date_column value_column gk aggv firsts :
  let out := {| index := range_index (length gk);
                columns := [("year", int64 gk.*1); ("month", int64 gk.*2);
                            (value_column, aggv); (date_column, datetime64 firsts)] |} in
  h !! r = Some out →
  (λ t, (Calendar.year t, Calendar.month t)) <$> firsts = gk →
  group_keys gk = gk →
  agg agg_sum gk gk aggv = Return aggv →
  (λ k, default 0 (head (group gk firsts k))) <$> gk = firsts →
  value_column ≠ date_column →
  value_column ≠ "year" → value_column ≠ "month" →
  date_column ≠ "year" → date_column ≠ "month" →
  data_processor.convert_to_monthly r date_column value_column h
    = (Return (length h), h ++ [out]).
Proof.
  intros out Hout Hk Hgk Hagg Hfirsts Hvd Hvy Hvm Hdy Hdm.
  assert (dict_get date_column (columns out) = Some (datetime64 firsts)) as Hdc.
  { cbn. rewrite !decide_False by done. by rewrite decide_True. }
  assert (dict_get value_column (columns out) = Some aggv) as Hvc.
  { cbn. rewrite !decide_False by done. by rewrite decide_True. }
  pose proof (convert_to_monthly_run h r out date_column value_column
                (datetime64 firsts) firsts aggv aggv Hout Hdc eq_refl Hvc
                Hvd Hvy Hvm Hdy Hdm) as Hrun.
  cbv zeta in Hrun. rewrite zip_pair, Hk, Hgk, Hfirsts in Hrun.
  rewrite (Hrun Hagg). f_equal.
  assert (Calendar.year <$> firsts = gk.*1) as E1.
  { rewrite <- Hk, <- list_fmap_compose. unfold compose. cbn [fst]. reflexivity. }
  assert (Calendar.month <$> firsts = gk.*2) as E2.
  { rewrite <- Hk, <- list_fmap_compose. unfold compose. cbn [snd]. reflexivity. }
  rewrite E1, E2.
  rewrite (with_column_id date_column) by done.
  rewrite (with_column_id "month") by (cbn; by rewrite decide_False).
  rewrite (with_column_id "year") by done.
  by rewrite list_insert_id.
Qed.

(** Aggregating twice is aggregating once: [convert_to_weekly] on the
    table it has returned leaves that table as it is (the key columns it
    assigns are there already) and returns an equal table, and so does
    [convert_to_monthly], for a numeric value column without infinite
    cells. *)
Theorem aggregation_idempotent `{DatetimeParser}
    h data df date_column value_column d ts v vals :
  h !! data = Some df →
  dict_get date_column (columns df) = Some d →
  to_datetime d = Return (datetime64 ts) →
  dict_get value_column (columns df) = Some v →
  as_float v = Return vals →
  Forall (λ x, isinf x = false) vals →
  value_column ≠ date_column → value_column ≠ "year" → date_column ≠ "year" →
  (value_column ≠ "week" → date_column ≠ "week" →
   ∃ r h1 out r2,
     data_processor.convert_to_weekly data date_column value_column h = (Return r, h1) ∧
     h1 !! r = Some out ∧
     data_processor.convert_to_weekly r date_column value_column h1
       = (Return r2, h1 ++ [out])) ∧
  (value_column ≠ "month" → date_column ≠ "month" →
   ∃ r h1 out r2,
     data_processor.convert_to_monthly data date_column value_column h = (Return r, h1) ∧
     h1 !! r = Some out ∧
     data_processor.convert_to_monthly r date_column value_column h1
       = (Return r2, h1 ++ [out])).
Proof.
  intros Hd Hc Ht Hv Hvals Hfin Hvd Hvy Hdy.
  assert (is_datetime64_dtype v = false) as Hdt by (by destruct v).
  split.
  - intros Hvw Hdw.
    set (keys := Calendar.isocalendar <$> ts).
    destruct (agg_sum_returns keys (group_keys keys) v Hdt) as (aggv & Hagg & _).
    pose proof (convert_to_weekly_run h data df date_column value_column d ts v aggv
                  Hd Hc Ht Hv Hvd Hvy Hvw Hdy Hdw) as Hrun.
    cbv zeta in Hrun. rewrite (zip_key Calendar.isocalendar) in Hrun.
    specialize (Hrun Hagg).
    eexists _, _, _, _. split; [exact Hrun|].
    split; [apply lookup_new_stored|].
    apply convert_to_weekly_fixed; try done.
    + apply lookup_new_stored.
    + apply keys_of_firsts.
    + apply keys_of_keys.
    + by eapply sums_of_sums.
    + apply firsts_of_firsts. by rewrite length_fmap.
  - intros Hvm Hdm.
    set (keys := (λ t, (Calendar.year t, Calendar.month t)) <$> ts).
    destruct (agg_sum_returns keys (group_keys keys) v Hdt) as (aggv & Hagg & _).
    pose proof (convert_to_monthly_run h data df date_column value_column d ts v aggv
                  Hd Hc Ht Hv Hvd Hvy Hvm Hdy Hdm) as Hrun.
    cbv zeta in Hrun. rewrite zip_pair in Hrun.
    specialize (Hrun Hagg).
    eexists _, _, _, _. split; [exact Hrun|].
    split; [apply lookup_new_stored|].
    apply convert_to_monthly_fixed; try done.
    + apply lookup_new_stored.
    + apply (keys_of_firsts (λ t, (Calendar.year t, Calendar.month t))).
    + apply (keys_of_keys (λ t, (Calendar.year t, Calendar.month t))).
    + by eapply (sums_of_sums (λ t, (Calendar.year t, Calendar.month t))).
    + apply (firsts_of_firsts (λ t, (Calendar.year t, Calendar.month t))).
      by rewrite length_fmap.
Qed.

Lemma aggregation_idempotent_witness :
  (∃ r h1 out r2,
     data_processor.convert_to_weekly 0%nat "date" "value" [str_df] = (Return r, h1) ∧
     h1 !! r = Some out ∧
     data_processor.convert_to_weekly r "date" "value" h1 = (Return r2, h1 ++ [out])) ∧
  (∃ r h1 out r2,
     data_processor.convert_to_monthly 0%nat "date" "value" [str_df] = (Return r, h1) ∧
     h1 !! r = Some out ∧
     data_processor.convert_to_monthly r "date" "value" h1 = (Return r2, h1 ++ [out])).
Proof.
  destruct (aggregation_idempotent [str_df] 0%nat str_df "date" "value"
              (object ["2024-01-01"; "2024-01-07"; "2024-01-08"; "2024-02-01"])
              [Calendar.midnight 2024 1 1; Calendar.midnight 2024 1 7;
               Calendar.midnight 2024 1 8; Calendar.midnight 2024 2 1]
              (int64 [1; 2; 3; 4]) (of_Z <$> [1; 2; 3; 4]))
    as [W M]; try done.
  - by repeat constructor.
  - split; [by apply W|by apply M].
Defined.
